(** * MARC Record Tool: scraping parsers, filename deriver, endpoint
      validation and the catalogue search worker

    A shallow embedding of [utils.py], [cataloging_tab.py], [scrape_tab.py]
    and [search_tab.py].

    Conventions of the embedding.
    - A Python [str] is a [string]; a character is read as a code point in
      0..255, and the character classes below ([isspace], [isdigit], word
      characters, line boundaries) are those of Python on that range.
    - A call that can raise returns a [pyres]; [try ... except ValueError]
      is [try_except_ValueError].
    - BeautifulSoup, requests, pymarc's field validation, [str.format] and
      [urllib.parse.quote] are collaborators: the DOM they produce is a
      concrete tree ([Bs4]), the others are fields of [Collaborators];
      [urlparse] and [parse_qs] are fields of [StdLib].
    - What the interface shows (the log, dialogs, colours, buttons) is left
      out, except where a definition says otherwise. *)

From Stdlib Require Import Bool Arith ZArith Lia List Ascii String.
Import ListNotations.
Open Scope string_scope.
Open Scope list_scope.
Open Scope nat_scope.

(* ================================================================= *)
(** ** Python built-ins on [str] *)

Module Py.

Definition code (c : ascii) : nat := nat_of_ascii c.

Definition in_range (lo hi : nat) (c : ascii) : bool :=
  (lo <=? code c) && (code c <=? hi).

(** [str.isspace] on one character, which is also the regex class [\s]. *)
Definition isspace (c : ascii) : bool :=
  in_range 9 13 c || in_range 28 32 c || (code c =? 133) || (code c =? 160).

(** The ASCII decimal digits; the regex class [\d] on this range. *)
Definition isdecimal (c : ascii) : bool := in_range 48 57 c.

(** [str.isdigit] on one character: the decimal digits and the superscript
    digits of Latin-1, which [int] does not accept. *)
Definition isdigit_char (c : ascii) : bool :=
  isdecimal c || (code c =? 178) || (code c =? 179) || (code c =? 185).

Definition isupper (c : ascii) : bool :=
  in_range 65 90 c || (in_range 192 222 c && negb (code c =? 215)).

Definition lower_char (c : ascii) : ascii :=
  if isupper c then ascii_of_nat (code c + 32) else c.

(** The regex class [a-zA-Z0-9]. *)
Definition ascii_alnum (c : ascii) : bool :=
  in_range 97 122 c || in_range 65 90 c || in_range 48 57 c.

(** The regex class [\w]: alphanumeric characters and the underscore. *)
Definition isword (c : ascii) : bool :=
  ascii_alnum c || (code c =? 95)
  || (code c =? 170) || (code c =? 178) || (code c =? 179) || (code c =? 181)
  || (code c =? 185) || (code c =? 186) || in_range 188 190 c
  || in_range 192 214 c || in_range 216 246 c || in_range 248 255 c.

(** Line boundaries of [str.splitlines]. *)
Definition islinebreak (c : ascii) : bool :=
  in_range 10 13 c || in_range 28 30 c || (code c =? 133).

Fixpoint map_chars (f : ascii -> ascii) (s : string) : string :=
  match s with
  | EmptyString => EmptyString
  | String c r => String (f c) (map_chars f r)
  end.

Fixpoint filter_chars (p : ascii -> bool) (s : string) : string :=
  match s with
  | EmptyString => EmptyString
  | String c r => if p c then String c (filter_chars p r) else filter_chars p r
  end.

Fixpoint all_chars (p : ascii -> bool) (s : string) : bool :=
  match s with
  | EmptyString => true
  | String c r => p c && all_chars p r
  end.

(** Truthiness of a [str]: non-empty. *)
Definition truthy (s : string) : bool :=
  match s with EmptyString => false | String _ _ => true end.

Definition lower (s : string) : string := map_chars lower_char s.

Fixpoint lstrip (s : string) : string :=
  match s with
  | EmptyString => EmptyString
  | String c r => if isspace c then lstrip r else s
  end.

Fixpoint rstrip (s : string) : string :=
  match s with
  | EmptyString => EmptyString
  | String c r =>
      let r' := rstrip r in
      if isspace c && negb (truthy r') then EmptyString else String c r'
  end.

Definition strip (s : string) : string := rstrip (lstrip s).

(** [s.startswith(p)]. *)
Definition startswith (p s : string) : bool := String.prefix p s.

(** [sub in s]. *)
Fixpoint contains (sub s : string) : bool :=
  String.prefix sub s ||
  match s with
  | EmptyString => false
  | String _ r => contains sub r
  end.

(** [s.replace(old, new)] for a one-character [old]. *)
Fixpoint replace_char (old : ascii) (new : string) (s : string) : string :=
  match s with
  | EmptyString => EmptyString
  | String c r =>
      if Ascii.eqb c old then (new ++ replace_char old new r)%string
      else String c (replace_char old new r)
  end.

(** Slices [s[:n]] and [s[n:]], and the index [s[n]]. *)
Fixpoint take (n : nat) (s : string) : string :=
  match n, s with
  | S k, String c r => String c (take k r)
  | _, _ => EmptyString
  end.

Fixpoint drop (n : nat) (s : string) : string :=
  match n, s with
  | S k, String _ r => drop k r
  | _, _ => s
  end.

Definition index (s : string) (n : nat) : option ascii := String.get n s.

Definition str1 (c : ascii) : string := String c EmptyString.

(** [s.split(sep)] for a one-character separator. *)
Fixpoint split_char (sep : ascii) (s : string) : list string :=
  match s with
  | EmptyString => [EmptyString]
  | String c r =>
      if Ascii.eqb c sep then EmptyString :: split_char sep r
      else match split_char sep r with
           | [] => [str1 c]
           | w :: ws => String c w :: ws
           end
  end.

(** The maximal runs of non-whitespace characters ([s.split()]; also how
    BeautifulSoup cuts a [class] attribute into its values). *)
Fixpoint words_from (cur : string) (s : string) : list string :=
  match s with
  | EmptyString => if truthy cur then [cur] else []
  | String c r =>
      if isspace c
      then (if truthy cur then [cur] else []) ++ words_from EmptyString r
      else words_from (cur ++ str1 c)%string r
  end.

Definition words (s : string) : list string := words_from EmptyString s.

(** [sep.join(l)]. *)
Definition join (sep : string) (l : list string) : string := String.concat sep l.

(** [str.splitlines]: a carriage return followed by a line feed is one
    boundary, and a final boundary opens no further line. *)
Fixpoint splitlines_from (cur : string) (s : string) : list string :=
  match s with
  | EmptyString => if truthy cur then [cur] else []
  | String c r =>
      if islinebreak c then
        cur ::
        (if code c =? 13 then
           match r with
           | String c' r' =>
               if code c' =? 10 then splitlines_from EmptyString r'
               else splitlines_from EmptyString r
           | EmptyString => splitlines_from EmptyString r
           end
         else splitlines_from EmptyString r)
      else splitlines_from (cur ++ str1 c)%string r
  end.

Definition splitlines (s : string) : list string := splitlines_from EmptyString s.

(** [str.isdigit]: non-empty and every character a digit. *)
Definition isdigit (s : string) : bool := truthy s && all_chars isdigit_char s.

(** The digits of an [int] literal: decimal digits, with single underscores
    allowed between two digits. [after_digit] tells whether the previous
    character was a digit. *)
Fixpoint int_digits (acc : Z) (after_digit : bool) (s : string) : option Z :=
  match s with
  | EmptyString => if after_digit then Some acc else None
  | String c r =>
      if isdecimal c
      then int_digits (10 * acc + Z.of_nat (code c - 48))%Z true r
      else if (code c =? 95) && after_digit then
             match r with
             | EmptyString => None
             | String c' _ => if isdecimal c' then int_digits acc false r else None
             end
           else None
  end.

(** [int(s)] in base ten: [None] is [ValueError]. Surrounding whitespace and
    one sign are accepted. (The interpreter's limit on the number of digits
    is not modelled.) *)
Definition int (s : string) : option Z :=
  match strip s with
  | String c r =>
      if code c =? 45 then option_map Z.opp (int_digits 0%Z false r)
      else if code c =? 43 then int_digits 0%Z false r
      else int_digits 0%Z false (String c r)
  | EmptyString => None
  end.

(** No character of [p] is whitespace. *)
Definition no_space (p : string) : bool := all_chars (fun c => negb (isspace c)) p.

End Py.

(** Exceptions and results of calls that can raise. *)
Inductive exn : Type :=
| ValueError
| TypeError
| KeyError
| IndexError
| AttributeError
| RequestException (msg : string)
| OtherException.

Inductive pyres (A : Type) : Type :=
| Ret (a : A)
| Raise (e : exn).
Arguments Ret {A} a.
Arguments Raise {A} e.

Definition bind {A B : Type} (m : pyres A) (k : A -> pyres B) : pyres B :=
  match m with
  | Ret a => k a
  | Raise e => Raise e
  end.

Notation "x <- m ;; k" := (bind m (fun x => k))
  (at level 61, m at next level, right associativity).

(** [try: body  except ValueError: handler]. *)
Definition try_except_ValueError {A : Type} (body : pyres A) (handler : pyres A) : pyres A :=
  match body with
  | Raise ValueError => handler
  | r => r
  end.

(* ================================================================= *)
(** ** Regular expressions ([re.search]) *)

Module Re.

(** Patterns are written as syntax trees; [WordB] is the assertion [\b]. *)
Inductive re : Type :=
| Eps
| Chr (p : ascii -> bool)
| Cat (a b : re)
| Alt (a b : re)
| Star (a : re)
| WordB.

Definition Plus (a : re) : re := Cat a (Star a).
Definition Opt (a : re) : re := Alt a Eps.
Definition digit : re := Chr Py.isdecimal.
Definition space : re := Chr Py.isspace.

(** A literal, and a literal under [re.IGNORECASE]. *)
Fixpoint lit (s : string) : re :=
  match s with
  | EmptyString => Eps
  | String c r => Cat (Chr (Ascii.eqb c)) (lit r)
  end.

Fixpoint lit_i (s : string) : re :=
  match s with
  | EmptyString => Eps
  | String c r => Cat (Chr (fun x => Ascii.eqb (Py.lower_char x) (Py.lower_char c))) (lit_i r)
  end.

(** [\b]: exactly one of the characters around the position is a word
    character ([prev] is the character before it, if any). *)
Definition at_boundary (prev : option ascii) (s : string) : bool :=
  xorb (match prev with Some c => Py.isword c | None => false end)
       (match s with String c _ => Py.isword c | EmptyString => false end).

(** Backtracking matcher in continuation style: does some prefix of [s]
    match [r] with the continuation [k] accepting what follows? The
    alternatives are tried in order, the second only when the first
    fails. A round of a starred pattern must consume a character, so the
    rounds are counted down from the length of the string. *)
Fixpoint m (r : re) (prev : option ascii) (s : string)
  (k : option ascii -> string -> bool) {struct r} : bool :=
  match r with
  | Eps => k prev s
  | Chr p =>
      match s with
      | String c s' => if p c then k (Some c) s' else false
      | EmptyString => false
      end
  | Cat a b => m a prev s (fun p' s' => m b p' s' k)
  | Alt a b => if m a prev s k then true else m b prev s k
  | Star a =>
      (fix rounds (n : nat) (prev : option ascii) (s : string) {struct n} : bool :=
         if k prev s then true
         else match n with
              | O => false
              | S n' =>
                  m a prev s
                    (fun p' s' =>
                       if String.length s' <? String.length s then rounds n' p' s'
                       else false)
              end) (String.length s) prev s
  | WordB => if at_boundary prev s then k prev s else false
  end.

Definition match_at (r : re) (prev : option ascii) (s : string) : bool :=
  m r prev s (fun _ _ => true).

Fixpoint search_from (r : re) (prev : option ascii) (s : string) : bool :=
  if match_at r prev s then true
  else match s with
       | EmptyString => false
       | String c s' => search_from r (Some c) s'
       end.

(** [re.search(r, s)] as a truth value. *)
Definition search (r : re) (s : string) : bool := search_from r None s.

End Re.

(* ================================================================= *)
(** ** The parsed document (BeautifulSoup) *)

Module Bs4.

(** A node of the tree. A string node is [shown] when [get_text] and
    [stripped_strings] of an enclosing tag return it (text and CDATA), and
    not shown otherwise (comments, declarations, the content of script and
    style elements). [attrs] is the attribute dictionary of the tag, each
    key listed once, with the [class] attribute not yet cut into its
    values. *)
#[warnings="-register-all"]
Inductive node : Type :=
| NavigableString (shown : bool) (s : string)
| Tag (name : string) (attrs : list (string * string)) (contents : list node).

(** The object [BeautifulSoup(markup, 'html.parser')] returns. *)
Definition soup_of (contents : list node) : node := Tag "[document]" [] contents.

(** An element as a search returns it: the node and its [next_sibling]. *)
Definition element : Type := (node * option node)%type.

Definition next_sibling (e : element) : option node := snd e.

(** A node followed by its descendants, in document order. *)
Fixpoint walk (n : node) (next : option node) : list element :=
  (n, next) ::
  match n with
  | NavigableString _ _ => []
  | Tag _ _ cs =>
      (fix walk_list (l : list node) : list element :=
         match l with
         | [] => []
         | c :: rest => walk c (hd_error rest) ++ walk_list rest
         end) cs
  end.

Definition descendants (n : node) : list element := tl (walk n None).

Definition is_tag (n : node) : bool :=
  match n with Tag _ _ _ => true | NavigableString _ _ => false end.

Definition name_is (nm : string) (n : node) : bool :=
  match n with Tag x _ _ => String.eqb x nm | NavigableString _ _ => false end.

Fixpoint lookup (k : string) (l : list (string * string)) : option string :=
  match l with
  | [] => None
  | (k', v) :: r => if String.eqb k' k then Some v else lookup k r
  end.

(** [tag.get(k)]. *)
Definition get (k : string) (n : node) : option string :=
  match n with Tag _ a _ => lookup k a | NavigableString _ _ => None end.

(** A single-valued attribute against a string: equality. *)
Definition attr_is (k v : string) (n : node) : bool :=
  match get k n with Some x => String.eqb x v | None => false end.

(** The multi-valued [class] attribute against a criterion: one of its
    values satisfies it, or the values joined by single spaces do. *)
Definition class_matches (crit : string -> bool) (n : node) : bool :=
  match get "class" n with
  | Some v => let vs := Py.words v in existsb crit vs || crit (Py.join " " vs)
  | None => false
  end.

Definition class_is (v : string) : node -> bool := class_matches (String.eqb v).

(** The criteria [(tagname, class_=cls)]. *)
Definition has_class (tagname cls : string) (n : node) : bool :=
  name_is tagname n && class_is cls n.

(** [tag.find_all(...)]: the descendant tags that satisfy the criteria. *)
Definition find_all (crit : node -> bool) (n : node) : list element :=
  filter (fun e => is_tag (fst e) && crit (fst e)) (descendants n).

(** [tag.find(...)]. *)
Definition find (crit : node -> bool) (n : node) : option element :=
  hd_error (find_all crit n).

(** The strings under a tag that [get_text] sees. *)
Definition shown_strings (n : node) : list string :=
  flat_map (fun e => match fst e with
                     | NavigableString true s => [s]
                     | _ => []
                     end) (descendants n).

(** Every string node under a tag, shown or not. *)
Definition all_strings (n : node) : list string :=
  flat_map (fun e => match fst e with
                     | NavigableString _ s => [s]
                     | _ => []
                     end) (descendants n).

(** [tag.stripped_strings]. *)
Definition stripped_strings (n : node) : list string :=
  filter Py.truthy (map Py.strip (shown_strings n)).

(** [tag.get_text()] and [tag.get_text(strip=True)]. *)
Definition get_text (n : node) : string := Py.join "" (shown_strings n).
Definition get_text_strip (n : node) : string := Py.join "" (stripped_strings n).

(** [tag.string]: the single string of a tag with one child, looked for
    through single-child tags. *)
Fixpoint string_of (n : node) : option string :=
  match n with
  | NavigableString _ s => Some s
  | Tag _ _ [c] => string_of c
  | Tag _ _ _ => None
  end.

(** [find(name, text=regex)]: a tag of that name whose [.string] matches. *)
Definition string_matches (r : Re.re) (n : node) : bool :=
  match n with
  | NavigableString _ _ => false
  | Tag _ _ _ => match string_of n with Some s => Re.search r s | None => false end
  end.

(** [find(text=regex)] with no tag name: some string node matches. *)
Definition find_text (r : Re.re) (n : node) : option string :=
  hd_error (filter (Re.search r) (all_strings n)).

End Bs4.

(* ================================================================= *)
(** ** The record model (pymarc) and the other collaborators *)

Module Marc.

(** What [x.strip()] evaluates to when [x] is the sibling of a code
    marker: a string, or, when the sibling is a tag that has a [strip]
    element below it, the result set of calling that element. *)
Inductive pyvalue : Type :=
| VStr (s : string)
| VResultSet (l : list Bs4.node).

Definition value_truthy (v : pyvalue) : bool :=
  match v with
  | VStr s => Py.truthy s
  | VResultSet l => match l with [] => false | _ :: _ => true end
  end.

(** [Subfield(code, value)]. *)
Record Subfield : Type := mkSubfield { code : string; value : pyvalue }.

(** The arguments of one [Field(tag, indicators, subfields=...)] call: the
    field as the parser hands it to the record model. [indicators] is
    [None] or the two-element list. What the record model keeps of these
    arguments is its own business and is not modelled. *)
Record Field : Type := mkField {
  tag : string;
  indicators : option (string * string);
  subfields : list Subfield
}.

(** [Record()] is the empty list; [add_field] appends. *)
Definition Record_ : Type := list Field.

Definition add_field (r : Record_) (f : Field) : Record_ := r ++ [f].

(** [record.get_fields(tag, ...)]: the fields whose tag is one of those given. *)
Definition get_fields (tags : list string) (r : Record_) : Record_ :=
  filter (fun f => existsb (String.eqb (tag f)) tags) r.

End Marc.

(** A [requests] response: body, final URL and the redirects followed. *)
Record Response : Type := mkResponse {
  text : string;
  url : string;
  history : list string
}.

(** What the program asks of the libraries around it. *)
Class Collaborators : Type := {
  (** [Field(...)] followed by [add_field]: [None] when the record model
      takes the field, [Some e] when it raises [e]. *)
  new_field : Marc.Field -> option exn;
  (** [BeautifulSoup(markup, 'html.parser')]. *)
  html_parser : string -> Bs4.node;
  (** [requests.get(u, ...)] followed by [raise_for_status()]; it raises
      only [RequestException]s. *)
  requests_get : string -> pyres Response;
  (** [template.format(name=value, ...)]. *)
  format : string -> list (string * string) -> pyres string;
  (** [urllib.parse.quote]. *)
  quote : string -> string;
  (** [validators.url(u)] as a truth value. *)
  validators_url : string -> bool
}.

(** The parts of a URL that [urllib.parse.urlparse] returns and that the
    program reads. *)
Record ParseResult : Type := mkParseResult {
  scheme : string;
  netloc : string;
  path : string;
  query : string
}.

(** What the program asks of the interpreter and of its standard library. *)
Class StdLib : Type := {
  (** [urllib.parse.urlparse]. *)
  urlparse : string -> ParseResult;
  (** [urllib.parse.parse_qs]: the values of each key of a query string. *)
  parse_qs : string -> list (string * list string);
  (** Whether a [slice] can be hashed: then the lookup of a slice in a
      dictionary raises [KeyError], otherwise [TypeError]. *)
  slices_hashable : bool
}.

(* ================================================================= *)
(** ** utils.py *)

Module Utils.

(** [re.sub(r'[^a-zA-Z0-9\s]', '', filename).strip().replace(' ', '_')]. *)
Definition clean_filename (filename : string) : string :=
  Py.replace_char " " "_"
    (Py.strip (Py.filter_chars (fun c => Py.ascii_alnum c || Py.isspace c) filename)).

(** The default file name that [download_marc_record] of utils.py offers:
    each part is cleaned, then the two are joined. *)
Definition download_default_filename (title author : string) : string :=
  (clean_filename author ++ "_" ++ clean_filename title ++ ".mrc")%string.

(** The [data] dictionary as [CatalogingTab.create_marc_record] builds it,
    which is the one caller: every key is present, the texts are [str]
    and the two flags are [bool], so that [data.get(k)] is [data[k]]. *)
Record data : Type := mkData {
  title : string;
  subtitle : string;
  author : string;
  second_author : string;
  third_author : string;
  editor : string;
  second_editor : string;
  copyright_year : string;
  edition : string;
  publisher : string;
  publisher_location : string;
  lccn : string;
  isbn : string;
  second_isbn : string;
  loc_call_number : string;
  pages : string;
  book_height : string;
  references : bool;
  references_page_range : string;
  index : bool;
  summary : string;
  loc_subject_1 : string;
  loc_subject_2 : string;
  loc_subject_3 : string
}.

(** The statement [if cond: record.add_field(Field(...))]. The tags and
    indicators of utils.py are constants that the record model takes. *)
Definition add_field_if (cond : bool) (f : Marc.Field) (record : Marc.Record_) : Marc.Record_ :=
  if cond then Marc.add_field record f else record.

(** [Field(tag, indicators=[ind1, ind2], subfields=[Subfield('a', v)])]. *)
Definition field_a (tag ind1 ind2 v : string) : Marc.Field :=
  Marc.mkField tag (Some (ind1, ind2)) [Marc.mkSubfield "a" (Marc.VStr v)].

Definition add_author_fields (record : Marc.Record_) (second_author third_author : string)
  : Marc.Record_ :=
  let record := add_field_if (Py.truthy second_author) (field_a "700" "1" " " second_author) record in
  add_field_if (Py.truthy third_author) (field_a "700" "1" " " third_author) record.

Definition add_editor_fields (record : Marc.Record_) (editor second_editor : string)
  : Marc.Record_ :=
  let record := add_field_if (Py.truthy editor) (field_a "700" "1" " " editor) record in
  add_field_if (Py.truthy second_editor) (field_a "700" "1" " " second_editor) record.

Definition add_lccn_field (record : Marc.Record_) (lccn : string) : Marc.Record_ :=
  add_field_if (Py.truthy lccn) (field_a "010" " " " " lccn) record.

Definition add_isbn_fields (record : Marc.Record_) (isbn second_isbn : string) : Marc.Record_ :=
  let record := add_field_if (Py.truthy isbn) (field_a "020" " " " " isbn) record in
  add_field_if (Py.truthy second_isbn) (field_a "020" " " " " second_isbn) record.

Definition add_loc_call_number_field (record : Marc.Record_) (loc_call_number : string)
  : Marc.Record_ :=
  add_field_if (Py.truthy loc_call_number) (field_a "050" "0" "4" loc_call_number) record.

(** The field 264 of publication and the field 264 of the copyright date. *)
Definition publication_field (publisher_location publisher copyright_year : string) : Marc.Field :=
  Marc.mkField "264" (Some (" ", "1"))
    [ Marc.mkSubfield "a" (Marc.VStr publisher_location);
      Marc.mkSubfield "b" (Marc.VStr publisher);
      Marc.mkSubfield "c" (Marc.VStr copyright_year) ].

Definition copyright_field (copyright_year : string) : Marc.Field :=
  Marc.mkField "264" (Some (" ", "4"))
    [ Marc.mkSubfield "c" (Marc.VStr ("c" ++ copyright_year ++ "."))%string ].

Definition add_publisher_and_copyright_fields (record : Marc.Record_)
  (publisher_location publisher copyright_year : string) : Marc.Record_ :=
  let record :=
    add_field_if (Py.truthy publisher || Py.truthy publisher_location || Py.truthy copyright_year)
      (publication_field publisher_location publisher copyright_year) record in
  add_field_if (Py.truthy copyright_year) (copyright_field copyright_year) record.

Definition physical_description_field (pages book_height : string) : Marc.Field :=
  Marc.mkField "300" (Some (" ", " "))
    [ Marc.mkSubfield "a" (Marc.VStr (pages ++ " p."))%string;
      Marc.mkSubfield "c" (Marc.VStr (book_height ++ " cm."))%string ].

Definition add_physical_description_field (record : Marc.Record_) (pages book_height : string)
  : Marc.Record_ :=
  add_field_if (Py.truthy pages || Py.truthy book_height)
    (physical_description_field pages book_height) record.

Definition add_references_field (record : Marc.Record_) (references : bool)
  (references_page_range : string) : Marc.Record_ :=
  let references_text := "Includes bibliographical references" in
  let references_text :=
    if Py.truthy references_page_range
    then (references_text ++ " (p. " ++ references_page_range ++ ").")%string
    else references_text in
  add_field_if references (field_a "504" " " " " references_text) record.

Definition add_loc_subject_headings (record : Marc.Record_)
  (loc_subject_1 loc_subject_2 loc_subject_3 : string) : Marc.Record_ :=
  let record := add_field_if (Py.truthy loc_subject_1) (field_a "650" " " "0" loc_subject_1) record in
  let record := add_field_if (Py.truthy loc_subject_2) (field_a "650" " " "0" loc_subject_2) record in
  add_field_if (Py.truthy loc_subject_3) (field_a "650" " " "0" loc_subject_3) record.

(** [create_marc_record]: the record that is built; what is returned is
    its serialisation [record.as_marc()], which is the record model's. *)
Definition create_marc_record (data : data) : Marc.Record_ :=
  let record := [] in
  let record :=
    add_field_if (Py.truthy (title data))
      (Marc.mkField "245" (Some ("1", "0"))
         [ Marc.mkSubfield "a" (Marc.VStr (title data));
           Marc.mkSubfield "b" (Marc.VStr (subtitle data)) ]) record in
  let record := add_field_if (Py.truthy (author data)) (field_a "100" "1" " " (author data)) record in
  let record := add_author_fields record (second_author data) (third_author data) in
  let record := add_editor_fields record (editor data) (second_editor data) in
  let record := add_lccn_field record (lccn data) in
  let record := add_isbn_fields record (isbn data) (second_isbn data) in
  let record := add_loc_call_number_field record (loc_call_number data) in
  let record :=
    add_publisher_and_copyright_fields record
      (publisher_location data) (publisher data) (copyright_year data) in
  let record := add_field_if (Py.truthy (edition data)) (field_a "250" " " " " (edition data)) record in
  let record := add_physical_description_field record (pages data) (book_height data) in
  let record := add_references_field record (references data) (references_page_range data) in
  let record := add_field_if (index data) (field_a "500" " " " " "Includes index.") record in
  let record := add_field_if (Py.truthy (summary data)) (field_a "520" " " " " (summary data)) record in
  add_loc_subject_headings record (loc_subject_1 data) (loc_subject_2 data) (loc_subject_3 data).

(** The characters a cleaned file name is made of: ASCII letters and
    digits, the underscore, and whitespace other than the space. *)
Definition filename_char (c : ascii) : bool :=
  Py.ascii_alnum c || Ascii.eqb c "_" || (Py.isspace c && negb (Ascii.eqb c " ")).

End Utils.

(* ================================================================= *)
(** ** cataloging_tab.py *)

Module CatalogingTab.

(** [create_marc_record] of the tab: [inputs] gives the text of each line
    edit and [radio_buttons] the state of each radio button, by key. The
    record is the one built by utils.py from the stripped texts. *)
Definition create_marc_record (inputs : string -> string) (radio_buttons : string -> bool)
  : Marc.Record_ :=
  let data :=
    Utils.mkData
      (Py.strip (inputs "title_input"))
      (Py.strip (inputs "subtitle_input"))
      (Py.strip (inputs "author_input"))
      (Py.strip (inputs "second_author_input"))
      (Py.strip (inputs "third_author_input"))
      (Py.strip (inputs "editor_input"))
      (Py.strip (inputs "second_editor_input"))
      (Py.strip (inputs "copyright_year_input"))
      (Py.strip (inputs "edition_input"))
      (Py.strip (inputs "publisher_input"))
      (Py.strip (inputs "publisher_location_input"))
      (Py.strip (inputs "lccn_input"))
      (Py.strip (inputs "isbn_input"))
      (Py.strip (inputs "second_isbn_input"))
      (Py.strip (inputs "loc_call_number_input"))
      (Py.strip (inputs "pages_input"))
      (Py.strip (inputs "book_height_input"))
      (radio_buttons "references_yes_radio")
      (Py.strip (inputs "references_page_range_input"))
      (radio_buttons "index_yes_radio")
      (Py.strip (inputs "summary_input"))
      (Py.strip (inputs "loc_subject_1_input"))
      (Py.strip (inputs "loc_subject_2_input"))
      (Py.strip (inputs "loc_subject_3_input")) in
  Utils.create_marc_record data.

(** The default file name that [download_marc_record] of the tab hands to
    utils.py, from the stripped title and author. *)
Definition download_default_filename (inputs : string -> string) : string :=
  Utils.download_default_filename (Py.strip (inputs "title_input"))
    (Py.strip (inputs "author_input")).

(** The line edits whose text, alone, puts a field in the record. *)
Definition field_inputs : list string :=
  [ "title_input"; "author_input"; "second_author_input"; "third_author_input";
    "editor_input"; "second_editor_input"; "copyright_year_input"; "edition_input";
    "publisher_input"; "publisher_location_input"; "lccn_input"; "isbn_input";
    "second_isbn_input"; "loc_call_number_input"; "pages_input"; "book_height_input";
    "summary_input"; "loc_subject_1_input"; "loc_subject_2_input"; "loc_subject_3_input" ].

End CatalogingTab.

(* ================================================================= *)
(** ** scrape_tab.py *)

Module ScrapeTab.
Import Marc.

(** The attributes of the tab that the parsers write. [marc_record] is
    [None] until a parser has run. *)
Record state : Type := mkState {
  marc_record : option Record_;
  default_filename : string
}.

(** What one round of a parser's loop over candidate fields does: nothing,
    one [add_field], or an exception that leaves the loop. *)
Inductive outcome : Type :=
| Skip
| Add (f : Field)
| Escapes (e : exn).

(** The loop over the candidates: the record is built in place, so the
    fields added before an exception escapes stay in it. *)
Fixpoint for_each {A : Type} (body : A -> outcome) (items : list A) (rec : Record_)
  : Record_ * option exn :=
  match items with
  | [] => (rec, None)
  | x :: rest =>
      match body x with
      | Skip => for_each body rest rec
      | Add f => for_each body rest (add_field rec f)
      | Escapes e => (rec, Some e)
      end
  end.

(** [x.next_sibling.strip() if x.next_sibling else '']. On a sibling that
    is a tag, [.strip] is a search for a [strip] element: calling [None]
    raises [TypeError], calling an element lists the tags below it. *)
Definition sibling_strip (x : Bs4.element) : pyres pyvalue :=
  match Bs4.next_sibling x with
  | None => Ret (VStr EmptyString)
  | Some (Bs4.NavigableString _ s) => Ret (VStr (Py.strip s))
  | Some (Bs4.Tag _ _ _ as t) =>
      match Bs4.find (Bs4.name_is "strip") t with
      | None => Raise TypeError
      | Some st => Ret (VResultSet (map fst (Bs4.find_all (fun _ => true) (fst st))))
      end
  end.

(** [add_field(Field(...))] inside the parsers' [try]: [ValueError],
    [TypeError] and [KeyError] are logged and the field is skipped, any
    other exception is raised again. *)
Definition try_add_field `{Collaborators} (f : Field) : outcome :=
  match new_field f with
  | None => Add f
  | Some ValueError | Some TypeError | Some KeyError => Skip
  | Some e => Escapes e
  end.

(** The same call with no [try] around it (format three). *)
Definition do_add_field `{Collaborators} (f : Field) : outcome :=
  match new_field f with
  | None => Add f
  | Some e => Escapes e
  end.

(** *** Format one: a [div class=field] per field *)

Fixpoint format_one_subfields (codes : list Bs4.element) : pyres (list Subfield) :=
  match codes with
  | [] => Ret []
  | subfield :: rest =>
      let code := Py.replace_char "|" EmptyString (Py.strip (Bs4.get_text (fst subfield))) in
      value <- sibling_strip subfield ;;
      more <- format_one_subfields rest ;;
      Ret (mkSubfield code value :: more)
  end.

Definition format_one_candidates (soup : Bs4.node) : list Bs4.element :=
  Bs4.find_all (Bs4.has_class "div" "field") soup.

Definition format_one_field `{Collaborators} (e : Bs4.element) : outcome :=
  let field := fst e in
  match Bs4.find (Bs4.has_class "span" "tag") field with
  | None => Skip
  | Some tag_span =>
      let tag := Py.strip (Bs4.get_text (fst tag_span)) in
      let ind1 := match Bs4.find (Bs4.has_class "div" "ind1") field with
                  | Some d => Py.strip (Bs4.get_text (fst d))
                  | None => " "
                  end in
      let ind2 := match Bs4.find (Bs4.has_class "div" "ind2") field with
                  | Some d => Py.strip (Bs4.get_text (fst d))
                  | None => " "
                  end in
      let indicators :=
        if existsb (String.eqb tag) ["001"; "003"; "005"; "008"]
        then None else Some (ind1, ind2) in
      match format_one_subfields (Bs4.find_all (Bs4.has_class "span" "sub_code") field) with
      | Raise x => Escapes x
      | Ret [] => Skip
      | Ret subfield_objs => try_add_field (mkField tag indicators subfield_objs)
      end
  end.

Definition parse_format_one `{Collaborators} (self : state) (soup : Bs4.node)
  : state * option exn :=
  let '(rec, raised) := for_each format_one_field (format_one_candidates soup) [] in
  (mkState (Some rec) (default_filename self), raised).

(** *** Format three: one line of text per field *)

Definition blank_indicator : string := "\".

(** [line[n] if len(line) > n and line[n] != ' ' else '\\'], then the
    replacement of ['#']. *)
Definition format_three_indicator (line : string) (n : nat) : string :=
  let ind := match Py.index line n with
             | Some c => if Ascii.eqb c " " then blank_indicator else Py.str1 c
             | None => blank_indicator
             end in
  if String.eqb ind "#" then blank_indicator else ind.

Definition format_three_subfields (subfield_data : string) : list Subfield :=
  if Py.truthy subfield_data then
    flat_map (fun part =>
                match part with
                | EmptyString => []
                | String c r => [mkSubfield (Py.str1 c) (VStr (Py.strip r))]
                end)
             (Py.split_char "$" subfield_data)
  else [].

(** [tag.isdigit() and 0 <= int(tag) <= 9]; [int] raises on a digit it
    does not accept. *)
Definition is_discarded_tag (tag : string) : pyres bool :=
  if Py.isdigit tag then
    match Py.int tag with
    | Some n => Ret ((0 <=? n)%Z && (n <=? 9)%Z)
    | None => Raise ValueError
    end
  else Ret false.

Definition format_three_line `{Collaborators} (line : string) : outcome :=
  if negb (Py.truthy (Py.strip line)) || Py.startswith "leader" line then Skip
  else
    let tag := Py.strip (Py.take 3 line) in
    match is_discarded_tag tag with
    | Raise x => Escapes x
    | Ret true => Skip
    | Ret false =>
        let ind1 := format_three_indicator line 4 in
        let ind2 := format_three_indicator line 5 in
        let subfield_data := Py.strip (Py.drop 7 line) in
        match format_three_subfields subfield_data with
        | [] => Skip
        | subfields => do_add_field (mkField tag (Some (ind1, ind2)) subfields)
        end
    end.

(** *** The file name derived from fields 245 and 100 *)

(** [subfield.value.strip()]. *)
Definition value_strip (v : pyvalue) : pyres string :=
  match v with
  | VStr s => Ret (Py.strip s)
  | VResultSet _ => Raise AttributeError
  end.

(** The inner loop over one field's subfields; [ta] is (title, author). *)
Fixpoint scan_subfields (ftag : string) (sfs : list Subfield) (ta : string * string)
  : pyres (string * string) :=
  match sfs with
  | [] => Ret ta
  | subfield :: rest =>
      if String.eqb ftag "245" && String.eqb (code subfield) "a" then
        v <- value_strip (value subfield) ;; scan_subfields ftag rest (v, snd ta)
      else if String.eqb ftag "100" && String.eqb (code subfield) "a" then
        v <- value_strip (value subfield) ;; scan_subfields ftag rest (fst ta, v)
      else scan_subfields ftag rest ta
  end.

Fixpoint scan_fields (fs : list Field) (ta : string * string) : pyres (string * string) :=
  match fs with
  | [] => Ret ta
  | field :: rest => ta' <- scan_subfields (tag field) (subfields field) ta ;; scan_fields rest ta'
  end.

Definition update_filename (self : state) : state * option exn :=
  match marc_record self with
  | None => (self, None)
  | Some rec =>
      match scan_fields (get_fields ["245"; "100"] rec) (EmptyString, EmptyString) with
      | Raise x => (self, Some x)
      | Ret (title, author) =>
          let author := if Py.truthy author then author else "UnknownAuthor" in
          let title := if Py.truthy title then title else "Untitled" in
          (mkState (Some rec) (Utils.clean_filename (author ++ "_" ++ title)%string), None)
      end
  end.

Definition parse_format_three `{Collaborators} (self : state) (marc_data : string)
  : state * option exn :=
  let '(rec, raised) := for_each format_three_line (Py.splitlines marc_data) [] in
  let self' := mkState (Some rec) (default_filename self) in
  match raised with
  | Some x => (self', Some x)
  | None => update_filename self'
  end.

(** *** Format four: one table row per field *)

Fixpoint format_four_subfields (strong_tags : list Bs4.element) : pyres (list Subfield) :=
  match strong_tags with
  | [] => Ret []
  | strong_tag :: rest =>
      let code := Py.replace_char "|" EmptyString (Bs4.get_text_strip (fst strong_tag)) in
      value <- sibling_strip strong_tag ;;
      more <- format_four_subfields rest ;;
      Ret (if Py.truthy code && value_truthy value then mkSubfield code value :: more else more)
  end.

Definition format_four_candidates (soup : Bs4.node) : list Bs4.element :=
  match Bs4.find (Bs4.has_class "table" "citation table table-striped") soup with
  | None => []
  | Some marc_table => Bs4.find_all (Bs4.name_is "tr") (fst marc_table)
  end.

(** [cell.get_text(strip=True) or ' ']. *)
Definition cell_indicator (cell : Bs4.element) : string :=
  let t := Bs4.get_text_strip (fst cell) in
  if Py.truthy t then t else " ".

Definition format_four_row `{Collaborators} (e : Bs4.element) : outcome :=
  let row := fst e in
  match Bs4.find (Bs4.name_is "th") row with
  | None => Skip
  | Some tag_element =>
      let tag := Bs4.get_text_strip (fst tag_element) in
      if negb (Py.isdigit tag) then Skip
      else
        match Bs4.find_all (Bs4.name_is "td") row with
        | c0 :: c1 :: subfield_data :: _ =>
            let ind1 := cell_indicator c0 in
            let ind2 := cell_indicator c1 in
            match format_four_subfields (Bs4.find_all (Bs4.name_is "strong") (fst subfield_data)) with
            | Raise x => Escapes x
            | Ret [] => Skip
            | Ret subfields => try_add_field (mkField tag (Some (ind1, ind2)) subfields)
            end
        | _ => Skip
        end
  end.

Definition parse_format_four `{Collaborators} (self : state) (soup : Bs4.node)
  : state * option exn :=
  let '(rec, raised) := for_each format_four_row (format_four_candidates soup) [] in
  (mkState (Some rec) (default_filename self), raised).

(** *** The plain view behind format two *)

(** The subfields that are dropped, per tag. *)
Definition discard_subfields : list (string * list string) :=
  [("100", ["9"]); ("600", ["9"]); ("650", ["9"]); ("700", ["9"]); ("830", ["9"])].

Fixpoint dict_get (k : string) (d : list (string * list string)) : option (list string) :=
  match d with
  | [] => None
  | (k', v) :: r => if String.eqb k' k then Some v else dict_get k r
  end.

Definition is_discarded (current_tag subfield_code : string) : bool :=
  match dict_get current_tag discard_subfields with
  | Some codes => existsb (String.eqb subfield_code) codes
  | None => false
  end.

Fixpoint plain_subfields (current_tag : string) (strong_tags : list Bs4.element)
  : pyres (list Subfield) :=
  match strong_tags with
  | [] => Ret []
  | strong_tag :: rest =>
      let code := Bs4.get_text_strip (fst strong_tag) in
      if Py.startswith "_" code && (1 <? String.length code) then
        let subfield_code := Py.take 1 (Py.drop 1 code) in
        value <- sibling_strip strong_tag ;;
        more <- plain_subfields current_tag rest ;;
        Ret (if is_discarded current_tag subfield_code then more
             else mkSubfield subfield_code value :: more)
      else plain_subfields current_tag rest
  end.

Definition plain_candidates (plain_soup : Bs4.node) : list Bs4.element :=
  match Bs4.find (Bs4.name_is "table") plain_soup with
  | None => []
  | Some marc_table => Bs4.find_all (Bs4.name_is "tr") (fst marc_table)
  end.

Definition plain_row `{Collaborators} (e : Bs4.element) : outcome :=
  let row := fst e in
  let cells := Bs4.find_all (Bs4.name_is "td") row in
  match Bs4.find (Bs4.name_is "th") row with
  | None => Skip
  | Some tag_element =>
      let current_tag := Bs4.get_text_strip (fst tag_element) in
      let indicators := match cells with
                        | c0 :: c1 :: _ => (cell_indicator c0, cell_indicator c1)
                        | _ => (EmptyString, EmptyString)
                        end in
      match cells with
      | _ :: _ :: subfield_data :: _ =>
          match plain_subfields current_tag (Bs4.find_all (Bs4.name_is "strong") (fst subfield_data)) with
          | Raise x => Escapes x
          | Ret subfields =>
              match subfields with
              | [] => Skip
              | _ :: _ =>
                  if Py.truthy current_tag
                  then try_add_field (mkField current_tag (Some indicators) subfields)
                  else Skip
              end
          end
      | _ => Skip
      end
  end.

Definition parse_plain_marc `{Collaborators} (self : state) (plain_text : string)
  : state * option exn :=
  let plain_soup := html_parser plain_text in
  match Bs4.find (Bs4.name_is "table") plain_soup with
  | None => (mkState (Some []) (default_filename self), None)
  | Some _ =>
      let '(rec, raised) := for_each plain_row (plain_candidates plain_soup) [] in
      let self' := mkState (Some rec) (default_filename self) in
      match raised with
      | Some x => (self', Some x)
      | None => update_filename self'
      end
  end.

(** *** Format two: the page that links to the plain view *)

(** [except requests.exceptions.RequestException] around a call that has
    already changed the tab: the exception is logged and goes no further. *)
Definition except_RequestException (r : state * option exn) : state * option exn :=
  match r with
  | (self, Some (RequestException _)) => (self, None)
  | _ => r
  end.

(** [base_url] is the attribute that [scrape_url] has set. A link without
    an [href] raises [KeyError]; without a link nothing is parsed. *)
Definition parse_format_two `{Collaborators} (self : state) (base_url : string)
  (soup : Bs4.node) : state * option exn :=
  match Bs4.find (fun n => Bs4.name_is "a" n && Bs4.attr_is "id" "switchview" n) soup with
  | Some view_plain_link =>
      match Bs4.get "href" (fst view_plain_link) with
      | None => (self, Some KeyError)
      | Some href =>
          let plain_url := (base_url ++ href)%string in
          except_RequestException
            match requests_get plain_url with
            | Ret plain_response => parse_plain_marc self (text plain_response)
            | Raise x => (self, Some x)
            end
      end
  | None => (self, None)
  end.

(** *** The dispatch on the dialect of a page *)

Inductive dialect : Type := format_one | format_two | format_three | format_four.

(** The [if ... elif] chain of [parse_html]. *)
Definition detect_format (soup : Bs4.node) : option dialect :=
  match Bs4.find (Bs4.has_class "div" "field") soup with
  | Some _ => Some format_one
  | None =>
      match Bs4.find (fun n => Bs4.name_is "table" n && Bs4.attr_is "id" "marc" n) soup with
      | Some _ => Some format_two
      | None =>
          match Bs4.find (fun n => Bs4.name_is "pre" n
                                    && Bs4.attr_is "style" "direction: ltr" n) soup with
          | Some _ => Some format_three
          | None =>
              match Bs4.find (Bs4.has_class "table" "citation table table-striped") soup with
              | Some _ => Some format_four
              | None => None
              end
          end
      end
  end.

(** One round of the loop of [parse_format_three] when [parse_html] has
    handed it the parsed document instead of a text, so that [line] is a
    tag. An attribute of a tag that is not one of its own is a search for
    an element of that name, and calling an element lists the tags below
    it: [line.strip()] and [line.startswith('leader')] raise [TypeError]
    where there is no such element. [line[:3]] looks the slice up in the
    attribute dictionary of the tag, and raises. *)
Definition soup_line `{StdLib} (line : Bs4.node) : outcome :=
  match Bs4.find (Bs4.name_is "strip") line with
  | None => Escapes TypeError
  | Some strip_element =>
      match Bs4.find_all (fun _ => true) (fst strip_element) with
      | [] => Skip
      | _ :: _ =>
          match Bs4.find (Bs4.name_is "startswith") line with
          | None => Escapes TypeError
          | Some startswith_element =>
              match Bs4.find_all (Bs4.name_is "leader") (fst startswith_element) with
              | _ :: _ => Skip
              | [] => Escapes (if slices_hashable then KeyError else TypeError)
              end
          end
      end
  end.

(** [parse_format_three] on the parsed document: [marc_data.splitlines()]
    is again a search, for a [splitlines] element, and the lines are the
    tags below that element. The record has been reset before. *)
Definition parse_format_three_soup `{StdLib} (self : state) (soup : Bs4.node)
  : state * option exn :=
  let self0 := mkState (Some []) (default_filename self) in
  match Bs4.find (Bs4.name_is "splitlines") soup with
  | None => (self0, Some TypeError)
  | Some splitlines_element =>
      let lines := map fst (Bs4.find_all (fun _ => true) (fst splitlines_element)) in
      let '(rec, raised) := for_each soup_line lines [] in
      let self' := mkState (Some rec) (default_filename self) in
      match raised with
      | Some x => (self', Some x)
      | None => update_filename self'
      end
  end.

(** [parse_html]: every parser is called with the parsed document. *)
Definition parse_html `{Collaborators} `{StdLib} (self : state) (base_url html : string)
  : state * option exn :=
  let soup := html_parser html in
  match detect_format soup with
  | Some format_one => parse_format_one self soup
  | Some format_two => parse_format_two self base_url soup
  | Some format_three => parse_format_three_soup self soup
  | Some format_four => parse_format_four self soup
  | None => (self, None)
  end.

(** *** The entry point *)

(** [fetch_marc_data]: the three parameters are read from the query
    string, and the text that the API answers goes to the line parser. *)
Definition fetch_marc_data `{Collaborators} `{StdLib} (self : state)
  (parsed_url : ParseResult) : state * option exn :=
  let query_params := parse_qs (query parsed_url) in
  match dict_get "docId" query_params, dict_get "vid" query_params,
        dict_get "recordOwner" query_params with
  | Some (doc_id :: _), Some (vid :: _), Some (record_owner :: _) =>
      let api_url :=
        ("https://" ++ netloc parsed_url ++ "/primaws/rest/pub/sourceRecord?docId=" ++ doc_id
           ++ "&vid=" ++ vid ++ "&recordOwner=" ++ record_owner ++ "&lang=en")%string in
      except_RequestException
        match requests_get api_url with
        | Ret response => parse_format_three self (text response)
        | Raise x => (self, Some x)
        end
  | _, _, _ => (self, None)
  end.

(** [scrape_url] on the text of the URL box. *)
Definition scrape_url `{Collaborators} `{StdLib} (self : state) (url_input : string)
  : state * option exn :=
  let url := Py.strip url_input in
  if negb (Py.truthy url) then (self, None)
  else
    let parsed_url := urlparse url in
    let base_url := (scheme parsed_url ++ "://" ++ netloc parsed_url)%string in
    except_RequestException
      (if Py.contains "primo.exlibrisgroup.com" (netloc parsed_url)
       then fetch_marc_data self parsed_url
       else if Py.contains "discovery/sourceRecord" (path parsed_url)
       then fetch_marc_data self parsed_url
       else match requests_get url with
            | Ret response => parse_html self base_url (text response)
            | Raise x => (self, Some x)
            end).

(** *** Validation of the scraped record *)

Definition validate_marc_record (rec : Record_) : bool :=
  let required_fields := ["001"; "245"] in
  if existsb (fun tag => match get_fields [tag] rec with [] => true | _ :: _ => false end)
       required_fields
  then false
  else
    let control_number_fields := get_fields ["001"] rec in
    if 1 <? List.length control_number_fields then false
    else
      match get_fields ["245"] rec with
      | title_field :: _ =>
          if existsb (fun sf => String.eqb (code sf) "a") (subfields title_field) then true
          else false
      | [] => true
      end.

(** How [create_marc_record] of the tab ends. *)
Inductive created : Type :=
| NoMarcData
| ValidationError
| CreatedAndValidated.

Definition create_marc_record (self : state) : created :=
  match marc_record self with
  | None => NoMarcData
  | Some rec => if validate_marc_record rec then CreatedAndValidated else ValidationError
  end.

(** *** What the properties below speak of *)

(** The field carries at least one subfield. *)
Definition has_subfield (f : Field) : Prop := subfields f <> [].

(** The record a parser leaves in the tab. *)
Definition record_of (r : state * option exn) : Record_ :=
  match marc_record (fst r) with
  | Some rec => rec
  | None => []
  end.

(** The lines of the text that are candidate fields: not blank, and not
    the leader line. *)
Definition format_three_candidates (marc_data : string) : list string :=
  filter (fun line => negb (negb (Py.truthy (Py.strip line)) || Py.startswith "leader" line))
         (Py.splitlines marc_data).

(** The tag lies lexically between "000" and "009". *)
Definition in_control_range (t : string) : bool :=
  String.leb "000" t && String.leb t "009".

(** Every tag of the text that [int] reads as a number is written with
    digits only, without a sign or an underscore. *)
Definition ordinary_tags (marc_data : string) : Prop :=
  forall line,
    In line (Py.splitlines marc_data) ->
    Py.int (Py.strip (Py.take 3 line)) = None
    \/ Py.isdigit (Py.strip (Py.take 3 line)) = true.

(** [int] does not read the tag as a number from 0 to 9. *)
Definition not_control_number (t : string) : Prop :=
  match Py.int t with
  | Some n => ((0 <=? n)%Z && (n <=? 9)%Z) = false
  | None => True
  end.

(** The string holds no [$], and no [|]. *)
Definition dollar_free (s : string) : bool :=
  Py.all_chars (fun c => negb (Ascii.eqb c "$")) s.

Definition pipe_free (s : string) : bool :=
  Py.all_chars (fun c => negb (Ascii.eqb c "|")) s.

(** The record holds no subfield [a] in a field tagged 245 or 100. *)
Definition no_title_no_author (rec : Record_) : Prop :=
  forall f sf,
    In f rec -> In sf (subfields f) -> tag f = "245" \/ tag f = "100" -> code sf <> "a".

End ScrapeTab.

(* ================================================================= *)
(** ** search_tab.py: the library list *)

(** One entry of [libraries.json]. A key that is absent reads as the empty
    string, which is what [library.get(key, "")] returns for it. *)
Record library : Type := mkLibrary {
  name : string;
  isbn_url : string;
  title_author_url : string
}.

(** The signals of [SearchWorker]; the row is a Python [int]. *)
Inductive signal : Type :=
| update_status (row : Z) (status : string) (url : string)
| search_complete.

(* ================================================================= *)
(** ** search_tab.py: the response classifier *)

Module Classifier.

Definition is_some {A : Type} (o : option A) : bool :=
  match o with Some _ => true | None => false end.

Definition nonempty {A : Type} (l : list A) : bool :=
  match l with [] => false | _ :: _ => true end.

Definition not_found_phrases : list string :=
  [ "no results found"; "no matches found"; "no entries found";
    "search resulted in no hits"; "no results!";
    "your search found no results."; "no records found" ].

(** [' '.join(soup.stripped_strings).lower()]. *)
Definition text_without_scripts (soup : Bs4.node) : string :=
  Py.lower (Py.join " " (Bs4.stripped_strings soup)).

Definition check_not_found_conditions (soup : Bs4.node) : bool :=
  let text := text_without_scripts soup in
  existsb (fun phrase => Py.contains phrase text) not_found_phrases
  || is_some (Bs4.find (fun n => Bs4.name_is "h1" n
                                 && Bs4.string_matches (Re.lit_i "no results") n) soup)
  || is_some (Bs4.find (fun n => Bs4.name_is "h1" n
                                 && Bs4.string_matches (Re.lit_i "no results available") n) soup)
  || is_some (Bs4.find (fun n => Bs4.name_is "div" n && Bs4.attr_is "id" "documents" n
                                 && Bs4.class_is "noresults" n) soup)
  || is_some (Bs4.find (Bs4.has_class "tr" "yourEntryWouldBeHere") soup).

(** [int(s)], raising [ValueError]. *)
Definition py_int (s : string) : pyres Z :=
  match Py.int s with
  | Some n => Ret n
  | None => Raise ValueError
  end.

(** [soup.find("meta", {"name": "totalResults"})]. *)
Definition find_total_results_meta (soup : Bs4.node) : option Bs4.element :=
  Bs4.find (fun n => Bs4.name_is "meta" n && Bs4.attr_is "name" "totalResults" n) soup.

(** [soup.find("div", class_="search-stats")]. *)
Definition find_search_stats_div (soup : Bs4.node) : option Bs4.element :=
  Bs4.find (Bs4.has_class "div" "search-stats") soup.

Definition check_meta_total_results (soup : Bs4.node) : pyres bool :=
  match find_total_results_meta soup with
  | Some total_results_meta =>
      try_except_ValueError
        (n <- py_int (match Bs4.get "content" (fst total_results_meta) with
                      | Some c => c
                      | None => "0"
                      end) ;;
         Ret (0 <? n)%Z)
        (Ret false)
  | None => Ret false
  end.

Definition check_search_stats (soup : Bs4.node) : pyres bool :=
  match find_search_stats_div soup with
  | Some search_stats_div =>
      match Bs4.get "data-record-total" (fst search_stats_div) with
      | Some total =>
          if Py.truthy total then
            try_except_ValueError (n <- py_int total ;; Ret (0 <? n)%Z) (Ret false)
          else Ret false
      | None => Ret false
      end
  | None => Ret false
  end.

(** [results?]. *)
Definition results_i : Re.re := Re.Cat (Re.lit_i "result") (Re.Opt (Re.lit_i "s")).
Definition results : Re.re := Re.Cat (Re.lit "result") (Re.Opt (Re.lit "s")).

(** [Results:\s*\d+] under IGNORECASE. *)
Definition re_results_colon_i : Re.re :=
  Re.Cat (Re.lit_i "Results:") (Re.Cat (Re.Star Re.space) (Re.Plus Re.digit)).

(** [\d+\s+(?:results?|result|of\s+results?)\s*found] under IGNORECASE. *)
Definition re_n_results_found_i : Re.re :=
  Re.Cat (Re.Plus Re.digit)
    (Re.Cat (Re.Plus Re.space)
       (Re.Cat (Re.Alt results_i
                  (Re.Alt (Re.lit_i "result")
                     (Re.Cat (Re.lit_i "of") (Re.Cat (Re.Plus Re.space) results_i))))
          (Re.Cat (Re.Star Re.space) (Re.lit_i "found")))).

(** The redirect shortcut returns before the list of structural signals is
    built; the list is built whole, in source order, then tested. *)
Definition check_found_conditions (soup : Bs4.node) (response : Response) : pyres bool :=
  if nonempty (history response) then Ret true
  else
    meta_total <- check_meta_total_results soup ;;
    search_stats <- check_search_stats soup ;;
    Ret (existsb (fun b => b)
           [ nonempty (Bs4.find_all (Bs4.has_class "tr" "browseEntry") soup);
             is_some (Bs4.find (Bs4.has_class "span" "results-bar-item results-bar-item-record-count") soup);
             meta_total;
             nonempty (Bs4.find_all (fun n => Bs4.name_is "div" n
                         && Bs4.class_matches (Re.search (Re.lit "document")) n) soup);
             is_some (Bs4.find (Bs4.has_class "div" "bibDisplayContentMain") soup);
             is_some (Bs4.find (Bs4.has_class "div" "bibDisplayItemsMain") soup);
             is_some (Bs4.find (Bs4.has_class "div" "bibliographicData") soup);
             match Bs4.find_text re_results_colon_i soup with
             | Some s => Py.truthy s
             | None => false
             end;
             is_some (Bs4.find (Bs4.attr_is "id" "numresults") soup);
             is_some (Bs4.find (Bs4.has_class "span" "results-bar-item results-bar-item-record-count") soup);
             is_some (Bs4.find (Bs4.has_class "div" "browseSearchtoolMessage") soup);
             search_stats;
             is_some (Bs4.find (fun n => Bs4.name_is "span" n
                         && Bs4.string_matches re_n_results_found_i n) soup) ]).

(** The four patterns of [check_general_results], in source order; they
    are matched, with no flag, against the lowered body. *)
Definition general_patterns : list Re.re :=
  [ Re.Cat Re.WordB
      (Re.Cat (Re.Alt (Re.Cat (Re.lit "your") (Re.Cat (Re.Plus Re.space)
                         (Re.Cat (Re.lit "search") (Re.Cat (Re.Plus Re.space)
                            (Re.Cat (Re.lit "returned") (Re.Plus Re.space))))))
                      (Re.Cat (Re.Plus Re.digit) (Re.Plus Re.space)))
         (Re.Cat (Re.Alt results (Re.lit "result")) Re.WordB));
    Re.Cat Re.WordB (Re.Cat (Re.lit "Results:") (Re.Cat (Re.Star Re.space) (Re.Plus Re.digit)));
    Re.Cat Re.WordB
      (Re.Cat (Re.Plus Re.digit) (Re.Cat (Re.Plus Re.space)
         (Re.Cat (Re.Alt results (Re.lit "result")) (Re.Cat (Re.Plus Re.space)
            (Re.Cat (Re.lit "found") Re.WordB)))));
    Re.Cat Re.WordB
      (Re.Cat (Re.Plus Re.digit) (Re.Cat (Re.lit "-") (Re.Cat (Re.Plus Re.digit)
         (Re.Cat (Re.Plus Re.space) (Re.Cat (Re.lit "of") (Re.Cat (Re.Plus Re.space)
            (Re.Cat (Re.Plus Re.digit) Re.WordB))))))) ].

Definition check_general_results (response : Response) : bool :=
  let response_text_lower := Py.lower (text response) in
  existsb (fun pattern => Re.search pattern response_text_lower) general_patterns.

(** Lines 607-616 of [run]: the status and the URL that the worker emits
    for a response fetched from [requested]. *)
Definition classify `{Collaborators} (requested : string) (response : Response)
  : pyres (string * string) :=
  let soup := html_parser (text response) in
  if check_not_found_conditions soup then Ret ("Not Found", requested)
  else
    found <- check_found_conditions soup response ;;
    if found || check_general_results response
    then Ret ("Found", url response)
    else Ret ("Not Found", requested).

End Classifier.

(* ================================================================= *)
(** ** search_tab.py: the search worker *)

Module SearchWorker.

(** [search_type] with its [search_value]; [NoSearchType] stands for a
    [search_type] that is neither "isbn" nor "title_author". *)
Inductive search : Type :=
| ByIsbn (isbn : string)
| ByTitleAuthor (title author : string)
| NoSearchType.

(** The attributes set by [__init__], the stop flag apart. *)
Record worker : Type := mkWorker {
  libraries : list library;
  index : option Z;
  search_of : search
}.

(** A call returns the signals it emitted and its result. *)
Definition emitting (A : Type) : Type := (list signal * pyres A)%type.

(** [log_error]: the signal carries an [int], so emitting it with the
    index [None] raises [TypeError]. *)
Definition log_error (idx : option Z) (message : string) : emitting unit :=
  match idx with
  | Some i => ([update_status i "Error" message], Ret tt)
  | None => ([], Raise TypeError)
  end.

Definition construct_url `{Collaborators} (self : worker) (lib : library)
  : emitting (option string) :=
  match search_of self with
  | ByIsbn search_value =>
      let url_template := isbn_url lib in
      let isbn := Py.strip search_value in
      if negb (Py.truthy isbn) then
        let '(sigs, r) := log_error (index self) "ISBN field is empty. Cannot perform the search." in
        (sigs, _ <- r ;; Ret None)
      else ([], u <- format url_template [("isbn", quote isbn)] ;; Ret (Some u))
  | ByTitleAuthor t a =>
      let url_template := title_author_url lib in
      let title := Py.strip t in
      let author := Py.strip a in
      if negb (Py.truthy title) || negb (Py.truthy author) then
        let '(sigs, r) :=
          log_error (index self) "Title or Author field is empty. Cannot perform the search." in
        (sigs, _ <- r ;; Ret None)
      else ([], u <- format url_template [("title", quote title); ("author", quote author)] ;;
                Ret (Some u))
  | NoSearchType => ([], Ret None)
  end.

(** [enumerate(self.libraries)]. *)
Definition enumerate {A : Type} (l : list A) : list (Z * A) :=
  combine (map Z.of_nat (seq 0 (List.length l))) l.

(** [l[k]]: a negative index counts from the end, and an index outside
    the list raises [IndexError] ([None]). *)
Definition getitem {A : Type} (l : list A) (k : Z) : option A :=
  if (0 <=? k)%Z then nth_error l (Z.to_nat k)
  else if (- Z.of_nat (List.length l) <=? k)%Z
       then nth_error l (Z.to_nat (Z.of_nat (List.length l) + k))
       else None.

(** Where [run] stands. The points are cut so that a step either reads the
    stop flag or emits signals, never both. *)
Inductive pc : Type :=
| Start
    (* line 584: the flag is read on entry *)
| LoopHead (todo : list (Z * library))
    (* line 590: the flag is read at the top of an iteration *)
| Build (i : Z) (lib : library) (todo : list (Z * library))
    (* lines 593-598: the URL is built, Error or Searching is emitted *)
| PreRequest (i : Z) (url : string) (todo : list (Z * library))
    (* line 601: the flag is read before the request *)
| InFlight (i : Z) (url : string) (todo : list (Z * library))
    (* lines 604-620: request, classification, the result is emitted *)
| Epilogue
    (* lines 622-623: the flag is cleared, search_complete is emitted *)
| Returned
| Crashed (e : exn).

Record wstate : Type := mkW { at_ : pc; _is_running : bool }.

Definition init : wstate := mkW Start true.

(** [stop()], called from the interface thread: it clears the flag. *)
Definition stop (s : wstate) : wstate := mkW (at_ s) false.

(** The signals of lines 604-620 for endpoint [i]. *)
Definition request_signals `{Collaborators} (i : Z) (url : string) : list signal * option exn :=
  match (response <- requests_get url ;; Classifier.classify url response) with
  | Ret (status, u) => ([update_status i status u], None)
  | Raise (RequestException e) =>
      ([update_status i "Error" ("Request error: " ++ e)%string; update_status i "Error" url], None)
  | Raise x => ([], Some x)
  end.

(** One step of [run] in the worker thread. *)
Definition run_step `{Collaborators} (self : worker) (s : wstate) : wstate * list signal :=
  match at_ s with
  | Start =>
      if _is_running s then
        match index self with
        | Some k =>
            match getitem (libraries self) k with
            | Some lib => (mkW (LoopHead [(k, lib)]) true, [])
            | None => (mkW (Crashed IndexError) true, [])
            end
        | None => (mkW (LoopHead (enumerate (libraries self))) true, [])
        end
      else (mkW Returned false, [])
  | LoopHead [] => (mkW Epilogue (_is_running s), [])
  | LoopHead ((i, lib) :: todo) =>
      if _is_running s then (mkW (Build i lib todo) true, [])
      else (mkW Epilogue false, [])
  | Build i lib todo =>
      match construct_url self lib with
      | (sigs, Raise x) => (mkW (Crashed x) (_is_running s), sigs)
      | (sigs, Ret None) | (sigs, Ret (Some EmptyString)) =>
          (mkW (LoopHead todo) (_is_running s),
           sigs ++ [update_status i "Error" "URL construction failed."])
      | (sigs, Ret (Some url)) =>
          (mkW (PreRequest i url todo) (_is_running s),
           sigs ++ [update_status i "Searching..." url])
      end
  | PreRequest i url todo =>
      if _is_running s then (mkW (InFlight i url todo) true, [])
      else (mkW Epilogue false, [])
  | InFlight i url todo =>
      match request_signals i url with
      | (sigs, None) => (mkW (LoopHead todo) (_is_running s), sigs)
      | (sigs, Some x) => (mkW (Crashed x) (_is_running s), sigs)
      end
  | Epilogue => (mkW Returned false, [search_complete])
  | Returned => (s, [])
  | Crashed _ => (s, [])
  end.

(** A schedule interleaves steps of the worker with [stop()] calls. *)
Inductive move : Type := Work | Stop.

(** The state a schedule leads to and the signals emitted on the way. *)
Fixpoint exec `{Collaborators} (self : worker) (moves : list move) (s : wstate)
  : wstate * list signal :=
  match moves with
  | [] => (s, [])
  | Work :: rest =>
      let '(s1, out1) := run_step self s in
      let '(s2, out2) := exec self rest s1 in
      (s2, out1 ++ out2)
  | Stop :: rest => exec self rest (stop s)
  end.

(** [run] has ended: it returned, or an exception left it. *)
Definition finished (s : wstate) : bool :=
  match at_ s with
  | Returned | Crashed _ => true
  | _ => false
  end.

(** The signals that concern one endpoint. *)
Definition about (i : Z) (sig : signal) : bool :=
  match sig with
  | update_status j _ _ => (j =? i)%Z
  | search_complete => false
  end.

(** An endpoint is pending while no status has been emitted for it. *)
Definition pending (i : Z) (emitted : list signal) : bool :=
  negb (existsb (about i) emitted).

Definition resolved_status (status : string) : bool :=
  String.eqb status "Found" || String.eqb status "Not Found" || String.eqb status "Error".

(** The texts with which [construct_url] and [run] report that no URL
    could be built. *)
Definition url_failure_messages : list string :=
  [ "URL construction failed.";
    "ISBN field is empty. Cannot perform the search.";
    "Title or Author field is empty. Cannot perform the search." ].

(** The signals a worker whose flag has been cleared can still emit. *)
Definition drain `{Collaborators} (self : worker) (s : wstate) : list signal :=
  match at_ s with
  | Build _ _ _ | InFlight _ _ _ => snd (run_step self s) ++ [search_complete]
  | LoopHead _ | PreRequest _ _ _ | Epilogue => [search_complete]
  | Start | Returned | Crashed _ => []
  end.

(** Signals that all concern endpoint [i]. *)
Definition only_about (i : Z) (sigs : list signal) : Prop :=
  forall sig, In sig sigs -> exists status u, sig = update_status i status u.

Definition index_ok (self : worker) (todo : list (Z * library)) : Prop :=
  forall k j, index self = Some k -> In j (map fst todo) -> j = k.

(** What holds of the place where the worker stands and of the signals
    emitted so far: the endpoints still to do are distinct and pending,
    and the endpoint being requested has been announced as Searching. *)
Definition inv (self : worker) (s : wstate) (em : list signal) : Prop :=
  match at_ s with
  | Start => em = []
  | LoopHead todo =>
      NoDup (map fst todo)
      /\ (forall j, In j (map fst todo) -> pending j em = true)
      /\ index_ok self todo
  | Build i lib todo =>
      NoDup (i :: map fst todo)
      /\ (forall j, In j (i :: map fst todo) -> pending j em = true)
      /\ index_ok self ((i, lib) :: todo)
  | PreRequest i url todo | InFlight i url todo =>
      NoDup (i :: map fst todo)
      /\ (forall j, In j (map fst todo) -> pending j em = true)
      /\ index_ok self todo
      /\ In (update_status i "Searching..." url) em
  | Epilogue | Returned | Crashed _ => True
  end.

(** The cancellation property as the specification states it: a status
    of Found, Not Found or Error emitted after a [stop()] goes to an
    endpoint that already had such a status before it (every other
    endpoint is left as it was, or at Searching for [cancel_search] to
    mark Canceled). [m1] is the schedule up to the cancel request, [m2]
    the schedule after it. *)
Definition resolved_only_before_cancel `{Collaborators} (self : worker) : Prop :=
  forall (m1 m2 : list move) (i : Z) (status u : string),
    In (update_status i status u) (snd (exec self m2 (stop (fst (exec self m1 init))))) ->
    resolved_status status = true ->
    exists status' u',
      In (update_status i status' u') (snd (exec self m1 init))
      /\ resolved_status status' = true.

(** Its first sentence alone: after a [stop()], no status of Found, Not
    Found or Error is emitted for an endpoint that is pending when it is
    emitted. *)
Definition pending_never_resolves_after_cancel `{Collaborators} (self : worker) : Prop :=
  forall (m1 m2 : list move) (sigs : list signal) (i : Z) (status u : string)
         (rest : list signal),
    snd (exec self m2 (stop (fst (exec self m1 init)))) = sigs ++ update_status i status u :: rest ->
    pending i (snd (exec self m1 init) ++ sigs) = true ->
    resolved_status status = false.

(** The steps of the worker in a schedule. *)
Definition work_steps (moves : list move) : nat :=
  List.length (filter (fun m => match m with Work => true | Stop => false end) moves).

(** How many steps [run] can still take, at most, once the flag has been
    cleared. *)
Definition remaining (p : pc) : nat :=
  match p with
  | Build _ _ _ | InFlight _ _ _ => 3
  | LoopHead _ | PreRequest _ _ _ => 2
  | Start | Epilogue => 1
  | Returned | Crashed _ => 0
  end.

(** The completion signal has not been emitted before [run] returns, and
    when [run] has returned it is the last signal, if it was emitted. *)
Definition complete_last (s : wstate) (em : list signal) : Prop :=
  match at_ s with
  | Returned =>
      ~ In search_complete em
      \/ exists ups, em = ups ++ [search_complete] /\ ~ In search_complete ups
  | _ => ~ In search_complete em
  end.

End SearchWorker.

(* ================================================================= *)
(** ** search_tab.py: the interface side *)

Module SearchTab.

(** [cancel_search], after [stop()] and [wait()]: every row of the status
    column that reads "Searching..." is set to "Canceled". *)
Definition cancel_search_rows (statuses : list string) : list string :=
  map (fun t => if String.eqb t "Searching..." then "Canceled" else t) statuses.

(** An answer to [QInputDialog.getText]: the text and the [ok] flag. The
    user is a script of answers, one per dialog shown. *)
Definition answer : Type := (string * bool)%type.

(** How a prompt that is shown again until its input is valid ends: with a
    value and the answers left, with a cancel, or, when the script has no
    answer left, still open. The warnings shown on the way are kept. *)
Inductive prompt : Type :=
| Entered (v : string) (rest : list answer) (warnings : list string)
| Cancelled (warnings : list string)
| Waiting (warnings : list string).

Definition warn (w : string) (p : prompt) : prompt :=
  match p with
  | Entered v rest ws => Entered v rest (w :: ws)
  | Cancelled ws => Cancelled (w :: ws)
  | Waiting ws => Waiting (w :: ws)
  end.

(** The first [while True] loop of [add_library]. *)
Fixpoint ask_isbn_url (script : list answer) : prompt :=
  match script with
  | [] => Waiting []
  | (isbn_url, ok) :: rest =>
      if negb ok then Cancelled []
      else if Py.contains "{title}" isbn_url || Py.contains "{author}" isbn_url then
        warn "The ISBN URL cannot contain {title} or {author}." (ask_isbn_url rest)
      else if negb (Py.contains "{isbn}" isbn_url) then
        warn "The ISBN URL must include {isbn} as a placeholder." (ask_isbn_url rest)
      else Entered isbn_url rest []
  end.

(** The second [while True] loop of [add_library]. *)
Fixpoint ask_title_author_url (script : list answer) : prompt :=
  match script with
  | [] => Waiting []
  | (title_author_url, ok) :: rest =>
      if negb ok then Cancelled []
      else if Py.contains "{isbn}" title_author_url then
        warn "The Title & Author URL cannot contain {isbn}." (ask_title_author_url rest)
      else if negb (Py.contains "{title}" title_author_url)
              || negb (Py.contains "{author}" title_author_url) then
        warn "The Title & Author URL must include {title} and {author}."
          (ask_title_author_url rest)
      else Entered title_author_url rest []
  end.

(** What an operation on the list leaves behind: the list in memory, what
    [save_urls] wrote to [libraries.json] if it was called, the warnings
    shown, whether a dialog is still open, and an exception that escaped. *)
Record result : Type := mkResult {
  libraries_after : list library;
  written : option (list library);
  warnings : list string;
  waiting : bool;
  raised : option exn
}.

Definition unchanged (libs : list library) (ws : list string) (open : bool) : result :=
  mkResult libs None ws open None.

Definition add_library (libs : list library) (script : list answer) : result :=
  match script with
  | [] => unchanged libs [] true
  | (library_name, ok) :: rest =>
      if negb ok || negb (Py.truthy (Py.strip library_name)) then unchanged libs [] false
      else
        match ask_isbn_url rest with
        | Waiting ws => unchanged libs ws true
        | Cancelled ws => unchanged libs ws false
        | Entered isbn_url rest1 ws1 =>
            match ask_title_author_url rest1 with
            | Waiting ws2 => unchanged libs (ws1 ++ ws2) true
            | Cancelled ws2 => unchanged libs (ws1 ++ ws2) false
            | Entered title_author_url _ ws2 =>
                let libs' := libs ++ [mkLibrary (Py.strip library_name) (Py.strip isbn_url)
                                        (Py.strip title_author_url)] in
                mkResult libs' (Some libs') (ws1 ++ ws2) false None
            end
        end
  end.

(** [l[row] = v] on a row that exists. *)
Fixpoint set_nth {A : Type} (row : nat) (v : A) (l : list A) : list A :=
  match row, l with
  | _, [] => []
  | O, _ :: r => v :: r
  | S k, x :: r => x :: set_nth k v r
  end.

(** [edit_library]; [row] is [None] when no row is selected. The rows of
    the table are those of the list, so the original texts are read from
    it; a row outside the list has no item to read. *)
Definition edit_library `{Collaborators} (libs : list library) (row : option nat)
  (script : list answer) : result :=
  match row with
  | None => unchanged libs [] false
  | Some row =>
      match nth_error libs row with
      | None => mkResult libs None [] false (Some AttributeError)
      | Some original =>
          let original_library_name := name original in
          let original_isbn_url := isbn_url original in
          let original_title_author_url := title_author_url original in
          match script with
          | [] => unchanged libs [] true
          | (library_name, ok) :: rest =>
              if negb ok || negb (Py.truthy (Py.strip library_name)) then unchanged libs [] false
              else
                match rest with
                | [] => unchanged libs [] true
                | (isbn_url, ok) :: rest =>
                    if negb ok then unchanged libs [] false
                    else if Py.contains "{title}" isbn_url || Py.contains "{author}" isbn_url then
                      unchanged libs ["The ISBN URL cannot contain {title} or {author}."] false
                    else if negb (Py.contains "{isbn}" isbn_url) then
                      unchanged libs ["The ISBN URL must include {isbn} as a placeholder."] false
                    else if negb (validators_url isbn_url) then
                      unchanged libs ["The ISBN URL is not a valid URL."] false
                    else
                      match rest with
                      | [] => unchanged libs [] true
                      | (title_author_url, ok) :: _ =>
                          if negb ok then unchanged libs [] false
                          else if Py.contains "{isbn}" title_author_url then
                            unchanged libs ["The Title & Author URL cannot contain {isbn}."] false
                          else if negb (Py.contains "{title}" title_author_url)
                                  || negb (Py.contains "{author}" title_author_url) then
                            unchanged libs
                              ["The Title & Author URL must include both {title} and {author}."] false
                          else if negb (validators_url title_author_url) then
                            unchanged libs ["The Title & Author URL is not a valid URL."] false
                          else
                            let changes :=
                              negb (String.eqb library_name original_library_name)
                              || negb (String.eqb isbn_url original_isbn_url)
                              || negb (String.eqb title_author_url original_title_author_url) in
                            if changes then
                              let libs' :=
                                set_nth row (mkLibrary library_name isbn_url title_author_url) libs in
                              mkResult libs' (Some libs') [] false None
                            else unchanged libs [] false
                      end
                end
          end
      end
  end.

(** The placeholder rules, as the specification words them: an ISBN
    template is refused when it contains [{title}] or [{author}] or lacks
    [{isbn}]; a title and author template is refused when it does not
    contain both [{title}] and [{author}]. *)
Definition isbn_template_refused (u : string) : bool :=
  Py.contains "{title}" u || Py.contains "{author}" u || negb (Py.contains "{isbn}" u).

Definition title_author_template_refused (u : string) : bool :=
  negb (Py.contains "{title}" u && Py.contains "{author}" u).

Definition follows_rules (e : library) : bool :=
  negb (isbn_template_refused (isbn_url e))
  && negb (title_author_template_refused (title_author_url e)).

(** [delete_library]; [row] is [None] when no row is selected and [reply]
    is the answer to the confirmation. As in [edit_library], a row outside
    the list has no item to read. *)
Definition delete_library (libs : list library) (row : option nat) (reply : bool) : result :=
  match row with
  | None => unchanged libs [] false
  | Some row =>
      match nth_error libs row with
      | None => mkResult libs None [] false (Some AttributeError)
      | Some _ =>
          if reply then
            let libs' := firstn row libs ++ skipn (S row) libs in
            mkResult libs' (Some libs') [] false None
          else unchanged libs [] false
      end
  end.





(** The status column of the table, one text per row. *)
Definition status_column : Type := list string.

(** [clear_statuses]. *)
Definition clear_statuses (table : status_column) : status_column :=
  map (fun _ => EmptyString) table.

(** The slot [update_status], on the status column: a row that the table
    does not have has no item, and setting its text raises. *)
Definition update_status_slot (table : status_column) (row : Z) (status : string)
  : pyres status_column :=
  if (0 <=? row)%Z && (row <? Z.of_nat (List.length table))%Z
  then Ret (set_nth (Z.to_nat row) status table)
  else Raise AttributeError.

(** The signals of a worker delivered to the slot, in the order in which
    they were emitted. *)
Fixpoint deliver (signals : list signal) (table : status_column) : pyres status_column :=
  match signals with
  | [] => Ret table
  | update_status row status _ :: rest =>
      table' <- update_status_slot table row status ;; deliver rest table'
  | search_complete :: rest => deliver rest table
  end.

End SearchTab.

(* ================================================================= *)
(** ** Sample inputs and stand-ins for the collaborators *)

Module Samples.

(** A stand-in for [str.format]: it agrees with it on templates whose only
    braces are those of the placeholders given. [skip] counts the
    characters of a placeholder still to be passed over. *)
Fixpoint fill (kwargs : list (string * string)) (skip : nat) (t : string) : string :=
  match t with
  | EmptyString => EmptyString
  | String c r =>
      match skip with
      | S k => fill kwargs k r
      | O =>
          match List.find (fun kv => String.prefix ("{" ++ fst kv ++ "}")%string t) kwargs with
          | Some kv => (snd kv ++ fill kwargs (String.length (fst kv) + 1) r)%string
          | None => String c (fill kwargs 0 r)
          end
      end
  end.

(** Collaborators for the examples: the record model takes every field,
    the parser returns [page] and the network answers [answer] whatever
    they are asked, and [quote] is the identity, as it is on letters and
    digits. *)
Definition env (page : Bs4.node) (answer : pyres Response) : Collaborators :=
  {| new_field := fun _ => None;
     html_parser := fun _ => page;
     requests_get := fun _ => answer;
     format := fun t kwargs => Ret (fill kwargs 0 t);
     quote := fun s => s;
     validators_url := fun _ => true |}.

Definition empty_page : Bs4.node := Bs4.soup_of [].

Definition offline : Collaborators :=
  env empty_page (Raise (RequestException "no network")).

(** A results page that says "No results found" and also carries a
    positive count in its [totalResults] meta tag. *)
Definition no_results_page : Bs4.node :=
  Bs4.soup_of
    [ Bs4.Tag "html" []
        [ Bs4.Tag "head" []
            [ Bs4.Tag "meta" [("name", "totalResults"); ("content", "5")] [] ];
          Bs4.Tag "body" []
            [ Bs4.Tag "p" [] [ Bs4.NavigableString true " No results found " ] ] ] ].

Definition no_results_response : Response :=
  mkResponse
    "<html><head><meta name='totalResults' content='5'></head><body><p> No results found </p></body></html>"
    "http://opac.example/search?isbn=9780000000000" [].

(** A record page reached through one redirect; nothing on it is one of
    the structural signals. *)
Definition record_page : Bs4.node :=
  Bs4.soup_of
    [ Bs4.Tag "html" []
        [ Bs4.Tag "body" [] [ Bs4.Tag "h2" [] [ Bs4.NavigableString true "Moby Dick" ] ] ] ].

Definition redirected_response : Response :=
  mkResponse "<html><body><h2>Moby Dick</h2></body></html>"
    "http://opac.example/record/42"
    ["http://opac.example/search?isbn=9780000000000"].

Definition redirect_env : Collaborators := env record_page (Ret redirected_response).

Definition no_results_env : Collaborators := env no_results_page (Ret no_results_response).

Definition search_url : string := "http://opac.example/search?isbn=9780000000000".

(** A search of one well-formed endpoint by ISBN. *)
Definition one_library : SearchWorker.worker :=
  SearchWorker.mkWorker
    [ mkLibrary "Example Library" "http://opac.example/search?isbn={isbn}"
        "http://opac.example/search?title={title}&author={author}" ]
    None (SearchWorker.ByIsbn "9780000000000").

(** A search of an entry of [libraries.json] that has no ISBN template. *)
Definition no_template : SearchWorker.worker :=
  SearchWorker.mkWorker
    [ mkLibrary "Title Only" EmptyString
        "http://opac.example/search?title={title}&author={author}" ]
    None (SearchWorker.ByIsbn "9780000000000").

(** Pages whose counts are not numbers. *)
Definition bad_meta_page : Bs4.node :=
  Bs4.soup_of [ Bs4.Tag "meta" [("name", "totalResults"); ("content", "many")] [] ].

Definition bad_stats_page : Bs4.node :=
  Bs4.soup_of [ Bs4.Tag "div" [("class", "search-stats"); ("data-record-total", "1,024")] [] ].

(** A page of the first dialect: a title field, and a field container
    with a tag and no subfield. *)
Definition format_one_page : Bs4.node :=
  Bs4.soup_of
    [ Bs4.Tag "div" [("class", "field")]
        [ Bs4.Tag "span" [("class", "tag")] [Bs4.NavigableString true "245"];
          Bs4.Tag "div" [("class", "ind1")] [Bs4.NavigableString true "1"];
          Bs4.Tag "div" [("class", "ind2")] [Bs4.NavigableString true "0"];
          Bs4.Tag "span" [("class", "sub_code")] [Bs4.NavigableString true "|a"];
          Bs4.NavigableString true " Moby Dick ";
          Bs4.Tag "span" [("class", "sub_code")] [Bs4.NavigableString true "|c"];
          Bs4.NavigableString true " Herman Melville" ];
      Bs4.Tag "div" [("class", "field")]
        [ Bs4.Tag "span" [("class", "tag")] [Bs4.NavigableString true "300"] ] ].

(** A page of the fourth dialect: a leader row, a title row, and a row
    whose only code marker is followed by nothing. *)
Definition format_four_page : Bs4.node :=
  Bs4.soup_of
    [ Bs4.Tag "table" [("class", "citation table table-striped")]
        [ Bs4.Tag "tr" []
            [ Bs4.Tag "th" [] [Bs4.NavigableString true "LEADER"];
              Bs4.Tag "td" [] [Bs4.NavigableString true "00000nam"] ];
          Bs4.Tag "tr" []
            [ Bs4.Tag "th" [] [Bs4.NavigableString true "245"];
              Bs4.Tag "td" [] [Bs4.NavigableString true "1"];
              Bs4.Tag "td" [] [];
              Bs4.Tag "td" []
                [ Bs4.Tag "strong" [] [Bs4.NavigableString true "|a"];
                  Bs4.NavigableString true " Moby Dick " ] ];
          Bs4.Tag "tr" []
            [ Bs4.Tag "th" [] [Bs4.NavigableString true "300"];
              Bs4.Tag "td" [] [];
              Bs4.Tag "td" [] [];
              Bs4.Tag "td" [] [ Bs4.Tag "strong" [] [Bs4.NavigableString true "|a"] ] ] ] ].

(** Two lines of the line-oriented dialect: the first has [#] at offset 5,
    the second has it at offset 4. *)
Definition plain_lines : string :=
  ("100 1# $aMelville, Herman" ++ String (ascii_of_nat 10)
     "245 #0 $aMoby Dick $cHerman Melville")%string.

(** The field that the second of these lines yields. *)
Definition title_field : Marc.Field :=
  Marc.mkField "245" (Some ("\", "0"))
    [ Marc.mkSubfield "a" (Marc.VStr "Moby Dick");
      Marc.mkSubfield "c" (Marc.VStr "Herman Melville") ].

(** The record of the filename example: author and title. *)
Definition moby_dick : Marc.Record_ :=
  [ Marc.mkField "100" (Some ("1", " ")) [Marc.mkSubfield "a" (Marc.VStr "Melville, Herman")];
    Marc.mkField "245" (Some ("1", "0")) [Marc.mkSubfield "a" (Marc.VStr "Moby Dick")] ].

(** A record with neither a title nor an author. *)
Definition anonymous : Marc.Record_ :=
  [ Marc.mkField "020" (Some (" ", " ")) [Marc.mkSubfield "a" (Marc.VStr "9780000000000")];
    Marc.mkField "245" (Some ("1", "0")) [Marc.mkSubfield "c" (Marc.VStr "s.n.")] ].

(** A stand-in for the standard library: every URL has the parts of the
    sample record URL and no query parameter, and slices are not
    hashable. *)
Definition stdlib : StdLib :=
  {| urlparse := fun _ => mkParseResult "http" "opac.example" "/record/42" EmptyString;
     parse_qs := fun _ => [];
     slices_hashable := false |}.

(** A page of the third dialect, as [parse_html] detects it. *)
Definition format_three_page : Bs4.node :=
  Bs4.soup_of
    [ Bs4.Tag "pre" [("style", "direction: ltr")]
        [ Bs4.NavigableString true "245 10 $aMoby Dick" ] ].

Definition format_three_response : Response :=
  mkResponse "<pre style='direction: ltr'>245 10 $aMoby Dick</pre>"
    "http://opac.example/record/42" [].

Definition format_three_env : Collaborators :=
  env format_three_page (Ret format_three_response).

(** The network answers with the page of the first dialect. *)
Definition format_one_env : Collaborators :=
  env format_one_page
    (Ret (mkResponse "<div class='field'>...</div>" "http://opac.example/record/42" [])).

(** A plain view: an author row whose second code marker is [_9]. *)
Definition plain_page : Bs4.node :=
  Bs4.soup_of
    [ Bs4.Tag "table" []
        [ Bs4.Tag "tr" []
            [ Bs4.Tag "th" [] [Bs4.NavigableString true "100"];
              Bs4.Tag "td" [] [Bs4.NavigableString true "1"];
              Bs4.Tag "td" [] [];
              Bs4.Tag "td" []
                [ Bs4.Tag "strong" [] [Bs4.NavigableString true "_a"];
                  Bs4.NavigableString true " Melville, Herman ";
                  Bs4.Tag "strong" [] [Bs4.NavigableString true "_9"];
                  Bs4.NavigableString true " 12345 " ] ] ] ].


(** The search of the first row alone, as [search_again] starts it. *)
Definition one_row : SearchWorker.worker :=
  SearchWorker.mkWorker (SearchWorker.libraries one_library) (Some 0%Z)
    (SearchWorker.ByIsbn "9780000000000").

(** A form in which only the copyright year and the book height are
    filled in. *)
Definition year_and_height : Utils.data :=
  Utils.mkData EmptyString EmptyString EmptyString EmptyString EmptyString EmptyString
    EmptyString "1851" EmptyString EmptyString EmptyString EmptyString EmptyString EmptyString
    EmptyString EmptyString "21" false EmptyString false EmptyString EmptyString EmptyString
    EmptyString.

End Samples.

(** The helpers of [create_marc_record], unfolded. *)
Ltac unfold_create_marc_record :=
  unfold Utils.create_marc_record, Utils.add_author_fields, Utils.add_editor_fields,
    Utils.add_lccn_field, Utils.add_isbn_fields, Utils.add_loc_call_number_field,
    Utils.add_publisher_and_copyright_fields, Utils.add_physical_description_field,
    Utils.add_references_field, Utils.add_loc_subject_headings; cbv zeta.

(* ================================================================= *)
(** * Properties *)

(** ** The dialect parsers *)

Section Parsers.
Import Marc ScrapeTab.
Context {E : Collaborators}.

Lemma for_each_In {A : Type} (body : A -> outcome) (items : list A) :
  forall rec f,
    In f (fst (for_each body items rec)) ->
    In f rec \/ exists x, In x items /\ body x = Add f.
Proof.
  induction items as [|x items IH]; intros rec f Hin; simpl in *.
  - now left.
  - destruct (body x) as [| g | e] eqn:Hx.
    + destruct (IH _ _ Hin) as [H | (y & Hy & Hb)]; [now left|].
      right; exists y; split; [now right | assumption].
    + destruct (IH _ _ Hin) as [H | (y & Hy & Hb)].
      * unfold add_field in H. apply in_app_or in H as [H | [H | []]].
        -- now left.
        -- subst g. right; exists x; split; [now left | assumption].
      * right; exists y; split; [now right | assumption].
    + now left.
Qed.

Lemma for_each_Forall {A : Type} (body : A -> outcome) (P : Field -> Prop) :
  (forall x f, body x = Add f -> P f) ->
  forall items, Forall P (fst (for_each body items [])).
Proof.
  intros Hbody items. apply Forall_forall. intros f Hin.
  apply for_each_In in Hin as [[] | (x & _ & Hx)].
  eapply Hbody; eassumption.
Qed.

(** At most one field per candidate that the loop does not skip. *)
Lemma for_each_length {A : Type} (body : A -> outcome) (p : A -> bool) :
  (forall x, p x = false -> body x = Skip) ->
  forall items rec,
    List.length (fst (for_each body items rec))
    <= List.length rec + List.length (filter p items).
Proof.
  intros Hskip. induction items as [|x items IH]; intros rec; simpl.
  - lia.
  - destruct (p x) eqn:Hp.
    + destruct (body x); simpl.
      * specialize (IH rec). lia.
      * specialize (IH (add_field rec f)).
        assert (List.length (add_field rec f) = S (List.length rec)) as Hlen
            by (unfold add_field; rewrite length_app; simpl; lia).
        lia.
      * lia.
    + rewrite (Hskip x Hp). apply IH.
Qed.

Lemma for_each_length_all {A : Type} (body : A -> outcome) (items : list A) :
  List.length (fst (for_each body items [])) <= List.length items.
Proof.
  pose proof (for_each_length body (fun _ => true) (fun x H => ltac:(discriminate)) items []) as H.
  simpl in H. rewrite filter_true in H. exact H.
Qed.

Lemma try_add_field_Add (g f : Field) : try_add_field g = Add f -> f = g.
Proof.
  unfold try_add_field. destruct (new_field g) as [[]|]; intros H; congruence.
Qed.

Lemma do_add_field_Add (g f : Field) : do_add_field g = Add f -> f = g.
Proof.
  unfold do_add_field. destruct (new_field g); intros H; congruence.
Qed.

Lemma format_one_field_subfields e f : format_one_field e = Add f -> has_subfield f.
Proof.
  unfold format_one_field, has_subfield.
  destruct (Bs4.find (Bs4.has_class "span" "tag") (fst e)); [|discriminate].
  destruct (format_one_subfields _) as [[|sf sfs]|]; try discriminate.
  intros H. apply try_add_field_Add in H. subst f. simpl. discriminate.
Qed.

Lemma format_three_line_shape line f :
  format_three_line line = Add f ->
  exists sf sfs,
    f = mkField (Py.strip (Py.take 3 line))
          (Some (format_three_indicator line 4, format_three_indicator line 5)) (sf :: sfs)
    /\ is_discarded_tag (Py.strip (Py.take 3 line)) = Ret false.
Proof.
  unfold format_three_line.
  destruct (negb (Py.truthy (Py.strip line)) || Py.startswith "leader" line); [discriminate|].
  destruct (is_discarded_tag _) as [[]|]; try discriminate.
  destruct (format_three_subfields _) as [|sf sfs]; [discriminate|].
  intros H. apply do_add_field_Add in H. exists sf, sfs. now split.
Qed.

Lemma format_three_line_subfields line f : format_three_line line = Add f -> has_subfield f.
Proof.
  intros H. apply format_three_line_shape in H as (sf & sfs & -> & _).
  unfold has_subfield; simpl; discriminate.
Qed.

Lemma format_four_row_subfields e f : format_four_row e = Add f -> has_subfield f.
Proof.
  unfold format_four_row, has_subfield.
  destruct (Bs4.find (Bs4.name_is "th") (fst e)); [|discriminate].
  destruct (negb (Py.isdigit _)); [discriminate|].
  destruct (Bs4.find_all (Bs4.name_is "td") (fst e)) as [|c0 [|c1 [|c2 cs]]]; try discriminate.
  destruct (format_four_subfields _) as [[|sf sfs]|]; try discriminate.
  intros H. apply try_add_field_Add in H. subst f. simpl. discriminate.
Qed.

Lemma plain_row_subfields e f : plain_row e = Add f -> has_subfield f.
Proof.
  unfold plain_row, has_subfield.
  destruct (Bs4.find (Bs4.name_is "th") (fst e)); [|discriminate].
  destruct (Bs4.find_all (Bs4.name_is "td") (fst e)) as [|c0 [|c1 [|c2 cs]]]; try discriminate.
  destruct (plain_subfields _ _) as [[|sf sfs]|]; try discriminate.
  destruct (Py.truthy _); [|discriminate].
  intros H. apply try_add_field_Add in H. subst f. simpl. discriminate.
Qed.

Lemma update_filename_record (self : state) :
  marc_record (fst (update_filename self)) = marc_record self.
Proof.
  unfold update_filename. destruct (marc_record self) as [rec|] eqn:Hr.
  - destruct (scan_fields _ _) as [[t a]|]; simpl; [reflexivity | exact Hr].
  - simpl. exact Hr.
Qed.

Lemma parse_format_three_record (self : state) (marc_data : string) :
  record_of (parse_format_three self marc_data)
  = fst (for_each format_three_line (Py.splitlines marc_data) []).
Proof.
  unfold record_of, parse_format_three.
  destruct (for_each _ _ _) as [rec [x|]]; simpl; [reflexivity|].
  now rewrite update_filename_record.
Qed.

Lemma parse_plain_marc_record (self : state) (plain_text : string) :
  record_of (parse_plain_marc self plain_text)
  = fst (for_each plain_row (plain_candidates (html_parser plain_text)) []).
Proof.
  unfold record_of, parse_plain_marc, plain_candidates.
  destruct (Bs4.find (Bs4.name_is "table") (html_parser plain_text)); [|reflexivity].
  destruct (for_each _ _ _) as [rec [x|]]; simpl; [reflexivity|].
  now rewrite update_filename_record.
Qed.

(** C3. Whatever the document, each of the four dialect parsers leaves a
    record in which every field carries at least one subfield, and which
    has at most as many fields as the input had candidate fields (the
    field containers of format one, the non-blank non-leader lines of
    format three, the table rows of format four and of the plain view). *)
Theorem parsers_add_no_field_without_subfields :
  forall self : state,
    (forall soup,
        Forall has_subfield (record_of (parse_format_one self soup))
        /\ List.length (record_of (parse_format_one self soup))
           <= List.length (format_one_candidates soup))
    /\ (forall marc_data,
        Forall has_subfield (record_of (parse_format_three self marc_data))
        /\ List.length (record_of (parse_format_three self marc_data))
           <= List.length (format_three_candidates marc_data))
    /\ (forall soup,
        Forall has_subfield (record_of (parse_format_four self soup))
        /\ List.length (record_of (parse_format_four self soup))
           <= List.length (format_four_candidates soup))
    /\ (forall plain_text,
        Forall has_subfield (record_of (parse_plain_marc self plain_text))
        /\ List.length (record_of (parse_plain_marc self plain_text))
           <= List.length (plain_candidates (html_parser plain_text))).
Proof.
  intros self. repeat split.
  - unfold record_of, parse_format_one.
    pose proof (for_each_Forall format_one_field has_subfield format_one_field_subfields
                  (format_one_candidates soup)) as H.
    destruct (for_each _ _ _); exact H.
  - unfold record_of, parse_format_one.
    pose proof (for_each_length_all format_one_field (format_one_candidates soup)) as H.
    destruct (for_each _ _ _); exact H.
  - rewrite parse_format_three_record.
    apply for_each_Forall, format_three_line_subfields.
  - rewrite parse_format_three_record. unfold format_three_candidates.
    apply (for_each_length format_three_line _) with (rec := []).
    intros line Hp. unfold format_three_line.
    apply negb_false_iff in Hp. now rewrite Hp.
  - unfold record_of, parse_format_four.
    pose proof (for_each_Forall format_four_row has_subfield format_four_row_subfields
                  (format_four_candidates soup)) as H.
    destruct (for_each _ _ _); exact H.
  - unfold record_of, parse_format_four.
    pose proof (for_each_length_all format_four_row (format_four_candidates soup)) as H.
    destruct (for_each _ _ _); exact H.
  - rewrite parse_plain_marc_record.
    apply for_each_Forall, plain_row_subfields.
  - rewrite parse_plain_marc_record. apply for_each_length_all.
Qed.

End Parsers.

(** ** Format three: control tags and indicators *)

Section FormatThree.
Import Marc ScrapeTab.
Context {E : Collaborators}.

Lemma lstrip_length s : String.length (Py.lstrip s) <= String.length s.
Proof.
  induction s as [|c r IH]; simpl; [lia|].
  destruct (Py.isspace c); simpl; lia.
Qed.

Lemma rstrip_length s : String.length (Py.rstrip s) <= String.length s.
Proof.
  induction s as [|c r IH]; simpl; [lia|].
  destruct (Py.isspace c && negb (Py.truthy (Py.rstrip r))); simpl; lia.
Qed.

Lemma strip_length s : String.length (Py.strip s) <= String.length s.
Proof.
  unfold Py.strip. pose proof (rstrip_length (Py.lstrip s)). pose proof (lstrip_length s). lia.
Qed.

Lemma take_length n s : String.length (Py.take n s) <= n.
Proof.
  revert s. induction n as [|n IH]; intros [|c r]; simpl; try lia.
  specialize (IH r). lia.
Qed.

(** Two strings that start with the same character bound a third from
    below and above: it starts with that character too. *)
Lemma leb_same_head (a c : ascii) (lo hi r : string) :
  String.leb (String a lo) (String c r) = true ->
  String.leb (String c r) (String a hi) = true ->
  c = a /\ String.leb lo r = true /\ String.leb r hi = true.
Proof.
  unfold String.leb. simpl. rewrite (Ascii.compare_antisym c a).
  destruct (Ascii.compare a c) eqn:Hc; simpl; intros H1 H2; try discriminate.
  apply Ascii.compare_eq_iff in Hc. now subst c.
Qed.

(** A tag of at most three characters in the control range is one that the
    parser discards. *)
Lemma control_range_discarded t :
  String.length t <= 3 -> in_control_range t = true -> is_discarded_tag t = Ret true.
Proof.
  unfold in_control_range. intros Hlen H. apply andb_prop in H as [Hlo Hhi].
  destruct t as [|c0 [|c1 [|c2 [|c3 r]]]]; simpl in Hlen; try lia; try discriminate Hlo.
  - apply (leb_same_head "0" c0 "00" "09") in Hlo as (_ & Hlo & _); [discriminate Hlo | exact Hhi].
  - apply (leb_same_head "0" c0 "00" "09") in Hlo as (_ & Hlo & Hhi'); [|exact Hhi].
    apply (leb_same_head "0" c1 "0" "9") in Hlo as (_ & Hlo & _); [discriminate Hlo | exact Hhi'].
  - apply (leb_same_head "0" c0 "00" "09") in Hlo as (-> & Hlo & Hhi'); [|exact Hhi].
    apply (leb_same_head "0" c1 "0" "9") in Hlo as (-> & Hlo & Hhi''); [|exact Hhi'].
    destruct c2 as [[] [] [] [] [] [] [] []];
      vm_compute in Hlo; vm_compute in Hhi''; try discriminate; reflexivity.
Qed.

(** C6. Whatever the text, the record that the line-oriented parser builds
    holds no field whose tag lies lexically between "000" and "009": a line
    whose tag lies in that range is skipped. *)
Theorem format_three_drops_control_tags :
  forall (self : state) (marc_data : string),
    Forall (fun f => in_control_range (tag f) = false)
           (record_of (parse_format_three self marc_data))
    /\ (forall line,
          In line (Py.splitlines marc_data) ->
          in_control_range (Py.strip (Py.take 3 line)) = true ->
          format_three_line line = Skip).
Proof.
  assert (Hlen : forall line, String.length (Py.strip (Py.take 3 line)) <= 3).
  { intros line. pose proof (strip_length (Py.take 3 line)).
    pose proof (take_length 3 line). lia. }
  intros self marc_data. split.
  - rewrite parse_format_three_record.
    apply for_each_Forall. intros line f H.
    apply format_three_line_shape in H as (sf & sfs & -> & Hkept). cbn [tag].
    destruct (in_control_range (Py.strip (Py.take 3 line))) eqn:Hr; [|reflexivity].
    apply control_range_discarded in Hr; [|apply Hlen].
    rewrite Hr in Hkept. discriminate.
  - intros line _ Hr. unfold format_three_line.
    destruct (negb (Py.truthy (Py.strip line)) || Py.startswith "leader" line); [reflexivity|].
    now rewrite (control_range_discarded _ (Hlen line) Hr).
Qed.

Lemma format_three_indicator_blank line n :
  Py.index line n = Some "#"%char \/ Py.index line n = Some " "%char ->
  format_three_indicator line n = blank_indicator.
Proof.
  unfold format_three_indicator. intros [-> | ->]; reflexivity.
Qed.

Lemma format_three_indicator_not_hash line n : format_three_indicator line n <> "#".
Proof.
  unfold format_three_indicator.
  destruct (String.eqb_spec
              match Py.index line n with
              | Some c => if Ascii.eqb c " " then blank_indicator else Py.str1 c
              | None => blank_indicator
              end "#") as [Heq | Hne].
  - discriminate.
  - exact Hne.
Qed.

(** C7. Where a line has [#] or a space at offset 4 (offset 5), the first
    (second) indicator of the field it yields is the blank-indicator
    placeholder, and no indicator is ever the character [#]; every field
    of the record that the line-oriented parser builds is the field of one
    of the lines of the text. *)
Theorem format_three_hash_indicator_is_blank :
  (forall (line : string) (f : Field),
      format_three_line line = Add f ->
      exists ind1 ind2,
        indicators f = Some (ind1, ind2)
        /\ (Py.index line 4 = Some "#"%char \/ Py.index line 4 = Some " "%char
            -> ind1 = blank_indicator)
        /\ (Py.index line 5 = Some "#"%char \/ Py.index line 5 = Some " "%char
            -> ind2 = blank_indicator)
        /\ ind1 <> "#" /\ ind2 <> "#")
  /\ (forall (self : state) (marc_data : string) (f : Field),
        In f (record_of (parse_format_three self marc_data)) ->
        exists line, In line (Py.splitlines marc_data) /\ format_three_line line = Add f).
Proof.
  split.
  - intros line f Hadd.
    apply format_three_line_shape in Hadd as (sf & sfs & -> & _).
    exists (format_three_indicator line 4), (format_three_indicator line 5).
    repeat split.
    + apply format_three_indicator_blank.
    + apply format_three_indicator_blank.
    + apply format_three_indicator_not_hash.
    + apply format_three_indicator_not_hash.
  - intros self marc_data f Hin. rewrite parse_format_three_record in Hin.
    apply for_each_In in Hin as [[] | (line & Hline & Hadd)]. eauto.
Qed.

End FormatThree.

(** The second line of [Samples.plain_lines] has [#] at offset 4: the
    field it yields is in the record, with the placeholder as its first
    indicator. *)
Lemma format_three_hash_indicator_witness :
  In Samples.title_field
     (ScrapeTab.record_of
        (ScrapeTab.parse_format_three (H := Samples.offline)
           (ScrapeTab.mkState None EmptyString) Samples.plain_lines))
  /\ ScrapeTab.format_three_line (H := Samples.offline) "245 #0 $aMoby Dick $cHerman Melville"
     = ScrapeTab.Add Samples.title_field
  /\ Py.index "245 #0 $aMoby Dick $cHerman Melville" 4 = Some "#"%char
  /\ (exists ind2, Marc.indicators Samples.title_field = Some (ScrapeTab.blank_indicator, ind2))
  /\ (exists line,
        In line (Py.splitlines Samples.plain_lines)
        /\ ScrapeTab.format_three_line (H := Samples.offline) line
           = ScrapeTab.Add Samples.title_field).
Proof.
  assert (Hin : In Samples.title_field
                  (ScrapeTab.record_of
                     (ScrapeTab.parse_format_three (H := Samples.offline)
                        (ScrapeTab.mkState None EmptyString) Samples.plain_lines)))
    by (vm_compute; right; left; reflexivity).
  assert (Hadd : ScrapeTab.format_three_line (H := Samples.offline)
                   "245 #0 $aMoby Dick $cHerman Melville"
                 = ScrapeTab.Add Samples.title_field) by reflexivity.
  split; [exact Hin|]. split; [exact Hadd|]. split; [reflexivity|]. split.
  - destruct (proj1 (format_three_hash_indicator_is_blank (E := Samples.offline)) _ _ Hadd)
      as (ind1 & ind2 & Hind & H4 & _).
    exists ind2. rewrite Hind, (H4 (or_introl eq_refl)). reflexivity.
  - exact (proj2 (format_three_hash_indicator_is_blank (E := Samples.offline))
             (ScrapeTab.mkState None EmptyString) Samples.plain_lines Samples.title_field Hin).
Defined.

(** ** The filename deriver *)

Section Filename.
Import Marc ScrapeTab.

Lemma scan_subfields_none ftag sfs ta :
  (forall sf, In sf sfs -> ftag = "245" \/ ftag = "100" -> code sf <> "a") ->
  scan_subfields ftag sfs ta = Ret ta.
Proof.
  induction sfs as [|sf sfs IH]; intros H; simpl; [reflexivity|].
  assert (IH' : scan_subfields ftag sfs ta = Ret ta)
    by (apply IH; intros sf' Hin; apply H; now right).
  destruct (String.eqb_spec ftag "245") as [H245|_];
    destruct (String.eqb_spec (code sf) "a") as [Ha|_]; simpl;
    try (exfalso; apply (H sf (or_introl eq_refl)); [now left | exact Ha]);
    destruct (String.eqb_spec ftag "100") as [H100|_]; simpl;
    try (exfalso; apply (H sf (or_introl eq_refl)); [now right | exact Ha]);
    exact IH'.
Qed.

Lemma scan_fields_none fs ta :
  (forall f sf, In f fs -> In sf (subfields f) -> tag f = "245" \/ tag f = "100" -> code sf <> "a") ->
  scan_fields fs ta = Ret ta.
Proof.
  induction fs as [|f fs IH]; intros H; simpl; [reflexivity|].
  rewrite scan_subfields_none.
  - simpl. apply IH. intros f' sf Hin. apply H. now right.
  - intros sf Hin. apply (H f sf); [now left | exact Hin].
Qed.

(** C5, as the code has it. For a record with no title and no author the
    deriver composes "UnknownAuthor_Untitled" and then cleans it; cleaning
    removes the underscore, so the file name set is "UnknownAuthorUntitled",
    not the "UnknownAuthor_Untitled" of the specification. *)
Theorem default_filename_loses_separator :
  forall (rec : Record_) (old : string),
    no_title_no_author rec ->
    update_filename (mkState (Some rec) old)
    = (mkState (Some rec) "UnknownAuthorUntitled", None)
    /\ "UnknownAuthorUntitled" <> "UnknownAuthor_Untitled".
Proof.
  intros rec old H. split; [|discriminate].
  unfold update_filename. cbn [marc_record].
  rewrite scan_fields_none; [reflexivity|].
  intros f sf Hin. apply H. unfold get_fields in Hin.
  apply filter_In in Hin. tauto.
Qed.

(** C4, as the code has it. With the author "Melville, Herman" in 100 a
    and the title "Moby Dick" in 245 a the deriver sets
    "Melville_HermanMoby_Dick": the separator it put between author and
    title is removed by [clean_filename], whose regular expression keeps
    letters, digits and whitespace only. The same holds when the record
    comes out of the line parser. The manual-entry path of utils.py cleans
    each part first and joins them afterwards, and does produce
    "Melville_Herman_Moby_Dick". *)
Theorem moby_dick_filename_loses_separator :
  update_filename (mkState (Some Samples.moby_dick) EmptyString)
  = (mkState (Some Samples.moby_dick) "Melville_HermanMoby_Dick", None)
  /\ default_filename
       (fst (parse_format_three (H := Samples.offline) (mkState None EmptyString)
               Samples.plain_lines))
     = "Melville_HermanMoby_Dick"
  /\ "Melville_HermanMoby_Dick" <> "Melville_Herman_Moby_Dick"
  /\ Utils.clean_filename "Melville, Herman_Moby Dick" = "Melville_HermanMoby_Dick"
  /\ Utils.download_default_filename "Moby Dick" "Melville, Herman"
     = "Melville_Herman_Moby_Dick.mrc".
Proof.
  repeat split; try reflexivity. discriminate.
Qed.

End Filename.

(** [Samples.anonymous] has a 245 field without subfield [a] and no 100
    field. *)
Lemma default_filename_witness :
  ScrapeTab.no_title_no_author Samples.anonymous
  /\ ScrapeTab.update_filename (ScrapeTab.mkState (Some Samples.anonymous) EmptyString)
     = (ScrapeTab.mkState (Some Samples.anonymous) "UnknownAuthorUntitled", None)
  /\ "UnknownAuthorUntitled" <> "UnknownAuthor_Untitled".
Proof.
  assert (H : ScrapeTab.no_title_no_author Samples.anonymous).
  { intros f sf [<- | [<- | []]] [<- | []] [Ht | Ht]; simpl in *; discriminate. }
  split; [exact H|].
  exact (default_filename_loses_separator Samples.anonymous EmptyString H).
Defined.

(** ** The response classifier *)

Section ClassifierProperties.
Import Classifier SearchWorker.
Context {E : Collaborators}.

Lemma guarded_count_total (s : string) :
  exists b, try_except_ValueError (n <- py_int s ;; Ret (0 <? n)%Z) (Ret false) = Ret b.
Proof.
  unfold py_int. destruct (Py.int s); simpl; eauto.
Qed.

Lemma guarded_count_malformed (s : string) :
  Py.int s = None ->
  try_except_ValueError (n <- py_int s ;; Ret (0 <? n)%Z) (Ret false) = Ret false.
Proof.
  unfold py_int. intros ->. reflexivity.
Qed.

Lemma check_meta_total_results_total soup : exists b, check_meta_total_results soup = Ret b.
Proof.
  unfold check_meta_total_results.
  destruct (find_total_results_meta soup); [apply guarded_count_total | eauto].
Qed.

Lemma check_search_stats_total soup : exists b, check_search_stats soup = Ret b.
Proof.
  unfold check_search_stats.
  destruct (find_search_stats_div soup) as [d|]; [|eauto].
  destruct (Bs4.get "data-record-total" (fst d)) as [total|]; [|eauto].
  destruct (Py.truthy total); [apply guarded_count_total | eauto].
Qed.

Lemma check_found_conditions_total soup response :
  exists b, check_found_conditions soup response = Ret b.
Proof.
  unfold check_found_conditions.
  destruct (nonempty (history response)); [eauto|].
  destruct (check_meta_total_results_total soup) as [b1 ->].
  destruct (check_search_stats_total soup) as [b2 ->].
  simpl. eauto.
Qed.

Lemma classify_total requested response :
  exists status u, classify requested response = Ret (status, u).
Proof.
  unfold classify.
  destruct (check_not_found_conditions _); [eauto|].
  destruct (check_found_conditions_total (html_parser (text response)) response) as [b ->].
  simpl. destruct (b || check_general_results response); eauto.
Qed.

(** C10. The two numeric-count checks return a truth value for every
    page, and [False] when the attribute is there and is not an integer;
    so the classification of a response always yields a status. *)
Theorem numeric_count_checks_never_raise :
  forall (soup : Bs4.node) (requested : string) (response : Response),
    (exists b, check_meta_total_results soup = Ret b)
    /\ (exists b, check_search_stats soup = Ret b)
    /\ (forall m content,
          find_total_results_meta soup = Some m ->
          Bs4.get "content" (fst m) = Some content ->
          Py.int content = None ->
          check_meta_total_results soup = Ret false)
    /\ (forall d total,
          find_search_stats_div soup = Some d ->
          Bs4.get "data-record-total" (fst d) = Some total ->
          Py.int total = None ->
          check_search_stats soup = Ret false)
    /\ (exists status u, classify requested response = Ret (status, u)).
Proof.
  intros soup requested response. repeat split.
  - apply check_meta_total_results_total.
  - apply check_search_stats_total.
  - intros m content Hm Hc Hint. unfold check_meta_total_results.
    rewrite Hm, Hc. now apply guarded_count_malformed.
  - intros d total Hd Ht Hint. unfold check_search_stats.
    rewrite Hd, Ht. destruct (Py.truthy total); [now apply guarded_count_malformed | reflexivity].
  - apply classify_total.
Qed.

(** C1. When the visible text of the page contains one of the not-found
    phrases, the classification is Not Found for the requested URL and
    that is the one status emitted for the endpoint, whatever else the
    page or the response carries. *)
Theorem not_found_phrase_wins :
  forall (i : Z) (requested : string) (response : Response),
    (exists phrase,
        In phrase not_found_phrases
        /\ Py.contains phrase (text_without_scripts (html_parser (text response))) = true) ->
    check_not_found_conditions (html_parser (text response)) = true
    /\ classify requested response = Ret ("Not Found", requested)
    /\ (requests_get requested = Ret response ->
        request_signals i requested = ([update_status i "Not Found" requested], None)).
Proof.
  intros i requested response (phrase & Hin & Hc).
  assert (Hnf : check_not_found_conditions (html_parser (text response)) = true).
  { unfold check_not_found_conditions.
    assert (Hex : existsb (fun p => Py.contains p (text_without_scripts (html_parser (text response))))
               not_found_phrases = true)
      by (apply existsb_exists; exists phrase; now split).
    cbv zeta. rewrite Hex. reflexivity. }
  assert (Hcl : classify requested response = Ret ("Not Found", requested))
    by (unfold classify; cbv zeta; now rewrite Hnf).
  repeat split; try assumption.
  intros Hget. unfold request_signals. rewrite Hget. cbn [bind]. now rewrite Hcl.
Qed.

Lemma classify_not_found_url requested response u :
  classify requested response = Ret ("Not Found", u) -> u = requested.
Proof.
  unfold classify. cbv zeta.
  destruct (check_not_found_conditions _); [congruence|].
  destruct (check_found_conditions _ _) as [b|]; [|discriminate]. cbn [bind].
  destruct (b || check_general_results response); [discriminate | congruence].
Qed.

(** C2. A response that followed at least one redirect and whose page
    matches no not-found signal is classified Found before any structural
    signal is looked at (the page plays no part), and the Found status
    carries the final URL of the response; a Not Found status, whenever
    one is emitted, carries the URL that was requested. *)
Theorem redirect_means_found :
  forall (i : Z) (requested : string) (response : Response),
    history response <> [] ->
    check_not_found_conditions (html_parser (text response)) = false ->
    (forall soup, check_found_conditions soup response = Ret true)
    /\ classify requested response = Ret ("Found", url response)
    /\ (requests_get requested = Ret response ->
        request_signals i requested = ([update_status i "Found" (url response)], None))
    /\ (forall j asked sigs x u,
          request_signals j asked = (sigs, x) ->
          In (update_status j "Not Found" u) sigs -> u = asked).
Proof.
  intros i requested response Hh Hnf.
  assert (Hfound : forall soup, check_found_conditions soup response = Ret true).
  { intros soup. unfold check_found_conditions.
    destruct (history response); [contradiction | reflexivity]. }
  assert (Hcl : classify requested response = Ret ("Found", url response)).
  { unfold classify. cbv zeta. rewrite Hnf, Hfound. reflexivity. }
  repeat split; try assumption.
  - intros Hget. unfold request_signals. rewrite Hget. cbn [bind]. now rewrite Hcl.
  - intros j asked sigs x u Hsig Hin. unfold request_signals in Hsig.
    destruct (requests_get asked) as [r|e]; cbn [bind] in Hsig.
    + destruct (classify asked r) as [[status v]|e] eqn:Hc.
      * inversion Hsig; subst. destruct Hin as [Heq | []].
        inversion Heq; subst. now apply classify_not_found_url in Hc.
      * destruct e; inversion Hsig; subst; simpl in Hin; try contradiction;
        destruct Hin as [Heq | [Heq | []]]; discriminate.
    + destruct e; inversion Hsig; subst; simpl in Hin; try contradiction;
        destruct Hin as [Heq | [Heq | []]]; discriminate.
Qed.

End ClassifierProperties.

(** The sample page says "No results found" and reports five results in
    its meta tag: the found signal is there, and the outcome is Not
    Found. *)
Lemma not_found_phrase_witness :
  Classifier.check_meta_total_results Samples.no_results_page = Ret true
  /\ Py.contains "no results found"
       (Classifier.text_without_scripts
          (html_parser (Collaborators := Samples.no_results_env)
             (text Samples.no_results_response))) = true
  /\ Classifier.check_not_found_conditions
       (html_parser (Collaborators := Samples.no_results_env)
          (text Samples.no_results_response)) = true
  /\ Classifier.classify (H := Samples.no_results_env) Samples.search_url
       Samples.no_results_response
     = Ret ("Not Found", Samples.search_url)
  /\ (requests_get (Collaborators := Samples.no_results_env) Samples.search_url
      = Ret Samples.no_results_response ->
      SearchWorker.request_signals (H := Samples.no_results_env) 0%Z Samples.search_url
      = ([update_status 0%Z "Not Found" Samples.search_url], None)).
Proof.
  split; [reflexivity|]. split; [reflexivity|].
  apply (not_found_phrase_wins (E := Samples.no_results_env) 0%Z Samples.search_url
           Samples.no_results_response).
  exists "no results found". split; [now left | reflexivity].
Defined.

(** The sample response was redirected once to a record page. *)
Lemma redirect_means_found_witness :
  history Samples.redirected_response <> []
  /\ Classifier.check_not_found_conditions
       (html_parser (Collaborators := Samples.redirect_env)
          (text Samples.redirected_response)) = false
  /\ (forall soup, Classifier.check_found_conditions soup Samples.redirected_response = Ret true)
  /\ Classifier.classify (H := Samples.redirect_env) Samples.search_url
       Samples.redirected_response
     = Ret ("Found", url Samples.redirected_response)
  /\ (requests_get (Collaborators := Samples.redirect_env) Samples.search_url
      = Ret Samples.redirected_response ->
      SearchWorker.request_signals (H := Samples.redirect_env) 0%Z Samples.search_url
      = ([update_status 0%Z "Found" (url Samples.redirected_response)], None))
  /\ (forall j asked sigs x u,
        SearchWorker.request_signals (H := Samples.redirect_env) j asked = (sigs, x) ->
        In (update_status j "Not Found" u) sigs -> u = asked).
Proof.
  assert (Hh : history Samples.redirected_response <> []) by discriminate.
  assert (Hnf : Classifier.check_not_found_conditions
                  (html_parser (Collaborators := Samples.redirect_env)
                     (text Samples.redirected_response)) = false) by reflexivity.
  split; [exact Hh|]. split; [exact Hnf|].
  exact (redirect_means_found (E := Samples.redirect_env) 0%Z Samples.search_url
           Samples.redirected_response Hh Hnf).
Defined.

(** The counts "many" and "1,024" are not integers: both checks answer
    [False]. *)
Example malformed_counts :
  Classifier.check_meta_total_results Samples.bad_meta_page = Ret false
  /\ Classifier.check_search_stats Samples.bad_stats_page = Ret false.
Proof. split; reflexivity. Qed.

(** ** Endpoint template validation *)

Section Validation.
Import SearchTab.
Context {E : Collaborators}.

Lemma prefix_head_space a p c r :
  Py.isspace a = false -> Py.isspace c = true -> String.prefix (String a p) (String c r) = false.
Proof.
  intros Ha Hc. simpl. destruct (ascii_dec a c) as [->|]; [congruence | reflexivity].
Qed.

Lemma contains_lstrip a p s :
  Py.isspace a = false ->
  Py.contains (String a p) (Py.lstrip s) = Py.contains (String a p) s.
Proof.
  intros Ha. induction s as [|c r IH]; [reflexivity|].
  cbn [Py.lstrip]. destruct (Py.isspace c) eqn:Hc; [|reflexivity].
  rewrite IH. cbn [Py.contains]. now rewrite (prefix_head_space a p c r Ha Hc).
Qed.

Lemma prefix_rstrip s : forall p,
  Py.no_space p = true -> String.prefix p (Py.rstrip s) = String.prefix p s.
Proof.
  induction s as [|c r IH]; intros p Hp; [reflexivity|].
  destruct p as [|a p]; [now destruct (Py.rstrip (String c r))|].
  unfold Py.no_space in Hp. cbn [Py.all_chars] in Hp.
  apply andb_prop in Hp as [Ha Hp]. apply negb_true_iff in Ha.
  cbn [Py.rstrip]. cbv zeta.
  destruct (Py.isspace c && negb (Py.truthy (Py.rstrip r))) eqn:Hcond.
  - apply andb_prop in Hcond as [Hc _].
    now rewrite (prefix_head_space a p c r Ha Hc).
  - simpl. destruct (ascii_dec a c); [now apply IH | reflexivity].
Qed.

Lemma contains_rstrip a p s :
  Py.no_space (String a p) = true ->
  Py.contains (String a p) (Py.rstrip s) = Py.contains (String a p) s.
Proof.
  intros Hp. pose proof Hp as Hp'. unfold Py.no_space in Hp'. cbn [Py.all_chars] in Hp'.
  apply andb_prop in Hp' as [Ha _]. apply negb_true_iff in Ha.
  induction s as [|c r IH]; [reflexivity|].
  pose proof (prefix_rstrip (String c r) (String a p) Hp) as Hpre.
  cbn [Py.rstrip] in *. cbv zeta in *.
  destruct (Py.isspace c && negb (Py.truthy (Py.rstrip r))) eqn:Hcond.
  - apply andb_prop in Hcond as [Hc Hr]. apply negb_true_iff in Hr.
    destruct (Py.rstrip r); [|discriminate].
    cbn [Py.contains]. rewrite <- IH.
    now rewrite (prefix_head_space a p c r Ha Hc).
  - cbn [Py.contains]. now rewrite Hpre, IH.
Qed.

(** Stripping a template neither adds nor removes a placeholder. *)
Lemma contains_strip a p s :
  Py.no_space (String a p) = true ->
  Py.contains (String a p) (Py.strip s) = Py.contains (String a p) s.
Proof.
  intros Hp. unfold Py.strip. rewrite contains_rstrip by exact Hp.
  apply contains_lstrip. unfold Py.no_space in Hp. cbn [Py.all_chars] in Hp.
  apply andb_prop in Hp as [Ha _]. now apply negb_true_iff in Ha.
Qed.

Lemma warn_Entered w q v rest ws :
  warn w q = Entered v rest ws -> exists ws', q = Entered v rest ws'.
Proof.
  destruct q; simpl; intros H; inversion H; subst; eauto.
Qed.

Lemma ask_isbn_url_Entered script v rest ws :
  ask_isbn_url script = Entered v rest ws -> isbn_template_refused v = false.
Proof.
  revert ws. induction script as [|[u ok] script IH]; intros ws; simpl; [discriminate|].
  destruct ok; simpl; [|discriminate].
  destruct (Py.contains "{title}" u || Py.contains "{author}" u) eqn:H1.
  { intros H. apply warn_Entered in H as [ws' H]. eauto. }
  destruct (Py.contains "{isbn}" u) eqn:H2; simpl.
  - intros H. inversion H; subst. unfold isbn_template_refused. now rewrite H1, H2.
  - intros H. apply warn_Entered in H as [ws' H]. eauto.
Qed.

Lemma ask_title_author_url_Entered script v rest ws :
  ask_title_author_url script = Entered v rest ws -> title_author_template_refused v = false.
Proof.
  revert ws. induction script as [|[u ok] script IH]; intros ws; simpl; [discriminate|].
  destruct ok; simpl; [|discriminate].
  destruct (Py.contains "{isbn}" u).
  { intros H. apply warn_Entered in H as [ws' H]. eauto. }
  destruct (Py.contains "{title}" u) eqn:H1; destruct (Py.contains "{author}" u) eqn:H2; simpl;
    intros H; try (apply warn_Entered in H as [ws' H]; eauto).
  inversion H; subst. unfold title_author_template_refused. now rewrite H1, H2.
Qed.

Lemma isbn_template_refused_strip u :
  isbn_template_refused (Py.strip u) = isbn_template_refused u.
Proof.
  unfold isbn_template_refused. now rewrite !contains_strip.
Qed.

Lemma title_author_template_refused_strip u :
  title_author_template_refused (Py.strip u) = title_author_template_refused u.
Proof.
  unfold title_author_template_refused. now rewrite !contains_strip.
Qed.

Lemma add_library_stores_valid libs script :
  (libraries_after (add_library libs script) = libs
   /\ written (add_library libs script) = None)
  \/ exists e,
      libraries_after (add_library libs script) = libs ++ [e]
      /\ written (add_library libs script) = Some (libs ++ [e])
      /\ follows_rules e = true.
Proof.
  unfold add_library.
  destruct script as [|[library_name ok] rest]; [now left|].
  destruct (negb ok || negb (Py.truthy (Py.strip library_name))); [now left|].
  destruct (ask_isbn_url rest) as [u rest1 ws1| |] eqn:H1; try now left.
  destruct (ask_title_author_url rest1) as [v rest2 ws2| |] eqn:H2; try now left.
  right. eexists. repeat split.
  unfold follows_rules. cbn [isbn_url title_author_url].
  rewrite isbn_template_refused_strip, title_author_template_refused_strip.
  apply ask_isbn_url_Entered in H1. apply ask_title_author_url_Entered in H2.
  now rewrite H1, H2.
Qed.

Lemma edit_library_stores_valid libs row script :
  (libraries_after (edit_library libs row script) = libs
   /\ written (edit_library libs row script) = None)
  \/ exists k e,
      row = Some k
      /\ libraries_after (edit_library libs row script) = set_nth k e libs
      /\ written (edit_library libs row script) = Some (set_nth k e libs)
      /\ follows_rules e = true.
Proof.
  unfold edit_library.
  destruct row as [k|]; [|now left].
  destruct (nth_error libs k) as [original|]; [|now left]. cbv zeta.
  destruct script as [|[library_name ok1] rest]; [now left|].
  destruct (negb ok1 || negb (Py.truthy (Py.strip library_name))); [now left|].
  destruct rest as [|[u ok2] rest]; [now left|].
  destruct (negb ok2); [now left|].
  destruct (Py.contains "{title}" u || Py.contains "{author}" u) eqn:H1; [now left|].
  destruct (Py.contains "{isbn}" u) eqn:H2; [|now left]. cbn [negb].
  destruct (validators_url u); [|now left]. cbn [negb].
  destruct rest as [|[v ok3] rest]; [now left|].
  destruct (negb ok3); [now left|].
  destruct (Py.contains "{isbn}" v); [now left|].
  destruct (Py.contains "{title}" v) eqn:H3; [|now left].
  destruct (Py.contains "{author}" v) eqn:H4; [|now left]. cbn [negb orb].
  destruct (validators_url v); [|now left]. cbn [negb].
  match goal with |- context [if ?c then _ else _] => destruct c end; [|now left].
  right. exists k. eexists. repeat split.
  unfold follows_rules, isbn_template_refused, title_author_template_refused.
  cbn [isbn_url title_author_url]. now rewrite H1, H2, H3, H4.
Qed.

Lemma edit_library_refuses libs row name u v rest :
  isbn_template_refused u = true \/ title_author_template_refused v = true ->
  libraries_after (edit_library libs row ((name, true) :: (u, true) :: (v, true) :: rest)) = libs
  /\ written (edit_library libs row ((name, true) :: (u, true) :: (v, true) :: rest)) = None.
Proof.
  unfold edit_library, isbn_template_refused, title_author_template_refused. intros H.
  destruct row as [k|]; [|now split].
  destruct (nth_error libs k) as [original|]; [|now split]. cbv zeta.
  destruct (negb true || negb (Py.truthy (Py.strip name))); [now split|]. cbn [negb].
  destruct (Py.contains "{title}" u || Py.contains "{author}" u) eqn:H1; [now split|].
  destruct (Py.contains "{isbn}" u) eqn:H2; [|now split]. cbn [negb].
  destruct (validators_url u); [|now split]. cbn [negb].
  destruct (Py.contains "{isbn}" v); [now split|].
  destruct (Py.contains "{title}" v) eqn:H3; [|now split].
  destruct (Py.contains "{author}" v) eqn:H4; [|now split].
  exfalso. destruct H as [H | H]; simpl in H; discriminate.
Qed.

(** C8. Adding or editing an endpoint either leaves the library list and
    the file untouched, or stores one endpoint, in the list and in the
    file alike, whose ISBN template contains [{isbn}] and neither
    [{title}] nor [{author}] and whose title and author template contains
    both [{title}] and [{author}]. An answer that these rules refuse is
    answered by a warning: the add dialog then asks again, and the edit
    dialog gives up with the list and the file as they were. *)
Theorem refused_templates_are_never_stored :
  forall (libs : list library) (row : option nat) (script : list answer),
    ((libraries_after (add_library libs script) = libs
      /\ written (add_library libs script) = None)
     \/ exists e,
         libraries_after (add_library libs script) = libs ++ [e]
         /\ written (add_library libs script) = Some (libs ++ [e])
         /\ follows_rules e = true)
    /\ ((libraries_after (edit_library libs row script) = libs
         /\ written (edit_library libs row script) = None)
        \/ exists k e,
            row = Some k
            /\ libraries_after (edit_library libs row script) = set_nth k e libs
            /\ written (edit_library libs row script) = Some (set_nth k e libs)
            /\ follows_rules e = true)
    /\ (forall u rest,
          isbn_template_refused u = true ->
          exists w, ask_isbn_url ((u, true) :: rest) = warn w (ask_isbn_url rest))
    /\ (forall v rest,
          title_author_template_refused v = true ->
          exists w,
            ask_title_author_url ((v, true) :: rest) = warn w (ask_title_author_url rest))
    /\ (forall name u v rest,
          isbn_template_refused u = true \/ title_author_template_refused v = true ->
          libraries_after (edit_library libs row ((name, true) :: (u, true) :: (v, true) :: rest))
          = libs
          /\ written (edit_library libs row ((name, true) :: (u, true) :: (v, true) :: rest))
             = None).
Proof.
  intros libs row script. split; [apply add_library_stores_valid|].
  split; [apply edit_library_stores_valid|].
  split; [|split].
  - unfold isbn_template_refused. intros u rest H. cbn [ask_isbn_url negb].
    destruct (Py.contains "{title}" u || Py.contains "{author}" u); [eauto|].
    cbn [orb] in H. rewrite H. eauto.
  - unfold title_author_template_refused. intros v rest H. cbn [ask_title_author_url negb].
    destruct (Py.contains "{isbn}" v); [eauto|].
    apply negb_true_iff in H. rewrite <- negb_andb, H. cbn [negb]. eauto.
  - intros name u v rest. apply edit_library_refuses.
Qed.

End Validation.

(** ** Cancellation *)

Section Cancellation.
Import SearchWorker.
Context {E : Collaborators}.
Variable self : worker.

Lemma stop_stopped s : _is_running s = false -> stop s = s.
Proof. destruct s as [p f]; simpl; intros ->; reflexivity. Qed.

Lemma stopped_step s : _is_running s = false -> _is_running (fst (run_step self s)) = false.
Proof.
  destruct s as [p f]; simpl; intros ->. unfold run_step; simpl.
  destruct p as [|[|[i lib] todo]|i lib todo|i url todo|i url todo| | |e]; simpl; try reflexivity.
  - destruct (construct_url self lib) as [sigs [[[|c u]|]|x]]; reflexivity.
  - destruct (request_signals i url) as [sigs [x|]]; reflexivity.
Qed.

Lemma step_in_drain s sig :
  _is_running s = false -> In sig (snd (run_step self s)) -> In sig (drain self s).
Proof.
  destruct s as [p f]; simpl; intros ->. unfold drain, run_step; simpl.
  destruct p as [|[|[i lib] todo]|i lib todo|i url todo|i url todo| | |e]; simpl; try tauto.
  - intros H. apply in_or_app. now left.
  - intros H. apply in_or_app. now left.
Qed.

Lemma drain_step s sig :
  _is_running s = false -> In sig (drain self (fst (run_step self s))) -> In sig (drain self s).
Proof.
  destruct s as [p f]; simpl; intros ->. unfold drain at 2. unfold run_step; simpl.
  destruct p as [|[|[i lib] todo]|i lib todo|i url todo|i url todo| | |e]; simpl; try tauto.
  - destruct (construct_url self lib) as [sigs [[[|c u]|]|x]]; unfold drain; simpl;
      intros H; apply in_or_app; right; try exact H; try contradiction.
  - destruct (request_signals i url) as [sigs [x|]]; unfold drain; simpl;
      intros H; apply in_or_app; right; try exact H; try contradiction.
Qed.

Lemma exec_in_drain moves : forall s sig,
  _is_running s = false -> In sig (snd (exec self moves s)) -> In sig (drain self s).
Proof.
  induction moves as [|[|] moves IH]; intros s sig Hs; simpl.
  - tauto.
  - destruct (run_step self s) as [s1 out1] eqn:H1.
    destruct (exec self moves s1) as [s2 out2] eqn:H2. simpl.
    intros H. apply in_app_or in H as [H | H].
    + apply step_in_drain; [exact Hs | now rewrite H1].
    + apply drain_step; [exact Hs|]. rewrite H1. simpl.
      apply IH.
      * pose proof (stopped_step s Hs) as Hs'. now rewrite H1 in Hs'.
      * now rewrite H2.
  - rewrite (stop_stopped s Hs). now apply IH.
Qed.

Lemma pending_app i a b : pending i (a ++ b) = pending i a && pending i b.
Proof. unfold pending. now rewrite existsb_app, negb_orb. Qed.

Lemma pending_only_about i j sigs : only_about i sigs -> j <> i -> pending j sigs = true.
Proof.
  intros Ho Hne. unfold pending. apply negb_true_iff.
  destruct (existsb (about j) sigs) eqn:Hex; [|reflexivity].
  apply existsb_exists in Hex as (sig & Hin & Hab).
  destruct (Ho sig Hin) as (status & u & ->). simpl in Hab.
  apply Z.eqb_eq in Hab. congruence.
Qed.

Lemma pending_In i status u sigs : In (update_status i status u) sigs -> pending i sigs = false.
Proof.
  intros Hin. unfold pending. apply negb_false_iff, existsb_exists.
  exists (update_status i status u). split; [exact Hin | apply Z.eqb_refl].
Qed.

(** What [construct_url] emits: errors about [self.index], with one of the
    two empty-field messages; nothing when it returns a URL. *)
Lemma construct_url_signals lib sigs r :
  construct_url self lib = (sigs, r) ->
  (forall sig, In sig sigs ->
     exists k msg, index self = Some k /\ sig = update_status k "Error" msg
                   /\ In msg url_failure_messages)
  /\ (forall u, r = Ret (Some u) -> sigs = []).
Proof.
  assert (Hlog : forall msg (sigs' : list signal) (r' : pyres (option string)),
             In msg url_failure_messages ->
             (let '(sigs0, r0) := log_error (index self) msg in
              (sigs0, _ <- r0 ;; Ret (@None string))) = (sigs', r') ->
             (forall sig, In sig sigs' ->
                exists k m, index self = Some k /\ sig = update_status k "Error" m
                            /\ In m url_failure_messages)
             /\ (forall u, r' = Ret (Some u) -> sigs' = [])).
  { intros msg sigs' r' Hmsg. unfold log_error.
    destruct (index self) as [k|]; intros H; inversion H; subst; clear H; split.
    - intros sig [<- | []]. exists k, msg. repeat split. exact Hmsg.
    - intros u Hu. discriminate Hu.
    - intros sig [].
    - intros u Hu. discriminate Hu. }
  unfold construct_url.
  destruct (search_of self) as [v | t a |].
  - destruct (negb (Py.truthy (Py.strip v))).
    + apply Hlog. simpl; tauto.
    + intros H; inversion H; subst. split; [intros sig [] | reflexivity].
  - destruct (negb (Py.truthy (Py.strip t)) || negb (Py.truthy (Py.strip a))).
    + apply Hlog. simpl; tauto.
    + intros H; inversion H; subst. split; [intros sig [] | reflexivity].
  - intros H; inversion H; subst. split; [intros sig [] | reflexivity].
Qed.

Lemma request_signals_about i url : only_about i (fst (request_signals i url)).
Proof.
  unfold only_about, request_signals.
  destruct (response <- requests_get url ;; Classifier.classify url response) as [[status u]|e].
  - simpl. intros sig [<- | []]. eauto.
  - destruct e; simpl; try tauto. intros sig [<- | [<- | []]]; eauto.
Qed.

(** What the step that builds the URL of endpoint [i] emits. *)
Lemma build_step_signals i lib todo f sig :
  In sig (snd (run_step self (mkW (Build i lib todo) f))) ->
  (exists k msg, index self = Some k /\ sig = update_status k "Error" msg
                 /\ In msg url_failure_messages)
  \/ sig = update_status i "Error" "URL construction failed."
  \/ exists url, sig = update_status i "Searching..." url.
Proof.
  unfold run_step. cbn [at_ _is_running].
  destruct (construct_url self lib) as [sigs r] eqn:Hc.
  destruct (construct_url_signals lib sigs r Hc) as [Hs Hu].
  destruct r as [[[|c u]|]|x]; cbn [snd]; intros Hin;
    try (apply in_app_or in Hin as [Hin | [<- | []]]);
    try (left; now apply Hs);
    try (right; left; reflexivity);
    try (right; right; eexists; reflexivity).
Qed.

Lemma NoDup_map_of_nat (l : list nat) : NoDup l -> NoDup (map Z.of_nat l).
Proof.
  induction 1 as [|x l Hx Hl IH]; simpl; constructor; [|exact IH].
  intros Hin. apply in_map_iff in Hin as (y & Hy & Hin).
  apply Nat2Z.inj in Hy. subst y. contradiction.
Qed.

Lemma NoDup_fst_combine {A : Type} (a : list Z) : forall (b : list A),
  NoDup a -> NoDup (map fst (combine a b)).
Proof.
  induction a as [|x a IH]; intros [|y b] Hnd; simpl; try constructor.
  - inversion Hnd as [|? ? Hx Ha]; subst. intros Hin.
    apply in_map_iff in Hin as ([x' y'] & Hfst & Hin). simpl in Hfst. subst x'.
    apply in_combine_l in Hin. contradiction.
  - inversion Hnd; subst. now apply IH.
Qed.

Lemma inv_init : inv self init [].
Proof. reflexivity. Qed.

Lemma inv_stop s em : inv self s em -> inv self (stop s) em.
Proof. destruct s; exact (fun H => H). Qed.

Lemma todo_stays_pending i (todo : list (Z * library)) em new :
  NoDup (i :: map fst todo) ->
  (forall j, In j (map fst todo) -> pending j em = true) ->
  only_about i new ->
  forall j, In j (map fst todo) -> pending j (em ++ new) = true.
Proof.
  intros Hnd Hp Ho j Hj. rewrite pending_app, (Hp j Hj). simpl.
  apply (pending_only_about i); [exact Ho|].
  inversion Hnd; subst. intros ->. contradiction.
Qed.

Lemma inv_step s em :
  inv self s em -> inv self (fst (run_step self s)) (em ++ snd (run_step self s)).
Proof.
  destruct s as [p f]. unfold inv at 1. cbn [at_].
  destruct p as [|[|[i lib] todo]|i lib todo|i url todo|i url todo| | |e].
  - (* Start *)
    intros ->. unfold run_step. cbn [at_ _is_running].
    destruct f; [|exact I].
    destruct (index self) as [k|] eqn:Hk.
    + destruct (getitem (libraries self) k) as [lib|]; [|exact I].
      unfold inv; simpl. repeat split.
      * constructor; [tauto | constructor].
      * intros k' j Hk' [<- | []]. simpl. congruence.
    + unfold inv; simpl. repeat split.
      * unfold enumerate. apply NoDup_fst_combine.
        apply NoDup_map_of_nat, seq_NoDup.
      * intros k j Hk'. congruence.
  - exact (fun _ => I).
  - (* the top of an iteration *)
    intros (Hnd & Hp & Hi). unfold run_step. cbn [at_ _is_running].
    destruct f; [|exact I]. unfold inv. cbn [at_ fst snd]. rewrite app_nil_r.
    repeat split; assumption.
  - (* the URL is built *)
    intros (Hnd & Hp & Hi).
    assert (Hnew : only_about i (snd (run_step self (mkW (Build i lib todo) f)))).
    { intros sig Hin.
      apply build_step_signals in Hin as [(k & msg & Hk & -> & _) | [-> | [url ->]]]; eauto.
      rewrite (Hi k i Hk (or_introl eq_refl)). eauto. }
    assert (Hp' : forall j, In j (map fst todo) ->
                    pending j (em ++ snd (run_step self (mkW (Build i lib todo) f))) = true).
    { apply (todo_stays_pending i); try assumption. intros j Hj. apply Hp. now right. }
    assert (Hi' : index_ok self todo) by (intros k j Hk Hj; apply (Hi k j Hk); now right).
    revert Hp'. unfold run_step. cbn [at_ _is_running].
    destruct (construct_url self lib) as [sigs [[[|c u]|]|x]]; cbn [fst snd]; intros Hp';
      unfold inv; cbn [at_]; try exact I.
    + repeat split; try assumption. now inversion Hnd.
    + repeat split; try assumption.
      apply in_or_app. right. apply in_or_app. right. now left.
    + repeat split; try assumption. now inversion Hnd.
  - (* before the request *)
    intros (Hnd & Hp & Hi & Hs). unfold run_step. cbn [at_ _is_running].
    destruct f; [|exact I]. unfold inv. cbn [at_ fst snd]. rewrite app_nil_r.
    repeat split; assumption.
  - (* the request *)
    intros (Hnd & Hp & Hi & Hs).
    pose proof (todo_stays_pending i todo em _ Hnd Hp (request_signals_about i url)) as Hp'.
    revert Hp'. unfold run_step. cbn [at_ _is_running].
    destruct (request_signals i url) as [sigs [x|]]; cbn [fst snd]; intros Hp';
      unfold inv; cbn [at_]; try exact I.
    repeat split; try assumption. now inversion Hnd.
  - exact (fun _ => I).
  - exact (fun _ => I).
  - exact (fun _ => I).
Qed.

Lemma inv_exec moves : forall s em,
  inv self s em -> inv self (fst (exec self moves s)) (em ++ snd (exec self moves s)).
Proof.
  induction moves as [|[|] moves IH]; intros s em H; simpl.
  - now rewrite app_nil_r.
  - pose proof (inv_step s em H) as H1.
    destruct (run_step self s) as [s1 out1].
    pose proof (IH s1 (em ++ out1) H1) as H2.
    destruct (exec self moves s1) as [s2 out2]. simpl in *.
    now rewrite app_assoc.
  - apply IH. now apply inv_stop.
Qed.

Lemma after_in_drain m1 m2 sig :
  In sig (snd (exec self m2 (stop (fst (exec self m1 init))))) ->
  In sig (drain self (stop (fst (exec self m1 init)))).
Proof. apply exec_in_drain. reflexivity. Qed.

(** C9, as the code has it. Let [m1] be any schedule up to a cancel
    request and [m2] any schedule after it. The statuses emitted after the
    request all go to one endpoint, the one the worker was processing. If
    that endpoint was still pending, it is only announced as Searching or
    given a URL-construction Error, never Found, Not Found or a request
    Error. If it was not pending, its request was in flight and had been
    announced as Searching, and what is emitted is the result of that
    request: the step that performs the request emits the same signals
    whether or not the flag has been cleared. [cancel_search] then turns
    the rows that read Searching, and only those, to Canceled. *)
Theorem cancel_reaches_only_the_endpoint_in_progress :
  forall (m1 m2 : list move),
    (exists i, forall sig,
        In sig (snd (exec self m2 (stop (fst (exec self m1 init))))) ->
        sig = search_complete \/ about i sig = true)
    /\ (forall i status u,
          In (update_status i status u) (snd (exec self m2 (stop (fst (exec self m1 init))))) ->
          pending i (snd (exec self m1 init)) = true ->
          status = "Searching..." \/ (status = "Error" /\ In u url_failure_messages))
    /\ (forall i status u,
          In (update_status i status u) (snd (exec self m2 (stop (fst (exec self m1 init))))) ->
          pending i (snd (exec self m1 init)) = false ->
          exists url todo,
            at_ (fst (exec self m1 init)) = InFlight i url todo
            /\ In (update_status i "Searching..." url) (snd (exec self m1 init))
            /\ In (update_status i status u) (fst (request_signals i url)))
    /\ (forall s i url todo,
          at_ s = InFlight i url todo ->
          snd (run_step self (stop s)) = fst (request_signals i url)
          /\ snd (run_step self s) = fst (request_signals i url))
    /\ (forall statuses row,
          nth_error (SearchTab.cancel_search_rows statuses) row
          = option_map (fun t => if String.eqb t "Searching..." then "Canceled" else t)
              (nth_error statuses row)).
Proof.
  intros m1 m2.
  pose proof (inv_exec m1 init [] inv_init) as Hinv. rewrite app_nil_l in Hinv.
  pose proof (after_in_drain m1 m2) as Hdrain.
  set (after := snd (exec self m2 (stop (fst (exec self m1 init))))) in *.
  set (before := snd (exec self m1 init)) in *.
  destruct (fst (exec self m1 init)) as [p f].
  unfold inv in Hinv. unfold drain in Hdrain. cbn [at_ stop] in *.
  split; [|split; [|split; [|split]]].
  - (* one endpoint *)
    destruct p as [|todo|i lib todo|i url todo|i url todo| | |e];
      try (exists 0%Z; intros sig Hin; apply Hdrain in Hin;
           simpl in Hin; intuition congruence).
    + exists i. intros sig Hin. apply Hdrain in Hin.
      apply in_app_or in Hin as [Hin | [<- | []]]; [|now left].
      right. destruct Hinv as (_ & _ & Hi).
      apply build_step_signals in Hin as [(k & msg & Hk & -> & _) | [-> | [url ->]]]; simpl;
        try apply Z.eqb_refl.
      rewrite (Hi k i Hk (or_introl eq_refl)). apply Z.eqb_refl.
    + exists i. intros sig Hin. apply Hdrain in Hin.
      apply in_app_or in Hin as [Hin | [<- | []]]; [|now left].
      right. assert (Hab : only_about i (snd (run_step self (mkW (InFlight i url todo) false)))).
      { unfold run_step. cbn [at_ _is_running].
        pose proof (request_signals_about i url) as H.
        destruct (request_signals i url) as [sigs [x|]]; exact H. }
      destruct (Hab sig Hin) as (status & u & ->). simpl. apply Z.eqb_refl.
  - (* a pending endpoint *)
    intros j status u Hin Hpend. apply Hdrain in Hin.
    destruct p as [|todo|i lib todo|i url todo|i url todo| | |e];
      try (simpl in Hin; intuition congruence).
    + apply in_app_or in Hin as [Hin | [Hin | []]]; [|discriminate].
      apply build_step_signals in Hin as [(k & msg & Hk & Heq & Hmsg) | [Heq | [url Heq]]];
        inversion Heq; subst.
      * right. now split.
      * right. split; [reflexivity | now left].
      * now left.
    + apply in_app_or in Hin as [Hin | [Hin | []]]; [|discriminate].
      exfalso. destruct Hinv as (_ & _ & _ & Hs).
      assert (Hab : only_about i (snd (run_step self (mkW (InFlight i url todo) false)))).
      { unfold run_step. cbn [at_ _is_running].
        pose proof (request_signals_about i url) as H.
        destruct (request_signals i url) as [sigs [x|]]; exact H. }
      destruct (Hab _ Hin) as (status' & u' & Heq). inversion Heq; subst.
      apply pending_In in Hs. congruence.
  - (* an endpoint that is not pending *)
    intros j status u Hin Hpend. apply Hdrain in Hin.
    destruct p as [|todo|i lib todo|i url todo|i url todo| | |e];
      try (simpl in Hin; intuition congruence).
    + apply in_app_or in Hin as [Hin | [Hin | []]]; [|discriminate].
      exfalso. destruct Hinv as (_ & Hp & Hi).
      assert (j = i) as ->.
      { apply build_step_signals in Hin as [(k & msg & Hk & Heq & _) | [Heq | [url Heq]]];
          inversion Heq; subst; try reflexivity.
        symmetry. apply (Hi k i Hk). now left. }
      rewrite (Hp i (or_introl eq_refl)) in Hpend. discriminate.
    + apply in_app_or in Hin as [Hin | [Hin | []]]; [|discriminate].
      destruct Hinv as (_ & _ & _ & Hs).
      assert (Hsig : snd (run_step self (mkW (InFlight i url todo) false))
                     = fst (request_signals i url)).
      { unfold run_step. cbn [at_ _is_running].
        destruct (request_signals i url) as [sigs [x|]]; reflexivity. }
      assert (Hin' : In (update_status j status u) (fst (request_signals i url)))
        by (rewrite <- Hsig; exact Hin).
      clear Hin. rename Hin' into Hin.
      destruct (request_signals_about i url _ Hin) as (status' & u' & Heq).
      inversion Heq; subst. exists url, todo. repeat split; assumption.
  - (* the request step does not read the flag *)
    intros s i url todo Hs. destruct s as [p' f']. cbn [at_] in Hs. subst p'.
    unfold run_step, stop. cbn [at_ _is_running].
    destruct (request_signals i url) as [sigs [x|]]; split; reflexivity.
  - intros statuses row. unfold SearchTab.cancel_search_rows. apply nth_error_map.
Qed.

(** A pending endpoint that has no template gets its URL-construction
    Error after a cancel request that arrives between the check at the
    top of its iteration and the construction of its URL. *)
Example url_error_after_cancel :
  snd (exec (H := Samples.offline) Samples.no_template [Work; Work] init) = []
  /\ snd (exec (H := Samples.offline) Samples.no_template [Work]
            (stop (fst (exec (H := Samples.offline) Samples.no_template [Work; Work] init))))
     = [update_status 0%Z "Error" "URL construction failed."].
Proof. split; reflexivity. Qed.

End Cancellation.

(** C9, as the specification states it, fails, in both of its parts.
    First, the cancel request arrives while the request of the only
    endpoint is in flight: the endpoint had been announced as Searching,
    it was not resolved before the request, and the worker still emits
    Found for it. Second, the cancel request arrives after the check at the
    top of the iteration of an endpoint that has no template: the endpoint
    is pending and gets an Error. *)
Lemma resolved_after_cancel :
  ~ SearchWorker.resolved_only_before_cancel (H := Samples.redirect_env) Samples.one_library
  /\ ~ SearchWorker.pending_never_resolves_after_cancel (H := Samples.offline)
        Samples.no_template.
Proof.
  split.
  - intros H.
    destruct (H [SearchWorker.Work; SearchWorker.Work; SearchWorker.Work; SearchWorker.Work]
                [SearchWorker.Work] 0%Z "Found" "http://opac.example/record/42")
      as (status & u & Hin & Hres).
    + vm_compute. left. reflexivity.
    + reflexivity.
    + vm_compute in Hin. destruct Hin as [Heq | []].
      inversion Heq; subst. discriminate Hres.
  - intros H.
    specialize (H [SearchWorker.Work; SearchWorker.Work] [SearchWorker.Work] [] 0%Z
                  "Error" "URL construction failed." [] eq_refl eq_refl).
    discriminate H.
Qed.

(** ** The built-ins and the matcher on small inputs *)

Example splitlines_example :
  Py.splitlines
    (String "a" (String (ascii_of_nat 13) (String (ascii_of_nat 10)
       (String (ascii_of_nat 10) (String "b" (String (ascii_of_nat 10) EmptyString))))))
  = ["a"; EmptyString; "b"].
Proof. reflexivity. Qed.

Example split_example : Py.split_char "$" "$aX $b Y" = [EmptyString; "aX "; "b Y"].
Proof. reflexivity. Qed.

Example int_example :
  map Py.int [" 1_000 "; "+7"; "-12"; "007"; "1__0"; "12a"; "_1"; "1_"; "many"]
  = [Some 1000%Z; Some 7%Z; Some (-12)%Z; Some 7%Z; None; None; None; None; None].
Proof. reflexivity. Qed.

Example strip_example :
  Py.strip "  a b  " = "a b" /\ Py.words " a  b c " = ["a"; "b"; "c"].
Proof. split; reflexivity. Qed.

Example clean_filename_example :
  Utils.clean_filename "  War & Peace, vol. 2 " = "War__Peace_vol_2".
Proof. reflexivity. Qed.

Example general_patterns_example :
  map (fun s => map (fun r => Re.search r s) Classifier.general_patterns)
      ["your search returned 5 results"; "results: 100"; "100 results found";
       "1-25 of 10000"; "a100 results"]
  = [ [true; false; false; false];
      [false; false; false; false];
      [true; false; true; false];
      [false; false; false; true];
      [false; false; false; false] ].
Proof. reflexivity. Qed.

Example structural_patterns_example :
  map (Re.search Classifier.re_results_colon_i) ["Results:  12"; "RESULTS:7"; "Results: x"]
  = [true; true; false]
  /\ map (Re.search Classifier.re_n_results_found_i)
       ["12 results found"; "1 Result found"; "3 of  results found"; "results found"]
     = [true; true; true; false].
Proof. split; reflexivity. Qed.

(** An uninterrupted search of the sample endpoint: Searching, then Found
    with the final URL, then the completion signal. *)
Example uninterrupted_search :
  snd (SearchWorker.exec (H := Samples.redirect_env) Samples.one_library
         (repeat SearchWorker.Work 7) SearchWorker.init)
  = [ update_status 0%Z "Searching..." Samples.search_url;
      update_status 0%Z "Found" "http://opac.example/record/42";
      search_complete ].
Proof. reflexivity. Qed.

(** The parsers on the sample pages: the field without subfields is left
    out, and so are the leader row and the row whose marker has no value. *)
Example format_one_example :
  ScrapeTab.parse_format_one (H := Samples.offline) (ScrapeTab.mkState None EmptyString)
    Samples.format_one_page
  = (ScrapeTab.mkState
       (Some [ Marc.mkField "245" (Some ("1", "0"))
                 [ Marc.mkSubfield "a" (Marc.VStr "Moby Dick");
                   Marc.mkSubfield "c" (Marc.VStr "Herman Melville") ] ])
       EmptyString, None)
  /\ List.length (ScrapeTab.format_one_candidates Samples.format_one_page) = 2.
Proof. split; reflexivity. Qed.

Example format_four_example :
  ScrapeTab.parse_format_four (H := Samples.offline) (ScrapeTab.mkState None EmptyString)
    Samples.format_four_page
  = (ScrapeTab.mkState
       (Some [ Marc.mkField "245" (Some ("1", " "))
                 [ Marc.mkSubfield "a" (Marc.VStr "Moby Dick") ] ])
       EmptyString, None)
  /\ List.length (ScrapeTab.format_four_candidates Samples.format_four_page) = 3.
Proof. split; reflexivity. Qed.

Example format_three_example :
  ScrapeTab.parse_format_three (H := Samples.offline) (ScrapeTab.mkState None EmptyString)
    ("leader 00000nam" ++ String (ascii_of_nat 10)
       ("001 12345" ++ String (ascii_of_nat 10) Samples.plain_lines))%string
  = (ScrapeTab.mkState
       (Some [ Marc.mkField "100" (Some ("1", ScrapeTab.blank_indicator))
                 [ Marc.mkSubfield "a" (Marc.VStr "Melville, Herman") ];
               Samples.title_field ])
       "Melville_HermanMoby_Dick", None).
Proof. reflexivity. Qed.

(* ================================================================= *)
(** * Further properties *)

(** ** File names *)

Section FileNames.
Import Marc ScrapeTab.

Lemma all_chars_filter p s : Py.all_chars p (Py.filter_chars p s) = true.
Proof.
  induction s as [|c r IH]; simpl; [reflexivity|].
  destruct (p c) eqn:Hp; simpl; [now rewrite Hp | exact IH].
Qed.

Lemma all_chars_lstrip p s : Py.all_chars p s = true -> Py.all_chars p (Py.lstrip s) = true.
Proof.
  induction s as [|c r IH]; simpl; [reflexivity|]. intros H.
  apply andb_prop in H as [Hc Hr].
  destruct (Py.isspace c); [now apply IH | simpl; now rewrite Hc, Hr].
Qed.

Lemma all_chars_rstrip p s : Py.all_chars p s = true -> Py.all_chars p (Py.rstrip s) = true.
Proof.
  induction s as [|c r IH]; simpl; [reflexivity|]. intros H.
  apply andb_prop in H as [Hc Hr].
  destruct (Py.isspace c && negb (Py.truthy (Py.rstrip r))); [reflexivity|].
  simpl. now rewrite Hc, IH.
Qed.

Lemma all_chars_strip p s : Py.all_chars p s = true -> Py.all_chars p (Py.strip s) = true.
Proof. intros H. unfold Py.strip. now apply all_chars_rstrip, all_chars_lstrip. Qed.

Lemma all_chars_app p a b :
  Py.all_chars p (a ++ b)%string = Py.all_chars p a && Py.all_chars p b.
Proof. induction a as [|c r IH]; simpl; [reflexivity|]. now rewrite IH, andb_assoc. Qed.

Lemma all_chars_impl (p q : ascii -> bool) s :
  (forall c, p c = true -> q c = true) -> Py.all_chars p s = true -> Py.all_chars q s = true.
Proof.
  intros Hpq. induction s as [|c r IH]; simpl; [reflexivity|]. intros H.
  apply andb_prop in H as [Hc Hr]. now rewrite (Hpq c Hc), IH.
Qed.

(** The first character of a stripped string is not whitespace, *)
Lemma lstrip_head s c r : Py.lstrip s = String c r -> Py.isspace c = false.
Proof.
  induction s as [|c' r' IH]; simpl; [discriminate|].
  destruct (Py.isspace c') eqn:Hc; [exact IH|]. intros H. inversion H; subst. exact Hc.
Qed.

Lemma rstrip_head c r : Py.isspace c = false -> Py.rstrip (String c r) = String c (Py.rstrip r).
Proof. intros H. simpl. now rewrite H. Qed.

Lemma strip_head s c r : Py.strip s = String c r -> Py.isspace c = false.
Proof.
  unfold Py.strip. destruct (Py.lstrip s) as [|c' r'] eqn:Hl; [discriminate|].
  pose proof (lstrip_head _ _ _ Hl) as Hc. rewrite (rstrip_head _ _ Hc).
  intros H. inversion H; subst. exact Hc.
Qed.

(** nor is its last character. *)
Lemma rstrip_last s : forall p c, Py.rstrip s = (p ++ Py.str1 c)%string -> Py.isspace c = false.
Proof.
  induction s as [|c' r IH]; intros p c; simpl.
  - destruct p; discriminate.
  - destruct (Py.isspace c' && negb (Py.truthy (Py.rstrip r))) eqn:Hcond.
    + destruct p; discriminate.
    + destruct p as [|a p]; simpl; intros H; inversion H; subst.
      * destruct (Py.rstrip r); [|discriminate]. simpl in Hcond.
        now rewrite andb_true_r in Hcond.
      * eapply IH; eassumption.
Qed.

Lemma strip_last s p c : Py.strip s = (p ++ Py.str1 c)%string -> Py.isspace c = false.
Proof. unfold Py.strip. apply rstrip_last. Qed.

Lemma rstrip_idem s : Py.rstrip (Py.rstrip s) = Py.rstrip s.
Proof.
  induction s as [|c r IH]; [reflexivity|]. cbn [Py.rstrip]. cbv zeta.
  destruct (Py.isspace c && negb (Py.truthy (Py.rstrip r))) eqn:Hc; [reflexivity|].
  cbn [Py.rstrip]. cbv zeta. now rewrite IH, Hc.
Qed.

Lemma strip_idem s : Py.strip (Py.strip s) = Py.strip s.
Proof.
  unfold Py.strip. destruct (Py.lstrip s) as [|c r] eqn:Hl; [reflexivity|].
  pose proof (lstrip_head _ _ _ Hl) as Hc.
  assert (Hr : Py.rstrip (String c r) = String c (Py.rstrip r)) by (simpl; now rewrite Hc).
  rewrite Hr. cbn [Py.lstrip]. rewrite Hc, <- Hr. apply rstrip_idem.
Qed.

(** Replacing the spaces is done character by character. *)
Lemma replace_space_head s c r :
  Py.replace_char " " "_" s = String c r ->
  exists c' r', s = String c' r' /\ c = (if Ascii.eqb c' " " then "_"%char else c').
Proof.
  destruct s as [|c' r']; simpl; [discriminate|].
  destruct (Ascii.eqb c' " ") eqn:Hc; simpl; intros H; injection H as <- <-;
    exists c', r'; rewrite Hc; now split.
Qed.

Lemma replace_space_last s : forall p c,
  Py.replace_char " " "_" s = (p ++ Py.str1 c)%string ->
  exists p' c', s = (p' ++ Py.str1 c')%string /\ c = (if Ascii.eqb c' " " then "_"%char else c').
Proof.
  induction s as [|a r IH]; intros p c; simpl.
  - destruct p; discriminate.
  - assert (Hstep : forall x, String x (Py.replace_char " " "_" r) = (p ++ Py.str1 c)%string ->
                      x = (if Ascii.eqb a " " then "_"%char else a) ->
                      exists p' c', String a r = (p' ++ Py.str1 c')%string
                        /\ c = (if Ascii.eqb c' " " then "_"%char else c')).
    { intros x H Hx. destruct p as [|b p]; simpl in H; inversion H; subst.
      - destruct r as [|b r]; [|simpl in *; destruct (Ascii.eqb b " "); discriminate].
        exists EmptyString, a. now split.
      - destruct (IH _ _ H2) as (p' & c' & -> & Hc). exists (String a p'), c'. now split. }
    destruct (Ascii.eqb a " ") eqn:Ha; simpl; intros H;
      apply (Hstep _ H); try rewrite Ha; reflexivity.
Qed.

Lemma filename_char_of_kept c :
  Py.ascii_alnum c || Py.isspace c = true ->
  Utils.filename_char (if Ascii.eqb c " " then "_"%char else c) = true.
Proof.
  unfold Utils.filename_char. destruct (Ascii.eqb c " ") eqn:Hc.
  - reflexivity.
  - intros H. destruct (Py.ascii_alnum c); [reflexivity|].
    simpl in H. rewrite H, Hc. simpl. apply orb_true_r.
Qed.

Lemma all_chars_replace_space s :
  Py.all_chars (fun c => Py.ascii_alnum c || Py.isspace c) s = true ->
  Py.all_chars Utils.filename_char (Py.replace_char " " "_" s) = true.
Proof.
  induction s as [|c r IH]; simpl; [reflexivity|]. intros H.
  apply andb_prop in H as [Hc Hr]. pose proof (filename_char_of_kept c Hc) as Hf.
  destruct (Ascii.eqb c " "); simpl; try rewrite Hf; auto.
Qed.

Lemma kept_not_space_is_alnum c :
  Py.ascii_alnum c || Py.isspace c = true -> Py.isspace c = false -> Py.ascii_alnum c = true.
Proof. intros H Hs. rewrite Hs, orb_false_r in H. exact H. Qed.

Lemma all_chars_last p s q c :
  Py.all_chars p s = true -> s = (q ++ Py.str1 c)%string -> p c = true.
Proof.
  intros H ->. rewrite all_chars_app in H. apply andb_prop in H as [_ H].
  simpl in H. now rewrite andb_true_r in H.
Qed.

Lemma clean_filename_chars filename :
  Py.all_chars Utils.filename_char (Utils.clean_filename filename) = true.
Proof.
  unfold Utils.clean_filename. apply all_chars_replace_space, all_chars_strip, all_chars_filter.
Qed.

(** X1. Whatever it is given, [clean_filename] returns a string made of
    ASCII letters and digits, underscores and whitespace other than the
    space (so no space and no punctuation), which neither begins nor ends
    with an underscore or a whitespace character. The default file name
    of the manual-entry tab is made of such characters and the dot of its
    extension. *)
Theorem clean_filename_charset :
  forall filename : string,
    Py.all_chars Utils.filename_char (Utils.clean_filename filename) = true
    /\ (forall c r, Utils.clean_filename filename = String c r -> Py.ascii_alnum c = true)
    /\ (forall p c, Utils.clean_filename filename = (p ++ Py.str1 c)%string ->
                    Py.ascii_alnum c = true)
    /\ (forall inputs : string -> string,
          Py.all_chars (fun c => Utils.filename_char c || Ascii.eqb c ".")
            (CatalogingTab.download_default_filename inputs) = true).
Proof.
  intros filename.
  split; [apply clean_filename_chars|].
  unfold Utils.clean_filename.
  set (kept := fun c => Py.ascii_alnum c || Py.isspace c).
  assert (Hk : Py.all_chars kept (Py.strip (Py.filter_chars kept filename)) = true)
    by apply all_chars_strip, all_chars_filter.
  split; [|split].
  - intros c r H. apply replace_space_head in H as (c' & r' & Hs & ->).
    pose proof (strip_head _ _ _ Hs) as Hsp.
    rewrite Hs in Hk. simpl in Hk. apply andb_prop in Hk as [Hc _].
    destruct (Ascii.eqb_spec c' " ") as [->|_]; [discriminate Hsp|].
    now apply kept_not_space_is_alnum.
  - intros p c H. apply replace_space_last in H as (p' & c' & Hs & ->).
    pose proof (strip_last _ _ _ Hs) as Hsp.
    pose proof (all_chars_last _ _ _ _ Hk Hs) as Hc.
    destruct (Ascii.eqb_spec c' " ") as [->|_]; [discriminate Hsp|].
    now apply kept_not_space_is_alnum.
  - intros inputs.
    assert (Hclean : forall s,
               Py.all_chars (fun c => Utils.filename_char c || Ascii.eqb c ".")
                 (Utils.clean_filename s) = true).
    { intros s. apply (all_chars_impl Utils.filename_char); [|apply clean_filename_chars].
      intros c ->. reflexivity. }
    unfold CatalogingTab.download_default_filename, Utils.download_default_filename.
    rewrite !all_chars_app, !Hclean. reflexivity.
Qed.

Lemma filter_chars_app p a b :
  Py.filter_chars p (a ++ b)%string = (Py.filter_chars p a ++ Py.filter_chars p b)%string.
Proof.
  induction a as [|c r IH]; simpl; [reflexivity|].
  destruct (p c); simpl; now rewrite IH.
Qed.

(** The underscore between two parts does not survive the cleaning. *)
Lemma clean_filename_separator a t :
  Utils.clean_filename (a ++ "_" ++ t)%string = Utils.clean_filename (a ++ t)%string.
Proof.
  unfold Utils.clean_filename. rewrite !filter_chars_app. reflexivity.
Qed.

(** X2. Whatever title and author [update_filename] reads from the
    record, the file name it sets is the cleaned concatenation of the
    author (or "UnknownAuthor") and the title (or "Untitled") with
    nothing between them: the underscore it puts between the two never
    reaches the file name. *)
Theorem update_filename_runs_author_and_title_together :
  forall (rec : Record_) (old title author : string),
    scan_fields (get_fields ["245"; "100"] rec) (EmptyString, EmptyString) = Ret (title, author) ->
    update_filename (mkState (Some rec) old)
    = (mkState (Some rec)
         (Utils.clean_filename
            ((if Py.truthy author then author else "UnknownAuthor")
             ++ (if Py.truthy title then title else "Untitled"))%string), None).
Proof.
  intros rec old title author H. unfold update_filename. cbn [marc_record].
  rewrite H. now rewrite clean_filename_separator.
Qed.





End FileNames.

(** The sample record has author and title: the file name runs them
    together. *)
Lemma update_filename_together_witness :
  ScrapeTab.scan_fields (Marc.get_fields ["245"; "100"] Samples.moby_dick)
    (EmptyString, EmptyString) = Ret ("Moby Dick", "Melville, Herman")
  /\ ScrapeTab.update_filename (ScrapeTab.mkState (Some Samples.moby_dick) EmptyString)
     = (ScrapeTab.mkState (Some Samples.moby_dick)
          (Utils.clean_filename ("Melville, Herman" ++ "Moby Dick")%string), None).
Proof.
  split; [reflexivity|].
  exact (update_filename_runs_author_and_title_together Samples.moby_dick EmptyString
           "Moby Dick" "Melville, Herman" eq_refl).
Defined.


(** ** The shape of the fields that the parsers build *)

Section FieldShapes.
Import Marc ScrapeTab.
Context {E : Collaborators}.

(** No part of a split contains the separator. *)
Lemma split_char_parts sep s :
  Forall (fun part => Py.all_chars (fun c => negb (Ascii.eqb c sep)) part = true)
         (Py.split_char sep s).
Proof.
  induction s as [|c r IH]; simpl.
  - constructor; [reflexivity | constructor].
  - destruct (Ascii.eqb c sep) eqn:Hc.
    + constructor; [reflexivity | exact IH].
    + destruct (Py.split_char sep r) as [|w ws].
      * constructor; [simpl; now rewrite Hc | constructor].
      * inversion IH; subst. constructor; [simpl; now rewrite Hc | assumption].
Qed.

Lemma format_three_indicator_one_char line n :
  exists c, format_three_indicator line n = Py.str1 c.
Proof.
  unfold format_three_indicator, blank_indicator.
  destruct (Py.index line n) as [c|]; [|exists "\"%char; reflexivity].
  destruct (Ascii.eqb c " "); [exists "\"%char; reflexivity|].
  destruct (String.eqb (Py.str1 c) "#"); [exists "\"%char; reflexivity | now exists c].
Qed.

Lemma format_three_subfields_shape subfield_data :
  Forall (fun sf => exists c v,
            code sf = Py.str1 c /\ c <> "$"%char /\ value sf = VStr v
            /\ dollar_free v = true /\ Py.strip v = v)
         (format_three_subfields subfield_data).
Proof.
  unfold format_three_subfields. destruct (Py.truthy subfield_data); [|constructor].
  pose proof (split_char_parts "$" subfield_data) as H.
  induction H as [|part parts Hp _ IH]; simpl; [constructor|].
  destruct part as [|c r]; simpl; [exact IH|].
  constructor; [|exact IH].
  simpl in Hp. apply andb_prop in Hp as [Hc Hr].
  exists c, (Py.strip r). repeat split.
  - intros ->. discriminate Hc.
  - now apply all_chars_strip.
  - apply strip_idem.
Qed.

(** Deleting a character leaves none of it. *)
Lemma replace_char_removes old s :
  Py.all_chars (fun c => negb (Ascii.eqb c old)) (Py.replace_char old EmptyString s) = true.
Proof.
  induction s as [|c r IH]; simpl; [reflexivity|].
  destruct (Ascii.eqb c old) eqn:Hc; simpl; [exact IH | now rewrite Hc].
Qed.

Lemma format_one_subfields_shape codes : forall sfs,
  format_one_subfields codes = Ret sfs ->
  Forall (fun sf => pipe_free (code sf) = true) sfs.
Proof.
  induction codes as [|st rest IH]; intros sfs; simpl.
  - intros H. inversion H. constructor.
  - destruct (sibling_strip st) as [v|x]; [|discriminate]. cbn [bind].
    destruct (format_one_subfields rest) as [more|x]; [|discriminate]. cbn [bind].
    intros H; inversion H; subst. constructor; [apply replace_char_removes | now apply IH].
Qed.

(** X4. In the record that the format-one parser builds, the fields
    without indicators are exactly those tagged 001, 003, 005 or 008, and
    no subfield code contains the [|] of the code markers. (Here and in
    the next three properties the fields are those that the parser passes
    to the record model.) *)
Theorem format_one_field_shape :
  forall (self : state) (soup : Bs4.node),
    Forall (fun f =>
              (indicators f = None <-> In (tag f) ["001"; "003"; "005"; "008"])
              /\ Forall (fun sf => pipe_free (code sf) = true) (subfields f))
           (record_of (parse_format_one self soup)).
Proof.
  intros self soup. unfold record_of, parse_format_one.
  assert (H : Forall (fun f =>
              (indicators f = None <-> In (tag f) ["001"; "003"; "005"; "008"])
              /\ Forall (fun sf => pipe_free (code sf) = true) (subfields f))
             (fst (for_each format_one_field (format_one_candidates soup) []))).
  { apply for_each_Forall. intros e f H. unfold format_one_field in H.
    destruct (Bs4.find (Bs4.has_class "span" "tag") (fst e)) as [ts|]; [|discriminate].
    cbv zeta in H.
    destruct (format_one_subfields _) as [[|sf sfs]|] eqn:Hs; try discriminate.
    apply try_add_field_Add in H. subst f. cbn [tag indicators subfields].
    split; [|eapply format_one_subfields_shape; eassumption].
    destruct (existsb _ _) eqn:Hex.
    - split; [intros _|reflexivity].
      apply existsb_exists in Hex as (t & Hin & Heq). apply String.eqb_eq in Heq.
      now rewrite Heq.
    - split; [discriminate|]. intros Hin. exfalso.
      assert (Hex' : existsb (String.eqb (Py.strip (Bs4.get_text (fst ts))))
                       ["001"; "003"; "005"; "008"] = true).
      { apply existsb_exists. eexists. split; [exact Hin | apply String.eqb_refl]. }
      congruence. }
  destruct (for_each _ _ _); exact H.
Qed.

(** X5. Every field of the record that the line parser builds has a tag
    of at most three characters and two indicators of exactly one
    character each; every subfield has a code of one character, which is
    not [$], and a string value that contains no [$] and has no
    whitespace at either end. *)
Theorem format_three_field_shape :
  forall (self : state) (marc_data : string),
    Forall (fun f =>
              String.length (tag f) <= 3
              /\ (exists i1 i2, indicators f = Some (Py.str1 i1, Py.str1 i2))
              /\ Forall (fun sf => exists c v,
                           code sf = Py.str1 c /\ c <> "$"%char
                           /\ value sf = VStr v /\ dollar_free v = true /\ Py.strip v = v)
                        (subfields f))
           (record_of (parse_format_three self marc_data)).
Proof.
  intros self marc_data. rewrite parse_format_three_record.
  apply for_each_Forall. intros line f H. unfold format_three_line in H.
  destruct (negb (Py.truthy (Py.strip line)) || Py.startswith "leader" line); [discriminate|].
  destruct (is_discarded_tag _) as [[]|]; try discriminate.
  pose proof (format_three_subfields_shape (Py.strip (Py.drop 7 line))) as Hs.
  destruct (format_three_subfields _) as [|sf sfs]; [discriminate|].
  apply do_add_field_Add in H. subst f. cbn [tag indicators subfields].
  split; [|split].
  - pose proof (strip_length (Py.take 3 line)). pose proof (take_length 3 line). lia.
  - destruct (format_three_indicator_one_char line 4) as [i1 ->].
    destruct (format_three_indicator_one_char line 5) as [i2 ->]. eauto.
  - exact Hs.
Qed.

Lemma format_four_subfields_shape strong_tags : forall sfs,
  format_four_subfields strong_tags = Ret sfs ->
  Forall (fun sf => Py.truthy (code sf) = true /\ pipe_free (code sf) = true
                    /\ value_truthy (value sf) = true) sfs.
Proof.
  induction strong_tags as [|st rest IH]; intros sfs; simpl.
  - intros H. inversion H. constructor.
  - destruct (sibling_strip st) as [v|x]; [|discriminate]. cbn [bind].
    destruct (format_four_subfields rest) as [more|x]; [|discriminate]. cbn [bind].
    specialize (IH more eq_refl).
    destruct (Py.truthy _ && value_truthy v) eqn:Hc; intros H; inversion H; subst; [|exact IH].
    apply andb_prop in Hc as [Hc Hv].
    constructor; [|exact IH]. cbn [code value]. repeat split; try assumption.
    apply replace_char_removes.
Qed.

Lemma cell_indicator_truthy c : Py.truthy (cell_indicator c) = true.
Proof.
  unfold cell_indicator.
  destruct (Py.truthy (Bs4.get_text_strip (fst c))) eqn:H; [exact H | reflexivity].
Qed.

(** X6. Every field of the record that the format-four parser builds has
    a tag made of digits and two non-empty indicators; every subfield has
    a non-empty code without [|] and a non-empty value. *)
Theorem format_four_field_shape :
  forall (self : state) (soup : Bs4.node),
    Forall (fun f =>
              Py.isdigit (tag f) = true
              /\ (exists ind1 ind2, indicators f = Some (ind1, ind2)
                                    /\ Py.truthy ind1 = true /\ Py.truthy ind2 = true)
              /\ Forall (fun sf => Py.truthy (code sf) = true /\ pipe_free (code sf) = true
                                   /\ value_truthy (value sf) = true)
                        (subfields f))
           (record_of (parse_format_four self soup)).
Proof.
  intros self soup. unfold record_of, parse_format_four.
  assert (H : Forall (fun f =>
              Py.isdigit (tag f) = true
              /\ (exists ind1 ind2, indicators f = Some (ind1, ind2)
                                    /\ Py.truthy ind1 = true /\ Py.truthy ind2 = true)
              /\ Forall (fun sf => Py.truthy (code sf) = true /\ pipe_free (code sf) = true
                                   /\ value_truthy (value sf) = true)
                        (subfields f))
             (fst (for_each format_four_row (format_four_candidates soup) []))).
  { apply for_each_Forall. intros e f H. unfold format_four_row in H.
    destruct (Bs4.find (Bs4.name_is "th") (fst e)) as [th|]; [|discriminate].
    destruct (Py.isdigit _) eqn:Hd; [|discriminate]. cbn [negb] in H.
    destruct (Bs4.find_all (Bs4.name_is "td") (fst e)) as [|c0 [|c1 [|c2 cs]]]; try discriminate.
    destruct (format_four_subfields _) as [[|sf sfs]|] eqn:Hs; try discriminate.
    apply try_add_field_Add in H. subst f. cbn [tag indicators subfields].
    split; [exact Hd|]. split.
    - exists (cell_indicator c0), (cell_indicator c1). repeat split; apply cell_indicator_truthy.
    - eapply format_four_subfields_shape; eassumption. }
  destruct (for_each _ _ _); exact H.
Qed.

Lemma plain_subfields_shape current_tag strong_tags : forall sfs,
  plain_subfields current_tag strong_tags = Ret sfs ->
  Forall (fun sf => String.length (code sf) = 1
                    /\ is_discarded current_tag (code sf) = false) sfs.
Proof.
  induction strong_tags as [|st rest IH]; intros sfs; simpl.
  - intros H. inversion H. constructor.
  - destruct (Py.startswith "_" _ && (1 <? String.length _)) eqn:Hc; [|apply IH].
    destruct (sibling_strip st) as [v|x]; [|discriminate]. cbn [bind].
    destruct (plain_subfields current_tag rest) as [more|x]; [|discriminate]. cbn [bind].
    specialize (IH more eq_refl).
    destruct (is_discarded current_tag _) eqn:Hd; intros H; inversion H; subst; [exact IH|].
    constructor; [|exact IH]. cbn [code]. split; [|exact Hd].
    apply andb_prop in Hc as [_ Hlen]. apply Nat.ltb_lt in Hlen.
    destruct (Bs4.get_text_strip (fst st)) as [|a [|b r]]; simpl in Hlen; try lia.
    reflexivity.
Qed.

(** X7. In the record that the plain-view parser builds, every subfield
    code is one character long, and no field tagged 100, 600, 650, 700 or
    830 has a subfield with the code 9. *)
Theorem plain_view_drops_subfield_9 :
  forall (self : state) (plain_text : string),
    Forall (fun f =>
              Forall (fun sf => String.length (code sf) = 1
                                /\ (In (tag f) ["100"; "600"; "650"; "700"; "830"]
                                    -> code sf <> "9"))
                     (subfields f))
           (record_of (parse_plain_marc self plain_text)).
Proof.
  intros self plain_text. rewrite parse_plain_marc_record.
  apply for_each_Forall. intros e f H. unfold plain_row in H.
  destruct (Bs4.find (Bs4.name_is "th") (fst e)) as [th|]; [|discriminate].
  destruct (Bs4.find_all (Bs4.name_is "td") (fst e)) as [|c0 [|c1 [|c2 cs]]]; try discriminate.
  destruct (plain_subfields _ _) as [[|sf sfs]|] eqn:Hs; try discriminate.
  destruct (Py.truthy _); [|discriminate].
  apply try_add_field_Add in H. subst f. cbn [tag subfields].
  apply plain_subfields_shape in Hs.
  eapply Forall_impl; [|exact Hs]. cbv beta.
  intros sf' [Hlen Hd]. split; [exact Hlen|].
  intros Hin Hc. rewrite Hc in Hd.
  simpl in Hin. destruct Hin as [Ht | [Ht | [Ht | [Ht | [Ht | []]]]]];
    rewrite <- Ht in Hd; discriminate Hd.
Qed.

End FieldShapes.

(** The sample plain view: the subfield 9 of the author row is left out. *)
Example plain_view_example :
  ScrapeTab.parse_plain_marc (H := Samples.env Samples.plain_page (Raise OtherException))
    (ScrapeTab.mkState None EmptyString) "<table>...</table>"
  = (ScrapeTab.mkState
       (Some [ Marc.mkField "100" (Some ("1", " "))
                 [ Marc.mkSubfield "a" (Marc.VStr "Melville, Herman") ] ])
       "Melville_HermanUntitled", None).
Proof. reflexivity. Qed.

(** ** Scraping a URL *)

Section Scraping.
Import Marc ScrapeTab.
Context {E : Collaborators} {L : StdLib}.

Lemma parse_format_three_marc_record (self : state) (marc_data : string) :
  marc_record (fst (parse_format_three self marc_data))
  = Some (fst (for_each format_three_line (Py.splitlines marc_data) [])).
Proof.
  unfold parse_format_three.
  destruct (for_each _ _ _) as [rec [x|]]; simpl; [reflexivity|].
  now rewrite update_filename_record.
Qed.

Lemma get_fields_none t (rec : Record_) :
  Forall (fun f => tag f <> t) rec -> get_fields [t] rec = [].
Proof.
  induction 1 as [|f rec Hf _ IH]; simpl; [reflexivity|].
  destruct (String.eqb_spec (tag f) t) as [Heq|_]; [contradiction | exact IH].
Qed.

(** A record without a control number does not pass the validation. *)
Lemma validate_without_001 (rec : Record_) :
  Forall (fun f => tag f <> "001") rec -> validate_marc_record rec = false.
Proof.
  intros H. unfold validate_marc_record. cbv zeta. cbn [existsb].
  now rewrite (get_fields_none "001" rec H).
Qed.

Lemma fst_except_RequestException r : fst (except_RequestException r) = fst r.
Proof. destruct r as [self [[]|]]; reflexivity. Qed.

(** With ordinary tags, no field that the line parser keeps has a tag
    that reads as a number from 0 to 9. *)
Lemma format_three_keeps_no_control_number (marc_data : string) :
  ordinary_tags marc_data ->
  Forall (fun f => not_control_number (tag f))
         (fst (for_each format_three_line (Py.splitlines marc_data) [])).
Proof.
  intros Hord. apply Forall_forall. intros f Hin.
  apply for_each_In in Hin as [[] | (line & Hline & Hadd)].
  apply format_three_line_shape in Hadd as (sf & sfs & -> & Hkept). cbn [tag].
  unfold not_control_number. unfold is_discarded_tag in Hkept.
  destruct (Hord line Hline) as [Hint | Hdig].
  - now rewrite Hint.
  - rewrite Hdig in Hkept. destruct (Py.int (Py.strip (Py.take 3 line))) as [n|]; [|exact I].
    now inversion Hkept.
Qed.

Lemma not_control_number_not_001 (rec : Record_) :
  Forall (fun f => not_control_number (tag f)) rec -> Forall (fun f => tag f <> "001") rec.
Proof.
  apply Forall_impl. intros f H Ht. rewrite Ht in H. discriminate H.
Qed.

(** X8. On a text with ordinary tags (every tag that reads as a number is
    written with digits only), no field of the record that the line
    parser builds has a tag that reads as a number from 0 to 9, and the
    record never passes [validate_marc_record]: the parser has dropped
    the field 001 that the validation requires. So after
    [fetch_marc_data], which hands the answer of the API to the line
    parser, either the tab is as it was or [create_marc_record] ends in
    the validation error. (A tag such as [+1] is not dropped by the
    parser; what the record model stores for it is not modelled.) *)
Theorem line_parser_records_fail_validation :
  forall self : state,
    (forall marc_data,
        ordinary_tags marc_data ->
        Forall (fun f => not_control_number (tag f))
               (record_of (parse_format_three self marc_data))
        /\ create_marc_record (fst (parse_format_three self marc_data)) = ValidationError)
    /\ (forall parsed_url,
          (forall u response, requests_get u = Ret response -> ordinary_tags (text response)) ->
          fst (fetch_marc_data self parsed_url) = self
          \/ create_marc_record (fst (fetch_marc_data self parsed_url)) = ValidationError).
Proof.
  intros self.
  assert (H3 : forall marc_data,
             ordinary_tags marc_data ->
             Forall (fun f => not_control_number (tag f))
                    (record_of (parse_format_three self marc_data))
             /\ create_marc_record (fst (parse_format_three self marc_data)) = ValidationError).
  { intros marc_data Hord.
    pose proof (format_three_keeps_no_control_number marc_data Hord) as Hno.
    split; [now rewrite parse_format_three_record|].
    unfold create_marc_record.
    rewrite parse_format_three_marc_record, validate_without_001; [reflexivity|].
    now apply not_control_number_not_001. }
  split; [exact H3|].
  intros parsed_url Hnet. unfold fetch_marc_data. cbv zeta.
  destruct (dict_get "docId" _) as [[|doc_id ?]|]; try now left.
  destruct (dict_get "vid" _) as [[|vid ?]|]; try now left.
  destruct (dict_get "recordOwner" _) as [[|record_owner ?]|]; try now left.
  rewrite fst_except_RequestException.
  destruct (requests_get _) as [response|x] eqn:Hget; [|now left].
  right. apply H3. eapply Hnet. exact Hget.
Qed.

(** X26. A record passes [validate_marc_record] exactly when it has one
    field 001, no more, and at least one field 245 of which the first has
    a subfield [a]: the later fields 245 are not looked at. *)
Theorem validate_marc_record_iff :
  forall rec : Record_,
    validate_marc_record rec = true
    <-> (exists control, get_fields ["001"] rec = [control])
        /\ (exists title_field others,
              get_fields ["245"] rec = title_field :: others
              /\ existsb (fun sf => String.eqb (code sf) "a") (subfields title_field) = true).
Proof.
  intros rec. unfold validate_marc_record. cbv zeta. cbn [existsb].
  destruct (get_fields ["001"] rec) as [|control [|control' more]];
    destruct (get_fields ["245"] rec) as [|title_field others]; cbn [orb List.length Nat.ltb
      Nat.leb]; split; try discriminate;
    try (intros [[c Hc] _]; discriminate Hc);
    try (intros [_ (t & o & Ht & _)]; discriminate Ht).
  - destruct (existsb _ (subfields title_field)) eqn:Ha; [|discriminate].
    intros _. split; [now exists control | now exists title_field, others].
  - intros [_ (t & o & Ht & Ha)]. injection Ht as <- <-. now rewrite Ha.
Qed.

Lemma soup_line_never_adds line f : soup_line line <> Add f.
Proof.
  unfold soup_line.
  destruct (Bs4.find (Bs4.name_is "strip") line) as [st|]; [|discriminate].
  destruct (Bs4.find_all (fun _ => true) (fst st)); [discriminate|].
  destruct (Bs4.find (Bs4.name_is "startswith") line) as [sw|]; [|discriminate].
  destruct (Bs4.find_all (Bs4.name_is "leader") (fst sw)); discriminate.
Qed.

Lemma for_each_never_adds {A : Type} (body : A -> outcome) (items : list A) :
  (forall x f, body x <> Add f) -> fst (for_each body items []) = [].
Proof.
  intros H. destruct (fst (for_each body items [])) as [|f rec] eqn:Hr; [reflexivity|].
  assert (Hin : In f (fst (for_each body items []))) by (rewrite Hr; now left).
  apply for_each_In in Hin as [[] | (x & _ & Hx)]. now apply H in Hx.
Qed.

Lemma parse_format_three_soup_record (self : state) (soup : Bs4.node) :
  record_of (parse_format_three_soup self soup) = [].
Proof.
  unfold record_of, parse_format_three_soup. cbv zeta.
  destruct (Bs4.find (Bs4.name_is "splitlines") soup) as [sl|]; [|reflexivity].
  pose proof (for_each_never_adds soup_line
                (map fst (Bs4.find_all (fun _ => true) (fst sl))) soup_line_never_adds) as H.
  destruct (for_each _ _ _) as [rec [x|]]; simpl in *; [now rewrite H|].
  now rewrite update_filename_record.
Qed.

(** X9. When [parse_html] detects the third dialect it calls the line
    parser with the parsed document, not with a text: the record it
    leaves is empty, whatever the page, and on a page without a
    [splitlines] element the call raises [TypeError] after the record has
    been reset. *)
Theorem parse_html_format_three_yields_no_field :
  forall (self : state) (base_url html : string),
    detect_format (html_parser html) = Some format_three ->
    record_of (parse_html self base_url html) = []
    /\ (Bs4.find (Bs4.name_is "splitlines") (html_parser html) = None ->
        parse_html self base_url html
        = (mkState (Some []) (default_filename self), Some TypeError)).
Proof.
  intros self base_url html Hd. unfold parse_html. cbv zeta. rewrite Hd. split.
  - apply parse_format_three_soup_record.
  - intros Hs. unfold parse_format_three_soup. cbv zeta. now rewrite Hs.
Qed.

Lemma record_of_except r : record_of (except_RequestException r) = record_of r.
Proof. destruct r as [self [[]|]]; reflexivity. Qed.

Lemma parse_format_one_has_subfield self soup :
  Forall has_subfield (record_of (parse_format_one self soup)).
Proof.
  unfold record_of, parse_format_one.
  pose proof (for_each_Forall format_one_field has_subfield format_one_field_subfields
                (format_one_candidates soup)) as H.
  destruct (for_each _ _ _); exact H.
Qed.

Lemma parse_format_four_has_subfield self soup :
  Forall has_subfield (record_of (parse_format_four self soup)).
Proof.
  unfold record_of, parse_format_four.
  pose proof (for_each_Forall format_four_row has_subfield format_four_row_subfields
                (format_four_candidates soup)) as H.
  destruct (for_each _ _ _); exact H.
Qed.

Lemma parse_format_three_has_subfield self marc_data :
  Forall has_subfield (record_of (parse_format_three self marc_data)).
Proof. rewrite parse_format_three_record. apply for_each_Forall, format_three_line_subfields. Qed.

Lemma parse_plain_marc_has_subfield self plain_text :
  Forall has_subfield (record_of (parse_plain_marc self plain_text)).
Proof. rewrite parse_plain_marc_record. apply for_each_Forall, plain_row_subfields. Qed.

Lemma parse_format_two_has_subfield self base_url soup :
  Forall has_subfield (record_of (self, @None exn)) ->
  Forall has_subfield (record_of (parse_format_two self base_url soup)).
Proof.
  intros Hself. unfold parse_format_two.
  destruct (Bs4.find _ soup) as [link|]; [|exact Hself].
  destruct (Bs4.get "href" (fst link)) as [href|]; [|exact Hself].
  cbv zeta. rewrite record_of_except.
  destruct (requests_get _) as [r|x]; [apply parse_plain_marc_has_subfield | exact Hself].
Qed.

Lemma parse_html_has_subfield self base_url html :
  Forall has_subfield (record_of (self, @None exn)) ->
  Forall has_subfield (record_of (parse_html self base_url html)).
Proof.
  intros Hself. unfold parse_html. cbv zeta.
  destruct (detect_format _) as [[| | |]|].
  - apply parse_format_one_has_subfield.
  - now apply parse_format_two_has_subfield.
  - rewrite parse_format_three_soup_record. constructor.
  - apply parse_format_four_has_subfield.
  - exact Hself.
Qed.

Lemma fetch_marc_data_has_subfield self parsed_url :
  Forall has_subfield (record_of (self, @None exn)) ->
  Forall has_subfield (record_of (fetch_marc_data self parsed_url)).
Proof.
  intros Hself. unfold fetch_marc_data. cbv zeta.
  destruct (dict_get "docId" _) as [[|doc_id ?]|]; try exact Hself.
  destruct (dict_get "vid" _) as [[|vid ?]|]; try exact Hself.
  destruct (dict_get "recordOwner" _) as [[|record_owner ?]|]; try exact Hself.
  rewrite record_of_except.
  destruct (requests_get _) as [response|x];
    [apply parse_format_three_has_subfield | exact Hself].
Qed.

(** X10. If every field of the record of the tab carries a subfield
    before [scrape_url] is called, the same holds after it, whatever the
    URL, the answers of the network and the dialect detected. *)
Theorem scrape_url_keeps_fields_with_subfields :
  forall (self : state) (url_input : string),
    Forall has_subfield (record_of (self, @None exn)) ->
    Forall has_subfield (record_of (scrape_url self url_input)).
Proof.
  intros self url_input Hself. unfold scrape_url. cbv zeta.
  destruct (negb (Py.truthy (Py.strip url_input))); [exact Hself|].
  rewrite record_of_except.
  destruct (Py.contains "primo.exlibrisgroup.com" _); [now apply fetch_marc_data_has_subfield|].
  destruct (Py.contains "discovery/sourceRecord" _); [now apply fetch_marc_data_has_subfield|].
  destruct (requests_get _) as [response|x]; [now apply parse_html_has_subfield | exact Hself].
Qed.



End Scraping.

(** The two sample lines have the tags 100 and 245: the record they give
    fails the validation. *)
Lemma line_parser_validation_witness :
  ScrapeTab.ordinary_tags Samples.plain_lines
  /\ ScrapeTab.create_marc_record
       (fst (ScrapeTab.parse_format_three (H := Samples.offline)
               (ScrapeTab.mkState None EmptyString) Samples.plain_lines))
     = ScrapeTab.ValidationError.
Proof.
  assert (H : ScrapeTab.ordinary_tags Samples.plain_lines).
  { intros line Hin. vm_compute in Hin.
    destruct Hin as [<- | [<- | []]]; right; reflexivity. }
  split; [exact H|].
  exact (proj2 (proj1 (line_parser_records_fail_validation (E := Samples.offline)
                         (L := Samples.stdlib) (ScrapeTab.mkState None EmptyString))
                  Samples.plain_lines H)).
Defined.

(** The sample page is detected as the third dialect; it has a field
    line, and the record is left empty. *)
Lemma parse_html_format_three_witness :
  ScrapeTab.detect_format
    (html_parser (Collaborators := Samples.format_three_env)
       (text Samples.format_three_response))
  = Some ScrapeTab.format_three
  /\ ScrapeTab.record_of
       (ScrapeTab.parse_html (H := Samples.format_three_env) (H0 := Samples.stdlib)
          (ScrapeTab.mkState None EmptyString) "http://opac.example"
          (text Samples.format_three_response)) = []
  /\ (Bs4.find (Bs4.name_is "splitlines")
        (html_parser (Collaborators := Samples.format_three_env)
           (text Samples.format_three_response)) = None ->
      ScrapeTab.parse_html (H := Samples.format_three_env) (H0 := Samples.stdlib)
        (ScrapeTab.mkState None EmptyString) "http://opac.example"
        (text Samples.format_three_response)
      = (ScrapeTab.mkState (Some []) EmptyString, Some TypeError)).
Proof.
  split; [reflexivity|].
  apply (parse_html_format_three_yields_no_field (E := Samples.format_three_env)
           (L := Samples.stdlib)).
  reflexivity.
Defined.

(** A tab with no record yet scrapes the sample page of the first
    dialect: the record it gets has one field, with its subfields. *)
Lemma scrape_url_witness :
  Forall ScrapeTab.has_subfield
    (ScrapeTab.record_of (ScrapeTab.mkState None EmptyString, @None exn))
  /\ List.length
       (ScrapeTab.record_of
          (ScrapeTab.scrape_url (H := Samples.format_one_env) (H0 := Samples.stdlib)
             (ScrapeTab.mkState None EmptyString) " http://opac.example/record/42 ")) = 1
  /\ Forall ScrapeTab.has_subfield
       (ScrapeTab.record_of
          (ScrapeTab.scrape_url (H := Samples.format_one_env) (H0 := Samples.stdlib)
             (ScrapeTab.mkState None EmptyString) " http://opac.example/record/42 ")).
Proof.
  assert (H : Forall ScrapeTab.has_subfield
                (ScrapeTab.record_of (ScrapeTab.mkState None EmptyString, @None exn)))
    by constructor.
  split; [exact H|]. split; [reflexivity|].
  exact (scrape_url_keeps_fields_with_subfields (E := Samples.format_one_env)
           (L := Samples.stdlib) (ScrapeTab.mkState None EmptyString)
           " http://opac.example/record/42 " H).
Defined.


(** ** The record of the manual-entry tab *)

Section ManualEntry.
Import Marc.

Lemma get_fields_add_field_if tags cond f record :
  get_fields tags (Utils.add_field_if cond f record)
  = get_fields tags record
    ++ (if cond && existsb (String.eqb (tag f)) tags then [f] else []).
Proof.
  unfold Utils.add_field_if, add_field, get_fields. destruct cond; simpl.
  - rewrite filter_app. simpl. now destruct (existsb _ tags).
  - now rewrite app_nil_r.
Qed.

Lemma length_add_field_if cond f record :
  List.length (Utils.add_field_if cond f record) = List.length record + Nat.b2n cond.
Proof.
  unfold Utils.add_field_if, add_field. destruct cond; simpl; [|lia].
  rewrite length_app. simpl. lia.
Qed.

(** X12. The fields 264 of the record that [create_marc_record] builds:
    a publication field with the three subfields a, b and c as soon as
    one of publisher, place and year is given, the parts that were not
    given being empty subfields, followed by a copyright field when the
    year is given. A year alone thus yields two fields 264, the first
    with an empty place and an empty publisher. *)
Theorem publication_fields_of_the_created_record :
  forall data : Utils.data,
    get_fields ["264"] (Utils.create_marc_record data)
    = (if Py.truthy (Utils.publisher data) || Py.truthy (Utils.publisher_location data)
          || Py.truthy (Utils.copyright_year data)
       then [Utils.publication_field (Utils.publisher_location data) (Utils.publisher data)
               (Utils.copyright_year data)]
       else [])
      ++ (if Py.truthy (Utils.copyright_year data)
          then [Utils.copyright_field (Utils.copyright_year data)]
          else []).
Proof.
  intros data. unfold_create_marc_record. rewrite !get_fields_add_field_if.
  cbn [Utils.field_a Utils.publication_field Utils.copyright_field
       Utils.physical_description_field tag existsb String.eqb Ascii.eqb Bool.eqb orb].
  rewrite !andb_false_r, !andb_true_r. cbn [get_fields filter app]. rewrite !app_nil_r.
  reflexivity.
Qed.

(** X13. The record that [create_marc_record] builds has one field 300
    when the pages or the height are given and none otherwise; the field
    always has both subfields, so that a missing number of pages gives
    the subfield a " p." and a missing height the subfield c " cm.". *)
Theorem physical_description_of_the_created_record :
  forall data : Utils.data,
    get_fields ["300"] (Utils.create_marc_record data)
    = (if Py.truthy (Utils.pages data) || Py.truthy (Utils.book_height data)
       then [mkField "300" (Some (" ", " "))
               [ mkSubfield "a" (VStr (Utils.pages data ++ " p."));
                 mkSubfield "c" (VStr (Utils.book_height data ++ " cm.")) ]]
       else []).
Proof.
  intros data. unfold_create_marc_record. rewrite !get_fields_add_field_if.
  cbn [Utils.field_a Utils.publication_field Utils.copyright_field
       Utils.physical_description_field tag existsb String.eqb Ascii.eqb Bool.eqb orb].
  rewrite !andb_false_r, !andb_true_r. cbn [get_fields filter app]. rewrite !app_nil_r.
  reflexivity.
Qed.

(** One field per condition that holds. *)
Lemma length_create_marc_record data :
  List.length (Utils.create_marc_record data)
  = Nat.b2n (Py.truthy (Utils.title data)) + Nat.b2n (Py.truthy (Utils.author data))
    + Nat.b2n (Py.truthy (Utils.second_author data))
    + Nat.b2n (Py.truthy (Utils.third_author data))
    + Nat.b2n (Py.truthy (Utils.editor data)) + Nat.b2n (Py.truthy (Utils.second_editor data))
    + Nat.b2n (Py.truthy (Utils.lccn data))
    + Nat.b2n (Py.truthy (Utils.isbn data)) + Nat.b2n (Py.truthy (Utils.second_isbn data))
    + Nat.b2n (Py.truthy (Utils.loc_call_number data))
    + Nat.b2n (Py.truthy (Utils.publisher data) || Py.truthy (Utils.publisher_location data)
               || Py.truthy (Utils.copyright_year data))
    + Nat.b2n (Py.truthy (Utils.copyright_year data))
    + Nat.b2n (Py.truthy (Utils.edition data))
    + Nat.b2n (Py.truthy (Utils.pages data) || Py.truthy (Utils.book_height data))
    + Nat.b2n (Utils.references data) + Nat.b2n (Utils.index data)
    + Nat.b2n (Py.truthy (Utils.summary data))
    + Nat.b2n (Py.truthy (Utils.loc_subject_1 data))
    + Nat.b2n (Py.truthy (Utils.loc_subject_2 data))
    + Nat.b2n (Py.truthy (Utils.loc_subject_3 data)).
Proof.
  unfold_create_marc_record. rewrite !length_add_field_if. cbn [List.length]. lia.
Qed.

Lemma truthy_false s : Py.truthy s = false <-> s = EmptyString.
Proof. destruct s; simpl; split; congruence. Qed.

Lemma b2n_zero b : Nat.b2n b = 0 <-> b = false.
Proof. destruct b; simpl; split; congruence. Qed.

(** X14. The record that the manual-entry tab creates is empty exactly
    when both radio buttons are off and each of the twenty line edits
    that can give a field is empty or blank. The subtitle and the page
    range of the references give no field by themselves: they are used
    only with a title and with the references button. *)
Theorem blank_form_gives_empty_record :
  forall (inputs : string -> string) (radio_buttons : string -> bool),
    CatalogingTab.create_marc_record inputs radio_buttons = []
    <-> (radio_buttons "references_yes_radio" = false
         /\ radio_buttons "index_yes_radio" = false
         /\ Forall (fun key => Py.strip (inputs key) = EmptyString) CatalogingTab.field_inputs).
Proof.
  intros inputs radio_buttons. unfold CatalogingTab.create_marc_record. cbv zeta.
  match goal with
  | |- Utils.create_marc_record ?d = [] <-> _ =>
      pose proof (length_create_marc_record d) as Hlen
  end.
  cbn [Utils.title Utils.author Utils.second_author Utils.third_author Utils.editor
       Utils.second_editor Utils.lccn Utils.isbn Utils.second_isbn Utils.loc_call_number
       Utils.publisher Utils.publisher_location Utils.copyright_year Utils.edition Utils.pages
       Utils.book_height Utils.references Utils.index Utils.summary Utils.loc_subject_1
       Utils.loc_subject_2 Utils.loc_subject_3] in Hlen.
  unfold CatalogingTab.field_inputs. split.
  - intros H. apply length_zero_iff_nil in H. rewrite Hlen in H. clear Hlen.
    repeat match type of H with
           | _ + _ = 0 => apply Nat.eq_add_0 in H; destruct H as [H ?]
           end.
    repeat match goal with
           | H : Nat.b2n _ = 0 |- _ => apply b2n_zero in H
           end.
    repeat match goal with
           | H : _ || _ = false |- _ => apply orb_false_elim in H; destruct H
           end.
    repeat match goal with
           | H : Py.truthy _ = false |- _ => apply truthy_false in H
           end.
    repeat split; try assumption. repeat constructor; assumption.
  - intros (Hr & Hi & Hf). apply length_zero_iff_nil. rewrite Hlen. clear Hlen.
    repeat match type of Hf with
           | Forall _ (_ :: _) =>
               let Hx := fresh "Hx" in
               apply Forall_cons_iff in Hf; destruct Hf as [Hx Hf]; rewrite Hx
           end.
    rewrite Hr, Hi. reflexivity.
Qed.

End ManualEntry.

(** With the year and the height alone, the record has two fields 264
    and a field 300 that announces pages. *)
Example create_marc_record_example :
  Utils.create_marc_record Samples.year_and_height
  = [ Marc.mkField "264" (Some (" ", "1"))
        [ Marc.mkSubfield "a" (Marc.VStr EmptyString);
          Marc.mkSubfield "b" (Marc.VStr EmptyString);
          Marc.mkSubfield "c" (Marc.VStr "1851") ];
      Marc.mkField "264" (Some (" ", "4")) [ Marc.mkSubfield "c" (Marc.VStr "c1851.") ];
      Marc.mkField "300" (Some (" ", " "))
        [ Marc.mkSubfield "a" (Marc.VStr " p."); Marc.mkSubfield "c" (Marc.VStr "21 cm.") ] ].
Proof. reflexivity. Qed.

(** ** The textual fallback of the classifier *)

Section GeneralPatterns.
Import Classifier.

Lemma lower_char_not_R c : Ascii.eqb "R" (Py.lower_char c) = false.
Proof. destruct c as [[] [] [] [] [] [] [] []]; vm_compute; reflexivity. Qed.

Lemma lower_has_no_R s :
  Py.all_chars (fun c => negb (Ascii.eqb "R" c)) (Py.lower s) = true.
Proof.
  unfold Py.lower. induction s as [|c r IH]; [reflexivity|].
  cbn [Py.map_chars Py.all_chars]. now rewrite lower_char_not_R, IH.
Qed.

(** The pattern starts with a capital letter, which the text must have. *)
Lemma results_colon_needs_R s : forall prev,
  Py.all_chars (fun c => negb (Ascii.eqb "R" c)) s = true ->
  Re.search_from
    (Re.Cat Re.WordB (Re.Cat (Re.lit "Results:") (Re.Cat (Re.Star Re.space) (Re.Plus Re.digit))))
    prev s = false.
Proof.
  induction s as [|c r IH]; intros prev H.
  - cbn [Re.search_from Re.match_at Re.m Re.lit]. now destruct (Re.at_boundary prev EmptyString).
  - cbn [Py.all_chars] in H. apply andb_prop in H as [Hc Hr]. apply negb_true_iff in Hc.
    cbn [Re.search_from Re.match_at Re.m Re.lit]. rewrite Hc.
    destruct (Re.at_boundary prev (String c r)); now apply IH.
Qed.

(** X15. The second pattern of [check_general_results], "Results:" with
    a capital letter followed by a number, never matches: the patterns
    are matched against the lowered body, with no flag. The check is
    decided by the other three patterns alone. *)
Theorem results_colon_pattern_never_matches :
  forall response : Response,
    Re.search (nth 1 general_patterns Re.Eps) (Py.lower (text response)) = false
    /\ check_general_results response
       = existsb (fun pattern => Re.search pattern (Py.lower (text response)))
           (firstn 1 general_patterns ++ skipn 2 general_patterns).
Proof.
  intros response.
  assert (H : Re.search (nth 1 general_patterns Re.Eps) (Py.lower (text response)) = false)
    by (apply results_colon_needs_R, lower_has_no_R).
  split; [exact H|].
  unfold check_general_results. cbv zeta.
  change general_patterns with
    (firstn 1 general_patterns ++ nth 1 general_patterns Re.Eps :: skipn 2 general_patterns) at 1.
  rewrite !existsb_app. cbn [existsb]. fold general_patterns in H. rewrite H. reflexivity.
Qed.

End GeneralPatterns.

(** ** The workers that the tab starts *)

Section StartedWorkers.
Import SearchWorker SearchTab.
Context {E : Collaborators}.




End StartedWorkers.


(** ** Runs of the worker *)

Section WorkerRuns.
Import SearchWorker SearchTab.
Context {E : Collaborators}.
Variable self : worker.

(** A step of a worker whose flag is cleared brings it nearer to its end. *)
Lemma remaining_step s :
  _is_running s = false ->
  remaining (at_ (fst (run_step self s))) <= pred (remaining (at_ s)).
Proof.
  destruct s as [p f]; simpl; intros ->. unfold run_step; simpl.
  destruct p as [|[|[i lib] todo]|i lib todo|i url todo|i url todo| | |e]; simpl; try lia.
  - destruct (construct_url self lib) as [sigs [[[|c u]|]|x]]; simpl; lia.
  - destruct (request_signals i url) as [sigs [x|]]; simpl; lia.
Qed.

Lemma remaining_exec moves : forall s,
  _is_running s = false ->
  remaining (at_ (fst (exec self moves s))) <= remaining (at_ s) - work_steps moves.
Proof.
  induction moves as [|[|] moves IH]; intros s Hs; simpl.
  - unfold work_steps; simpl. lia.
  - pose proof (remaining_step s Hs) as H1. pose proof (stopped_step self s Hs) as Hs1.
    destruct (run_step self s) as [s1 out1]. simpl in *.
    specialize (IH s1 Hs1). destruct (exec self moves s1) as [s2 out2]. simpl in *.
    unfold work_steps in *. simpl. lia.
  - rewrite (stop_stopped s Hs). unfold work_steps in *. simpl. now apply IH.
Qed.

(** X17. Wherever [run] stands when [stop()] is called, it has ended
    after at most three more of its steps, however further calls of
    [stop()] are interleaved with them: the [wait()] of [cancel_search]
    lasts for one request at most. *)
Theorem cancelled_worker_finishes_within_three_steps :
  forall (s : wstate) (moves : list move),
    3 <= work_steps moves ->
    finished (fst (exec self moves (stop s))) = true.
Proof.
  intros s moves H.
  pose proof (remaining_exec moves (stop s) eq_refl) as Hr.
  assert (H3 : remaining (at_ (stop s)) <= 3) by (destruct s as [[] f]; simpl; lia).
  unfold finished. destruct (at_ (fst (exec self moves (stop s)))); simpl in Hr, H3;
    try lia; reflexivity.
Qed.

(** Only the last step of [run] emits the completion signal. *)
Lemma step_signals_are_statuses s sig :
  at_ s <> Epilogue -> In sig (snd (run_step self s)) -> sig <> search_complete.
Proof.
  destruct s as [p f]. cbn [at_]. intros Hp Hin.
  destruct p as [|[|[i lib] todo]|i lib todo|i url todo|i url todo| | |e];
    try solve [ unfold run_step in Hin; cbn [at_ _is_running] in Hin;
                repeat match goal with
                       | H : context [if ?b then _ else _] |- _ => destruct b
                       | H : context [match ?o with Some _ => _ | None => _ end] |- _ =>
                           destruct o
                       end; simpl in Hin; intuition (subst; try discriminate; auto) ].
  - apply build_step_signals in Hin as [(k & msg & _ & -> & _) | [-> | [url ->]]]; discriminate.
  - assert (Hab : only_about i (snd (run_step self (mkW (InFlight i url todo) f)))).
    { unfold run_step. cbn [at_ _is_running].
      pose proof (request_signals_about i url) as H.
      destruct (request_signals i url) as [sigs [x|]]; exact H. }
    destruct (Hab sig Hin) as (status & u & ->). discriminate.
Qed.

Lemma complete_last_step s em :
  complete_last s em -> complete_last (fst (run_step self s)) (em ++ snd (run_step self s)).
Proof.
  intros H.
  destruct (match at_ s with Epilogue | Returned | Crashed _ => true | _ => false end) eqn:Hp.
  - destruct s as [[] f]; try discriminate Hp; unfold complete_last in *; cbn [at_] in *;
      unfold run_step; cbn [at_ _is_running fst snd].
    + right. exists em. now split.
    + now rewrite app_nil_r.
    + now rewrite app_nil_r.
  - assert (Hne : at_ s <> Epilogue /\ at_ s <> Returned)
      by (destruct (at_ s); split; congruence).
    assert (Hno : ~ In search_complete (em ++ snd (run_step self s))).
    { intros Hin. apply in_app_or in Hin as [Hin | Hin].
      - unfold complete_last in H. destruct (at_ s); try contradiction; discriminate Hp.
      - now apply step_signals_are_statuses in Hin; [|apply Hne]. }
    unfold complete_last. destruct (at_ (fst (run_step self s))); try exact Hno. now left.
Qed.

Lemma complete_last_exec moves : forall s em,
  complete_last s em -> complete_last (fst (exec self moves s)) (em ++ snd (exec self moves s)).
Proof.
  induction moves as [|[|] moves IH]; intros s em H; simpl.
  - now rewrite app_nil_r.
  - pose proof (complete_last_step s em H) as H1.
    destruct (run_step self s) as [s1 out1].
    pose proof (IH s1 (em ++ out1) H1) as H2.
    destruct (exec self moves s1) as [s2 out2]. simpl in *.
    now rewrite app_assoc.
  - apply IH. destruct s; exact H.
Qed.

(** X18. Under every schedule the completion signal is emitted at most
    once, as the last signal of the worker, and only by a [run] that has
    returned: nothing follows it, and a [run] that an exception has left
    has not emitted it. *)
Theorem search_complete_is_the_last_signal :
  forall moves : list move,
    ~ In search_complete (snd (exec self moves init))
    \/ (at_ (fst (exec self moves init)) = Returned
        /\ exists ups,
             snd (exec self moves init) = ups ++ [search_complete]
             /\ ~ In search_complete ups).
Proof.
  intros moves.
  pose proof (complete_last_exec moves init [] (fun H => H)) as H. rewrite app_nil_l in H.
  unfold complete_last in H.
  destruct (at_ (fst (exec self moves init))); try (now left).
  destruct H as [H | H]; [now left | right; now split].
Qed.

(** The statuses that a request can give. *)
Lemma request_signals_statuses i url sig :
  In sig (fst (request_signals i url)) ->
  (exists u, sig = update_status i "Found" u)
  \/ sig = update_status i "Not Found" url
  \/ (exists u, sig = update_status i "Error" u).
Proof.
  unfold request_signals.
  destruct (requests_get url) as [response|e]; cbn [bind].
  - unfold Classifier.classify. cbv zeta.
    destruct (Classifier.check_not_found_conditions _).
    { simpl. intros [<- | []]. right; left; reflexivity. }
    destruct (Classifier.check_found_conditions _ _) as [b|e]; cbn [bind].
    + destruct (b || Classifier.check_general_results response); simpl; intros [<- | []]; eauto.
    + destruct e; simpl; try tauto. intros [<- | [<- | []]]; eauto.
  - destruct e; simpl; try tauto. intros [<- | [<- | []]]; eauto.
Qed.

(** X19. Under every schedule, when the next step of the worker emits
    Found or Not Found for an endpoint, Searching has been emitted for
    that endpoint before, with the URL that was requested; the status is
    one that the request of that URL gives, and a Not Found carries that
    same URL. *)
Theorem found_is_announced_first :
  forall (m1 : list move) (i : Z) (status u : string),
    In (update_status i status u) (snd (run_step self (fst (exec self m1 init)))) ->
    status = "Found" \/ status = "Not Found" ->
    exists url,
      In (update_status i "Searching..." url) (snd (exec self m1 init))
      /\ In (update_status i status u) (fst (request_signals i url))
      /\ (status = "Not Found" -> u = url).
Proof.
  intros m1 i status u Hin Hst.
  pose proof (inv_exec self m1 init [] (inv_init self)) as Hinv. rewrite app_nil_l in Hinv.
  destruct (fst (exec self m1 init)) as [p f]. unfold inv in Hinv. cbn [at_] in Hinv.
  destruct p as [|[|[j lib] todo]|j lib todo|j url todo|j url todo| | |e];
    try solve [ unfold run_step in Hin; cbn [at_ _is_running] in Hin;
                repeat match goal with
                       | H : context [if ?b then _ else _] |- _ => destruct b
                       | H : context [match ?o with Some _ => _ | None => _ end] |- _ =>
                           destruct o
                       end; simpl in Hin; intuition (subst; try discriminate; auto) ].
  - apply build_step_signals in Hin as [(k & msg & _ & Heq & _) | [Heq | [url Heq]]];
      inversion Heq; subst; destruct Hst; discriminate.
  - destruct Hinv as (_ & _ & _ & Hs).
    assert (Hsig : snd (run_step self (mkW (InFlight j url todo) f)) = fst (request_signals j url)).
    { unfold run_step. cbn [at_ _is_running].
      destruct (request_signals j url) as [sigs [x|]]; reflexivity. }
    rewrite Hsig in Hin.
    destruct (request_signals_about j url _ Hin) as (status' & u' & Heq).
    inversion Heq; subst. exists url. split; [exact Hs|]. split; [exact Hin|].
    intros ->. apply request_signals_statuses in Hin as [[v Hv] | [Hv | [v Hv]]];
      inversion Hv; reflexivity.
Qed.

Lemma single_row_step k s em :
  index self = Some k ->
  inv self s em ->
  (forall sig, In sig em -> sig = search_complete \/ about k sig = true) ->
  forall sig, In sig (snd (run_step self s)) -> sig = search_complete \/ about k sig = true.
Proof.
  intros Hk Hinv Hem sig Hin. destruct s as [p f]. unfold inv in Hinv. cbn [at_] in Hinv.
  destruct p as [|[|[j lib] todo]|j lib todo|j url todo|j url todo| | |e];
    try solve [ unfold run_step in Hin; cbn [at_ _is_running] in Hin;
                repeat match goal with
                       | H : context [if ?b then _ else _] |- _ => destruct b
                       | H : context [match ?o with Some _ => _ | None => _ end] |- _ =>
                           destruct o
                       end; simpl in Hin; intuition (subst; try discriminate; auto) ].
  - destruct Hinv as (_ & _ & Hi).
    assert (j = k) as -> by (apply (Hi k j Hk); now left).
    right. apply build_step_signals in Hin as [(k' & msg & Hk' & -> & _) | [-> | [url ->]]];
      simpl; try apply Z.eqb_refl.
    rewrite Hk in Hk'. inversion Hk'. apply Z.eqb_refl.
  - destruct Hinv as (_ & _ & _ & Hs).
    destruct (Hem _ Hs) as [Hd | Hab]; [discriminate|]. simpl in Hab. apply Z.eqb_eq in Hab.
    subst j. right.
    assert (Hsig : snd (run_step self (mkW (InFlight k url todo) f)) = fst (request_signals k url)).
    { unfold run_step. cbn [at_ _is_running].
      destruct (request_signals k url) as [sigs [x|]]; reflexivity. }
    rewrite Hsig in Hin.
    destruct (request_signals_about k url _ Hin) as (status' & u' & ->). simpl. apply Z.eqb_refl.
Qed.

Lemma single_row_exec k moves : forall s em,
  index self = Some k ->
  inv self s em ->
  (forall sig, In sig em -> sig = search_complete \/ about k sig = true) ->
  forall sig, In sig (snd (exec self moves s)) -> sig = search_complete \/ about k sig = true.
Proof.
  induction moves as [|[|] moves IH]; intros s em Hk Hinv Hem sig; simpl.
  - tauto.
  - pose proof (inv_step self s em Hinv) as Hinv1.
    pose proof (single_row_step k s em Hk Hinv Hem) as H1.
    destruct (run_step self s) as [s1 out1]. simpl in *.
    specialize (fun em' H => IH s1 em' Hk H).
    destruct (exec self moves s1) as [s2 out2]. simpl in *.
    intros Hin. apply in_app_or in Hin as [Hin | Hin]; [now apply H1|].
    apply (IH (em ++ out1) Hinv1); [|exact Hin].
    intros sig' Hin'. apply in_app_or in Hin' as [Hin' | Hin']; [now apply Hem | now apply H1].
  - apply (IH (stop s) em); try assumption.
Qed.

(** X20. A worker started for one row of the table emits statuses for
    that row only, under every schedule: searching one library again
    changes the status of no other library. *)
Theorem single_row_search_touches_only_that_row :
  forall (k : Z) (moves : list move) (sig : signal),
    index self = Some k ->
    In sig (snd (exec self moves init)) ->
    sig = search_complete \/ about k sig = true.
Proof.
  intros k moves sig Hk. apply (single_row_exec k moves init []); try assumption.
  - apply inv_init.
  - intros sig' [].
Qed.

(** *** A search that is not interrupted *)

Lemma exec_work moves s :
  exec self (Work :: moves) s
  = (fst (exec self moves (fst (run_step self s))),
     snd (run_step self s) ++ snd (exec self moves (fst (run_step self s)))).
Proof.
  cbn [exec]. destruct (run_step self s) as [s1 out1]. cbn [fst snd].
  destruct (exec self moves s1). reflexivity.
Qed.

(** A worker that has ended takes no further step. *)
Lemma exec_finished n : forall s, finished s = true -> exec self (repeat Work n) s = (s, []).
Proof.
  induction n as [|n IH]; intros s H; [reflexivity|].
  cbn [repeat]. rewrite exec_work.
  assert (Hstep : run_step self s = (s, [])).
  { destruct s as [p f]. unfold finished in H. cbn [at_] in H.
    destruct p; try discriminate H; reflexivity. }
  rewrite Hstep. cbn [fst snd]. now rewrite IH.
Qed.

(** In a search of the whole list [construct_url] emits nothing. *)
Lemma construct_url_silent lib :
  index self = None -> fst (construct_url self lib) = [].
Proof.
  intros Hi. destruct (construct_url self lib) as [sigs r] eqn:Hc. cbn [fst].
  destruct (construct_url_signals self lib sigs r Hc) as [Hs _].
  destruct sigs as [|sig sigs]; [reflexivity|].
  destruct (Hs sig (or_introl eq_refl)) as (k & msg & Hk & _). congruence.
Qed.

Lemma set_nth_middle {A : Type} (done : list A) x v rest :
  set_nth (List.length done) v (done ++ x :: rest) = done ++ v :: rest.
Proof. induction done as [|d done IH]; simpl; [reflexivity | now rewrite IH]. Qed.

Lemma update_status_slot_middle (done : status_column) x rest status :
  update_status_slot (done ++ x :: rest) (Z.of_nat (List.length done)) status
  = Ret (done ++ status :: rest).
Proof.
  unfold update_status_slot.
  assert (H : ((0 <=? Z.of_nat (List.length done))%Z
               && (Z.of_nat (List.length done) <? Z.of_nat (List.length (done ++ x :: rest)))%Z)
              = true).
  { apply andb_true_intro. split; [apply Z.leb_le; lia|].
    apply Z.ltb_lt. rewrite length_app. simpl. lia. }
  rewrite H, Nat2Z.id. now rewrite set_nth_middle.
Qed.

Lemma deliver_app a : forall b table,
  deliver (a ++ b) table = (table' <- deliver a table ;; deliver b table').
Proof.
  induction a as [|[row status u|] a IH]; intros b table; simpl; [reflexivity| |apply IH].
  destruct (update_status_slot table row status); simpl; [apply IH | reflexivity].
Qed.

Lemma classify_statuses requested response status u :
  Classifier.classify requested response = Ret (status, u) ->
  status = "Found" \/ status = "Not Found".
Proof.
  unfold Classifier.classify. cbv zeta.
  destruct (Classifier.check_not_found_conditions _); [intros H; inversion H; now right|].
  destruct (Classifier.check_found_conditions _ _) as [b|e]; cbn [bind]; [|discriminate].
  destruct (b || Classifier.check_general_results response); intros H; inversion H; auto.
Qed.

(** The signals of a request set the row of the endpoint to Found, Not
    Found or Error. *)
Lemma deliver_request_signals (done : status_column) x rest url sigs :
  request_signals (Z.of_nat (List.length done)) url = (sigs, None) ->
  exists status,
    resolved_status status = true
    /\ deliver sigs (done ++ x :: rest) = Ret (done ++ status :: rest).
Proof.
  unfold request_signals.
  destruct (response <- requests_get url ;; Classifier.classify url response)
    as [[status u]|e] eqn:Hc.
  - intros H. inversion H; subst. exists status. split.
    + destruct (requests_get url) as [response|e]; cbn [bind] in Hc; [|discriminate].
      apply classify_statuses in Hc as [-> | ->]; reflexivity.
    + cbn [deliver]. rewrite update_status_slot_middle. reflexivity.
  - destruct e; intros H; inversion H; subst. exists "Error". split; [reflexivity|].
    cbn [deliver]. rewrite update_status_slot_middle. cbn [bind].
    rewrite update_status_slot_middle. reflexivity.
Qed.

Lemma repeat_S {A : Type} (x : A) n : repeat x (S n) = x :: repeat x n.
Proof. reflexivity. Qed.

(** From the top of the loop, with the endpoints [ls] of the rows [k],
    [k + 1], ... still to do, the rows before them resolved, and steps
    enough for four per endpoint and two to finish. *)
Lemma full_run_from_loop_head (ls : list library) : forall (k n : nat) (done rest : status_column),
  index self = None ->
  4 * List.length ls + 2 <= n ->
  List.length done = k ->
  List.length rest = List.length ls ->
  Forall (fun st => resolved_status st = true) done ->
  (exists e,
      at_ (fst (exec self (repeat Work n)
                  (mkW (LoopHead (combine (map Z.of_nat (seq k (List.length ls))) ls)) true)))
      = Crashed e)
  \/ (at_ (fst (exec self (repeat Work n)
                  (mkW (LoopHead (combine (map Z.of_nat (seq k (List.length ls))) ls)) true)))
      = Returned
      /\ In search_complete
           (snd (exec self (repeat Work n)
                   (mkW (LoopHead (combine (map Z.of_nat (seq k (List.length ls))) ls)) true)))
      /\ exists table',
           deliver (snd (exec self (repeat Work n)
                           (mkW (LoopHead (combine (map Z.of_nat (seq k (List.length ls))) ls))
                              true)))
                   (done ++ rest) = Ret table'
           /\ List.length table' = k + List.length ls
           /\ Forall (fun st => resolved_status st = true) table').
Proof.
  induction ls as [|lib ls IH]; intros k n done rest Hi Hn Hdone Hrest Hres.
  - (* no endpoint left *)
    right. destruct rest; [|discriminate]. simpl in Hn.
    destruct n as [|[|n]]; try lia. rewrite !repeat_S, !exec_work.
    cbn [List.length seq map combine run_step at_ _is_running fst snd].
    rewrite exec_finished by reflexivity. cbn [fst snd at_ app].
    split; [reflexivity|]. split; [now left|].
    exists done. rewrite app_nil_r. cbn [deliver]. repeat split; [lia | exact Hres].
  - destruct rest as [|x rest]; [discriminate|]. simpl in Hrest, Hn.
    injection Hrest as Hrest.
    destruct n as [|[|[|[|n]]]]; try lia.
    cbn [List.length seq map combine].
    set (todo := combine (map Z.of_nat (seq (S k) (List.length ls))) ls).
    rewrite repeat_S, exec_work.
    cbn [run_step at_ _is_running fst snd app].
    rewrite repeat_S, exec_work.
    pose proof (construct_url_silent lib Hi) as Hsil.
    destruct (construct_url self lib) as [sigs r] eqn:Hcons. cbn [fst] in Hsil. subst sigs.
    assert (Hnext : forall status,
               resolved_status status = true ->
               forall m, 4 * List.length ls + 2 <= m ->
               (exists e, at_ (fst (exec self (repeat Work m) (mkW (LoopHead todo) true)))
                          = Crashed e)
               \/ (at_ (fst (exec self (repeat Work m) (mkW (LoopHead todo) true))) = Returned
                   /\ In search_complete
                        (snd (exec self (repeat Work m) (mkW (LoopHead todo) true)))
                   /\ exists table',
                        deliver (snd (exec self (repeat Work m) (mkW (LoopHead todo) true)))
                                (done ++ status :: rest) = Ret table'
                        /\ List.length table' = k + S (List.length ls)
                        /\ Forall (fun st => resolved_status st = true) table')).
    { intros status Hst m Hm.
      destruct (IH (S k) m (done ++ [status]) rest Hi Hm) as [Hc | (Hr & Hsc & t' & Hd & Hl & Hf)].
      - rewrite length_app. simpl. lia.
      - exact Hrest.
      - apply Forall_app. split; [exact Hres | now constructor].
      - now left.
      - right. split; [exact Hr|]. split; [exact Hsc|]. exists t'.
        rewrite <- app_assoc in Hd. simpl in Hd. split; [exact Hd|]. split; [lia | exact Hf]. }
    destruct r as [[[|c u]|]|e].
    + (* an empty URL *)
      assert (Hstep : run_step self (mkW (Build (Z.of_nat k) lib todo) true)
                      = (mkW (LoopHead todo) true,
                         [update_status (Z.of_nat k) "Error" "URL construction failed."]))
        by (unfold run_step; cbn [at_ _is_running]; now rewrite Hcons).
      rewrite Hstep. cbn [fst snd app].
      destruct (Hnext "Error" eq_refl (S (S n)) ltac:(lia)) as [Hc | (Hr & Hsc & t' & Hd & Hl & Hf)];
        [now left|].
      right. split; [exact Hr|]. split; [now right|]. exists t'.
      cbn [deliver]. subst k. rewrite update_status_slot_middle. cbn [bind].
      split; [exact Hd|]. split; [simpl; lia | exact Hf].
    + (* the request *)
      assert (Hstep : run_step self (mkW (Build (Z.of_nat k) lib todo) true)
                      = (mkW (PreRequest (Z.of_nat k) (String c u) todo) true,
                         [update_status (Z.of_nat k) "Searching..." (String c u)]))
        by (unfold run_step; cbn [at_ _is_running]; now rewrite Hcons).
      rewrite Hstep. cbn [fst snd app].
      rewrite repeat_S, exec_work. cbn [run_step at_ _is_running fst snd app].
      rewrite repeat_S, exec_work.
      destruct (request_signals (Z.of_nat k) (String c u)) as [rs [e|]] eqn:Hreq.
      * assert (Hstep' : run_step self (mkW (InFlight (Z.of_nat k) (String c u) todo) true)
                         = (mkW (Crashed e) true, rs))
          by (unfold run_step; cbn [at_ _is_running]; now rewrite Hreq).
        rewrite Hstep'. cbn [fst snd].
        left. rewrite exec_finished by reflexivity. now exists e.
      * assert (Hstep' : run_step self (mkW (InFlight (Z.of_nat k) (String c u) todo) true)
                         = (mkW (LoopHead todo) true, rs))
          by (unfold run_step; cbn [at_ _is_running]; now rewrite Hreq).
        rewrite Hstep'. cbn [fst snd].
        subst k. destruct (deliver_request_signals done "Searching..." rest _ _ Hreq)
          as (status & Hst & Hdel).
        destruct (Hnext status Hst n ltac:(lia)) as [Hc | (Hr & Hsc & t' & Hd & Hl & Hf)];
          [now left|].
        right. split; [exact Hr|]. split; [right; apply in_or_app; now right|]. exists t'.
        cbn [deliver]. rewrite update_status_slot_middle. cbn [bind].
        rewrite deliver_app, Hdel. cbn [bind].
        split; [exact Hd|]. split; [simpl; lia | exact Hf].
    + (* no URL *)
      assert (Hstep : run_step self (mkW (Build (Z.of_nat k) lib todo) true)
                      = (mkW (LoopHead todo) true,
                         [update_status (Z.of_nat k) "Error" "URL construction failed."]))
        by (unfold run_step; cbn [at_ _is_running]; now rewrite Hcons).
      rewrite Hstep. cbn [fst snd app].
      destruct (Hnext "Error" eq_refl (S (S n)) ltac:(lia)) as [Hc | (Hr & Hsc & t' & Hd & Hl & Hf)];
        [now left|].
      right. split; [exact Hr|]. split; [now right|]. exists t'.
      cbn [deliver]. subst k. rewrite update_status_slot_middle. cbn [bind].
      split; [exact Hd|]. split; [simpl; lia | exact Hf].
    + assert (Hstep : run_step self (mkW (Build (Z.of_nat k) lib todo) true)
                      = (mkW (Crashed e) true, []))
        by (unfold run_step; cbn [at_ _is_running]; now rewrite Hcons).
      rewrite Hstep. cbn [fst snd app].
      left. rewrite exec_finished by reflexivity. now exists e.
Qed.

(** X21. A search of the whole list that is never interrupted ends
    within four steps per endpoint and three more. Unless an exception
    has left [run], it has then returned and emitted the completion
    signal, and the signals it emitted, delivered in order to the slot
    [update_status] on a status column that [clear_statuses] has cleared,
    leave Found, Not Found or Error in every row: no row is left empty or
    at Searching. *)
Theorem uninterrupted_search_resolves_every_row :
  forall (table : status_column) (n : nat),
    index self = None ->
    List.length table = List.length (libraries self) ->
    4 * List.length (libraries self) + 3 <= n ->
    (exists e, at_ (fst (exec self (repeat Work n) init)) = Crashed e)
    \/ (at_ (fst (exec self (repeat Work n) init)) = Returned
        /\ In search_complete (snd (exec self (repeat Work n) init))
        /\ exists table',
             deliver (snd (exec self (repeat Work n) init)) (clear_statuses table) = Ret table'
             /\ List.length table' = List.length table
             /\ Forall (fun st => resolved_status st = true) table').
Proof.
  intros table n Hi Hlen Hn. destruct n as [|n]; [lia|].
  rewrite repeat_S, exec_work.
  assert (Hstep : run_step self init = (mkW (LoopHead (enumerate (libraries self))) true, []))
    by (unfold run_step, init; cbn [at_ _is_running]; now rewrite Hi).
  rewrite Hstep. cbn [fst snd app]. unfold enumerate.
  assert (Hclear : List.length (clear_statuses table) = List.length (libraries self))
    by (unfold clear_statuses; now rewrite length_map).
  destruct (full_run_from_loop_head (libraries self) 0 n [] (clear_statuses table) Hi
              ltac:(lia) eq_refl Hclear (Forall_nil _))
    as [Hc | (Hr & Hsc & t' & Hd & Hl & Hf)]; [now left|].
  right. split; [exact Hr|]. split; [exact Hsc|]. exists t'. simpl in Hd, Hl.
  split; [exact Hd|]. split; [lia | exact Hf].
Qed.

End WorkerRuns.

(** The cancel request arrives while the request of the sample endpoint
    is in flight: three steps later [run] has returned. *)
Lemma cancelled_worker_witness :
  3 <= SearchWorker.work_steps [SearchWorker.Work; SearchWorker.Stop; SearchWorker.Work;
                                SearchWorker.Work]
  /\ SearchWorker.finished
       (fst (SearchWorker.exec (H := Samples.redirect_env) Samples.one_library
               [SearchWorker.Work; SearchWorker.Stop; SearchWorker.Work; SearchWorker.Work]
               (SearchWorker.stop
                  (fst (SearchWorker.exec (H := Samples.redirect_env) Samples.one_library
                          (repeat SearchWorker.Work 4) SearchWorker.init))))) = true.
Proof.
  assert (H : 3 <= SearchWorker.work_steps
                     [SearchWorker.Work; SearchWorker.Stop; SearchWorker.Work; SearchWorker.Work])
    by (unfold SearchWorker.work_steps; simpl; lia).
  split; [exact H|].
  exact (cancelled_worker_finishes_within_three_steps (E := Samples.redirect_env)
           Samples.one_library _ _ H).
Defined.

(** The fifth step of the search of the sample endpoint emits Found; the
    endpoint was announced as Searching with the URL requested. *)
Lemma found_is_announced_witness :
  In (update_status 0%Z "Found" "http://opac.example/record/42")
     (snd (SearchWorker.run_step (H := Samples.redirect_env) Samples.one_library
             (fst (SearchWorker.exec (H := Samples.redirect_env) Samples.one_library
                     (repeat SearchWorker.Work 4) SearchWorker.init))))
  /\ exists url,
       In (update_status 0%Z "Searching..." url)
          (snd (SearchWorker.exec (H := Samples.redirect_env) Samples.one_library
                  (repeat SearchWorker.Work 4) SearchWorker.init))
       /\ In (update_status 0%Z "Found" "http://opac.example/record/42")
             (fst (SearchWorker.request_signals (H := Samples.redirect_env) 0%Z url))
       /\ ("Found" = "Not Found" -> "http://opac.example/record/42" = url).
Proof.
  assert (H : In (update_status 0%Z "Found" "http://opac.example/record/42")
                (snd (SearchWorker.run_step (H := Samples.redirect_env) Samples.one_library
                        (fst (SearchWorker.exec (H := Samples.redirect_env) Samples.one_library
                                (repeat SearchWorker.Work 4) SearchWorker.init)))))
    by (vm_compute; left; reflexivity).
  split; [exact H|].
  exact (found_is_announced_first (E := Samples.redirect_env) Samples.one_library
           (repeat SearchWorker.Work 4) 0%Z "Found" "http://opac.example/record/42" H
           (or_introl eq_refl)).
Defined.

(** The search of the first row alone: Found is about that row. *)
Lemma single_row_search_witness :
  SearchWorker.index Samples.one_row = Some 0%Z
  /\ In (update_status 0%Z "Found" "http://opac.example/record/42")
        (snd (SearchWorker.exec (H := Samples.redirect_env) Samples.one_row
                (repeat SearchWorker.Work 7) SearchWorker.init))
  /\ (update_status 0%Z "Found" "http://opac.example/record/42" = search_complete
      \/ SearchWorker.about 0%Z (update_status 0%Z "Found" "http://opac.example/record/42")
         = true).
Proof.
  assert (H : In (update_status 0%Z "Found" "http://opac.example/record/42")
                (snd (SearchWorker.exec (H := Samples.redirect_env) Samples.one_row
                        (repeat SearchWorker.Work 7) SearchWorker.init)))
    by (vm_compute; right; left; reflexivity).
  split; [reflexivity|]. split; [exact H|].
  exact (single_row_search_touches_only_that_row (E := Samples.redirect_env) Samples.one_row
           0%Z (repeat SearchWorker.Work 7) _ eq_refl H).
Defined.

(** The search of the sample list, seven steps long, on a column of one
    row. *)
Lemma uninterrupted_search_witness :
  SearchWorker.index Samples.one_library = None
  /\ List.length ["Not Found"] = List.length (SearchWorker.libraries Samples.one_library)
  /\ 4 * List.length (SearchWorker.libraries Samples.one_library) + 3 <= 7
  /\ SearchTab.deliver
       (snd (SearchWorker.exec (H := Samples.redirect_env) Samples.one_library
               (repeat SearchWorker.Work 7) SearchWorker.init))
       (SearchTab.clear_statuses ["Not Found"]) = Ret ["Found"]
  /\ ((exists e,
          SearchWorker.at_
            (fst (SearchWorker.exec (H := Samples.redirect_env) Samples.one_library
                    (repeat SearchWorker.Work 7) SearchWorker.init)) = SearchWorker.Crashed e)
      \/ (SearchWorker.at_
            (fst (SearchWorker.exec (H := Samples.redirect_env) Samples.one_library
                    (repeat SearchWorker.Work 7) SearchWorker.init)) = SearchWorker.Returned
          /\ In search_complete
               (snd (SearchWorker.exec (H := Samples.redirect_env) Samples.one_library
                       (repeat SearchWorker.Work 7) SearchWorker.init))
          /\ exists table',
               SearchTab.deliver
                 (snd (SearchWorker.exec (H := Samples.redirect_env) Samples.one_library
                         (repeat SearchWorker.Work 7) SearchWorker.init))
                 (SearchTab.clear_statuses ["Not Found"]) = Ret table'
               /\ List.length table' = List.length ["Not Found"]
               /\ Forall (fun st => SearchWorker.resolved_status st = true) table')).
Proof.
  assert (Hn : 4 * List.length (SearchWorker.libraries Samples.one_library) + 3 <= 7)
    by (simpl; lia).
  split; [reflexivity|]. split; [reflexivity|]. split; [exact Hn|]. split; [reflexivity|].
  exact (uninterrupted_search_resolves_every_row (E := Samples.redirect_env)
           Samples.one_library ["Not Found"] 7 eq_refl eq_refl Hn).
Defined.

(** ** The library list *)

Section LibraryList.
Import SearchTab.
Context {E : Collaborators}.

Lemma nth_error_set_nth_other {A : Type} (l : list A) : forall k j v,
  j <> k -> nth_error (set_nth k v l) j = nth_error l j.
Proof.
  induction l as [|x l IH]; intros [|k] [|j] v H; simpl; try reflexivity; try congruence.
  apply IH. congruence.
Qed.

Lemma length_set_nth {A : Type} (l : list A) : forall k v,
  List.length (set_nth k v l) = List.length l.
Proof.
  induction l as [|x l IH]; intros [|k] v; simpl; try reflexivity. now rewrite IH.
Qed.

(** X22. Whatever is answered to its dialogs, [edit_library] keeps the
    number of endpoints and the entry of every row but the selected one,
    and what it writes to the file, if anything, is the list in memory. *)
Theorem edit_library_touches_only_the_selected_row :
  forall (libs : list library) (row : option nat) (script : list answer),
    List.length (libraries_after (edit_library libs row script)) = List.length libs
    /\ (forall j, row <> Some j ->
          nth_error (libraries_after (edit_library libs row script)) j = nth_error libs j)
    /\ (forall l, written (edit_library libs row script) = Some l ->
          l = libraries_after (edit_library libs row script)).
Proof.
  intros libs row script.
  destruct (edit_library_stores_valid libs row script) as [[Hl Hw] | (k & e & -> & Hl & Hw & _)].
  - rewrite Hl, Hw. repeat split. discriminate.
  - rewrite Hl, Hw. split; [apply length_set_nth|]. split.
    + intros j Hj. apply nth_error_set_nth_other. congruence.
    + intros l H. now inversion H.
Qed.

(** X23. Confirming the three dialogs of [edit_library] with the values
    that the row already has changes nothing: the list is as it was and
    nothing is written to the file, whether or not the stored values pass
    the checks. *)
Theorem edit_with_the_stored_values_changes_nothing :
  forall (libs : list library) (row : nat) (e : library) (rest : list answer),
    nth_error libs row = Some e ->
    libraries_after
      (edit_library libs (Some row)
         ((name e, true) :: (isbn_url e, true) :: (title_author_url e, true) :: rest)) = libs
    /\ written
         (edit_library libs (Some row)
            ((name e, true) :: (isbn_url e, true) :: (title_author_url e, true) :: rest)) = None.
Proof.
  intros libs row e rest H. unfold edit_library. rewrite H. cbv zeta.
  destruct (negb true || negb (Py.truthy (Py.strip (name e)))); [now split|]. cbn [negb].
  destruct (Py.contains "{title}" (isbn_url e) || Py.contains "{author}" (isbn_url e));
    [now split|].
  destruct (negb (Py.contains "{isbn}" (isbn_url e))); [now split|].
  destruct (negb (validators_url (isbn_url e))); [now split|].
  destruct (Py.contains "{isbn}" (title_author_url e)); [now split|].
  destruct (negb (Py.contains "{title}" (title_author_url e))
            || negb (Py.contains "{author}" (title_author_url e))); [now split|].
  destruct (negb (validators_url (title_author_url e))); [now split|].
  rewrite !String.eqb_refl. now split.
Qed.

Lemma firstn_skipn_last {A : Type} (l : list A) (x : A) :
  firstn (List.length l) (l ++ [x]) ++ skipn (S (List.length l)) (l ++ [x]) = l.
Proof.
  induction l as [|y l IH]; simpl; [reflexivity|]. simpl in IH. now rewrite IH.
Qed.

(** X24. Deleting, with the confirmation, the row that [add_library] has
    just appended gives the list back as it was before the addition, in
    memory and in the file; when [add_library] has added nothing, that
    row does not exist and the list stays as it was. *)
Theorem delete_undoes_add :
  forall (libs : list library) (script : list answer),
    libraries_after
      (delete_library (libraries_after (add_library libs script)) (Some (List.length libs)) true)
    = libs
    /\ (forall l, written (add_library libs script) = Some l ->
        written
          (delete_library (libraries_after (add_library libs script))
             (Some (List.length libs)) true) = Some libs).
Proof.
  intros libs script.
  destruct (add_library_stores_valid libs script) as [[Hl Hw] | (e & Hl & Hw & _)];
    rewrite Hl, Hw; unfold delete_library.
  - assert (Hn : nth_error libs (List.length libs) = None) by (apply nth_error_None; lia).
    rewrite Hn. split; [reflexivity | intros l H; discriminate H].
  - assert (Hn : nth_error (libs ++ [e]) (List.length libs) = Some e)
      by (rewrite nth_error_app2, Nat.sub_diag by lia; reflexivity).
    rewrite Hn. cbv zeta. cbn [libraries_after written]. rewrite firstn_skipn_last.
    now split.
Qed.

(** X25. The endpoint that [add_library] appends has a non-empty name,
    and its name and its two templates have no whitespace at either end:
    they are stored stripped, whatever was typed. *)
Theorem add_library_stores_stripped_values :
  forall (libs : list library) (script : list answer) (e : library),
    libraries_after (add_library libs script) = libs ++ [e] ->
    Py.truthy (name e) = true
    /\ Py.strip (name e) = name e
    /\ Py.strip (isbn_url e) = isbn_url e
    /\ Py.strip (title_author_url e) = title_author_url e.
Proof.
  intros libs script e.
  assert (Hsame : libs = libs ++ [e] -> False).
  { intros H. apply (f_equal (@List.length library)) in H.
    rewrite length_app in H. simpl in H. lia. }
  unfold add_library.
  destruct script as [|[library_name ok] rest]; [intros H; now apply Hsame in H|].
  destruct ok; cbn [negb orb]; [|intros H; now apply Hsame in H].
  destruct (Py.truthy (Py.strip library_name)) eqn:Hname; cbn [negb];
    [|intros H; now apply Hsame in H].
  destruct (ask_isbn_url rest) as [u rest1 ws1| |]; try (intros H; now apply Hsame in H).
  destruct (ask_title_author_url rest1) as [v rest2 ws2| |];
    try (intros H; now apply Hsame in H).
  cbn [libraries_after]. intros H. apply app_inv_head in H. injection H as <-.
  cbn [name isbn_url title_author_url]. rewrite !strip_idem. now repeat split.
Qed.

End LibraryList.

(** The values of the sample endpoint, entered again. *)
Lemma edit_with_the_stored_values_witness :
  nth_error (SearchWorker.libraries Samples.one_library) 0
  = Some (mkLibrary "Example Library" "http://opac.example/search?isbn={isbn}"
            "http://opac.example/search?title={title}&author={author}")
  /\ SearchTab.libraries_after
       (SearchTab.edit_library (H := Samples.offline)
          (SearchWorker.libraries Samples.one_library) (Some 0)
          [ ("Example Library", true);
            ("http://opac.example/search?isbn={isbn}", true);
            ("http://opac.example/search?title={title}&author={author}", true) ])
     = SearchWorker.libraries Samples.one_library
  /\ SearchTab.written
       (SearchTab.edit_library (H := Samples.offline)
          (SearchWorker.libraries Samples.one_library) (Some 0)
          [ ("Example Library", true);
            ("http://opac.example/search?isbn={isbn}", true);
            ("http://opac.example/search?title={title}&author={author}", true) ])
     = None.
Proof.
  split; [reflexivity|].
  exact (edit_with_the_stored_values_changes_nothing (E := Samples.offline)
           (SearchWorker.libraries Samples.one_library) 0
           (mkLibrary "Example Library" "http://opac.example/search?isbn={isbn}"
              "http://opac.example/search?title={title}&author={author}") [] eq_refl).
Defined.

(** The sample endpoint as [add_library] stores it, typed with spaces
    around the ISBN template. *)
Lemma add_library_stripped_witness :
  SearchTab.libraries_after
    (SearchTab.add_library []
       [ ("Example Library", true);
         (" http://opac.example/search?isbn={isbn} ", true);
         ("http://opac.example/search?title={title}&author={author}", true) ])
  = [] ++ SearchWorker.libraries Samples.one_library
  /\ Py.strip "http://opac.example/search?isbn={isbn}" = "http://opac.example/search?isbn={isbn}".
Proof.
  split; [reflexivity|].
  exact (proj1 (proj2 (proj2
           (add_library_stores_stripped_values []
              [ ("Example Library", true);
                (" http://opac.example/search?isbn={isbn} ", true);
                ("http://opac.example/search?title={title}&author={author}", true) ]
              (mkLibrary "Example Library" "http://opac.example/search?isbn={isbn}"
                 "http://opac.example/search?title={title}&author={author}") eq_refl)))).
Defined.

(** [edit_library] stores a name as it was typed, spaces included. *)
Example edit_library_keeps_spaces :
  SearchTab.libraries_after
    (SearchTab.edit_library (H := Samples.offline)
       (SearchWorker.libraries Samples.one_library) (Some 0)
       [ (" Example Library ", true);
         ("http://opac.example/search?isbn={isbn}", true);
         ("http://opac.example/search?title={title}&author={author}", true) ])
  = [ mkLibrary " Example Library " "http://opac.example/search?isbn={isbn}"
        "http://opac.example/search?title={title}&author={author}" ].
Proof. reflexivity. Qed.

(** An endpoint is added, then deleted again. *)
Example delete_library_example :
  SearchTab.add_library []
    [ ("Example Library", true);
      (" http://opac.example/search?isbn={isbn} ", true);
      ("http://opac.example/search?title={title}&author={author}", true) ]
  = SearchTab.mkResult (SearchWorker.libraries Samples.one_library)
      (Some (SearchWorker.libraries Samples.one_library)) [] false None
  /\ SearchTab.delete_library (SearchWorker.libraries Samples.one_library) (Some 0) true
     = SearchTab.mkResult [] (Some []) [] false None.
Proof. split; reflexivity. Qed.
